(** * Content-Extraction-Tool: the extraction and normalisation pipeline

    A shallow embedding of the four processors of the backend
    (PDF/extract_pdf_opensource.py, PDF/extract_pdf_enterprise.py,
    Web/extract_web_opensource.py, Web/extract_web_enterprise.py) and of
    the storage handler (s3/s3.py), followed by the properties of the
    specification that they decide.

    Conventions.
    - A Python [str] is a [string]: the sequence of its code points, here
      the code points below 256.  [bytes] are [list Byte.byte].
    - Everything that leaves the process (HTTP requests, the Azure service,
      PyMuPDF opening a file, the storage client) is an oracle of the
      environment [Env].  An oracle sees the log of the external calls made
      so far, so two calls with the same arguments may answer differently.
    - A coroutine or method that can raise is a computation in the monad
      [M]: it threads the call log and returns [Ok v] or [Raise e]. *)

From Stdlib.Strings Require Import Ascii String Byte.
From stdpp Require Import base option list strings gmap pretty.

Set Warnings "-register-all".
Local Open Scope string_scope.
Local Open Scope list_scope.

(* ===================================================================== *)
(** ** Python values, exceptions and the effect monad                     *)
(* ===================================================================== *)

Module Py.

(** The exception classes the code distinguishes.  [ClientError] stands
    for [aiohttp.ClientError] and its subclasses, [TimeoutError] for
    [asyncio.TimeoutError], [HTTPException] for FastAPI's; every other
    class is caught only by [except Exception] and is kept with its
    class name and message. *)
Inductive exn : Type :=
  | ClientError (msg : string)
  | TimeoutError
  | HTTPException (status_code : nat) (detail : string)
  | Exception (class : string) (msg : string).

(** [str(e)] *)
Definition str_exn (e : exn) : string :=
  match e with
  | ClientError msg => msg
  | TimeoutError => ""
  | HTTPException sc detail => pretty sc +:+ ": " +:+ detail
  | Exception _ msg => msg
  end.

Inductive result (A : Type) : Type :=
  | Ok (a : A)
  | Raise (e : exn).
Arguments Ok {A} a.
Arguments Raise {A} e.

(** JSON-like dynamic values: what [response.json()] returns and what
    the dictionaries handed to [json.dumps] hold. *)
Inductive value : Type :=
  | VNone
  | VBool (b : bool)
  | VInt (z : Z)
  | VStr (s : string)
  | VList (l : list value)
  | VDict (items : list (string * value)).

(** [type(v).__name__], as the messages of [TypeError] and
    [AttributeError] show it. *)
Definition type_name (v : value) : string :=
  match v with
  | VNone => "NoneType"
  | VBool _ => "bool"
  | VInt _ => "int"
  | VStr _ => "str"
  | VList _ => "list"
  | VDict _ => "dict"
  end.

(** [bool(v)] *)
Definition truthy (v : value) : bool :=
  match v with
  | VNone => false
  | VBool b => b
  | VInt z => negb (Z.eqb z 0)
  | VStr s => negb (String.eqb s "")
  | VList l => match l with [] => false | _ => true end
  | VDict items => match items with [] => false | _ => true end
  end.

(** [d[k]] on the item list of a dict, [None] when the key is absent. *)
Fixpoint dict_lookup (k : string) (items : list (string * value)) : option value :=
  match items with
  | [] => None
  | (k', v) :: rest => if String.eqb k k' then Some v else dict_lookup k rest
  end.

(** [d.get(k, dflt)] *)
Definition dict_get (k : string) (dflt : value) (items : list (string * value)) : value :=
  match dict_lookup k items with
  | Some v => v
  | None => dflt
  end.

(** [str.isspace] on one code point below 256: TAB..CR, FS..US, space,
    NEL (133) and NBSP (160). *)
Definition isspace (c : ascii) : bool :=
  let n := nat_of_ascii c in
  (Nat.leb 9 n && Nat.leb n 13) || (Nat.leb 28 n && Nat.leb n 32)
  || Nat.eqb n 133 || Nat.eqb n 160.

Fixpoint lstrip (s : string) : string :=
  match s with
  | EmptyString => EmptyString
  | String c s' => if isspace c then lstrip s' else s
  end.

Fixpoint rstrip (s : string) : string :=
  match s with
  | EmptyString => EmptyString
  | String c s' =>
      match rstrip s' with
      | EmptyString => if isspace c then EmptyString else String c EmptyString
      | r => String c r
      end
  end.

(** [s.strip()] *)
Definition strip (s : string) : string := rstrip (lstrip s).

(** [bool(s)] for a [str] *)
Definition nonempty_str (s : string) : bool := negb (String.eqb s "").

(** [bool(l)] for a list *)
Definition nonempty {A} (l : list A) : bool :=
  match l with [] => false | _ => true end.

(** [s.startswith(('http://', 'https://'))] *)
Definition startswith_http (s : string) : bool :=
  String.prefix "http://" s || String.prefix "https://" s.

(** [s.encode('utf-8')] for code points below 256. *)
Definition encode_char (c : ascii) : list byte :=
  let n := N_of_ascii c in
  if (n <? 128)%N then [byte_of_ascii c]
  else [byte_of_ascii (ascii_of_N (192 + N.shiftr n 6));
        byte_of_ascii (ascii_of_N (128 + N.land n 63))].

Fixpoint encode_utf8 (s : string) : list byte :=
  match s with
  | EmptyString => []
  | String c s' => encode_char c ++ encode_utf8 s'
  end.

(** One external call, as it appears in the log. *)
Inductive event : Type :=
  | EvPageGet (url : string)
  | EvDiffbotGet (token url : string)
  | EvUpload (key : string)
  | EvFitzOpen (path : string)
  | EvAzureAnalyze (path : string)
  | EvAzureAnalyzeStream.

Definition log : Type := list event.

(** A computation: from the log so far to an outcome and the new log. *)
Definition M (A : Type) : Type := log -> result A * log.

Definition ret {A} (a : A) : M A := fun w => (Ok a, w).

Definition raise {A} (e : exn) : M A := fun w => (Raise e, w).

Definition bind {A B} (m : M A) (k : A -> M B) : M B :=
  fun w =>
    match m w with
    | (Ok a, w') => k a w'
    | (Raise e, w') => (Raise e, w')
    end.

(** [try: m  except <every class the handler matches> as e: h e] *)
Definition try_except {A} (m : M A) (h : exn -> M A) : M A :=
  fun w =>
    match m w with
    | (Ok a, w') => (Ok a, w')
    | (Raise e, w') => h e w'
    end.

(** An external call: the oracle answers from the log so far, and the
    call is appended to the log whatever the answer. *)
Definition call {A} (ev : event) (oracle : log -> result A) : M A :=
  fun w => (oracle w, w ++ [ev]).

(** Lift an outcome that involves no external call. *)
Definition lift {A} (r : result A) : M A := fun w => (r, w).

(** A [for] loop whose body can raise: the first exception ends it. *)
Fixpoint for_each {A S} (xs : list A) (body : S -> A -> M S) (s : S) : M S :=
  match xs with
  | [] => ret s
  | x :: xs' => bind (body s x) (for_each xs' body)
  end.

End Py.

Import Py.

Notation "x <~ m ;; k" := (Py.bind m (fun x => k))
  (at level 100, m at next level, right associativity).
Notation "m ;;; k" := (Py.bind m (fun _ => k))
  (at level 100, right associativity).

(* ===================================================================== *)
(** ** BeautifulSoup trees                                                *)
(* ===================================================================== *)

Module Soup.

(** A parsed page.  [Comment] stands for the string nodes that
    [get_text()] leaves out. *)
Inductive node : Type :=
  | NavigableString (s : string)
  | Comment (s : string)
  | Tag (name : string) (attrs : list (string * string)) (contents : list node).

(** [tag.descendants]: every node below, in document order. *)
Fixpoint descendants (n : node) : list node :=
  match n with
  | Tag _ _ cs =>
      (fix below (l : list node) : list node :=
         match l with
         | [] => []
         | c :: l' => c :: descendants c ++ below l'
         end) cs
  | _ => []
  end.

Definition is_tag_named (names : list string) (n : node) : bool :=
  match n with
  | Tag nm _ _ => existsb (String.eqb nm) names
  | _ => false
  end.

(** [tag.find_all(names)] *)
Definition find_all (names : list string) (n : node) : list node :=
  List.filter (is_tag_named names) (descendants n).

Definition own_text (n : node) : string :=
  match n with
  | NavigableString s => s
  | _ => ""
  end.

(** [tag.get_text()]: the strings below, joined without separator. *)
Definition get_text (n : node) : string :=
  String.concat "" (map own_text (descendants n)).

(** [tag.get(key)] *)
Fixpoint attr_lookup (key : string) (attrs : list (string * string)) : option string :=
  match attrs with
  | [] => None
  | (k, v) :: rest => if String.eqb key k then Some v else attr_lookup key rest
  end.

Definition get (key : string) (n : node) : option string :=
  match n with
  | Tag _ attrs _ => attr_lookup key attrs
  | _ => None
  end.

(** [soup.title]: the first [title] tag below, if any. *)
Definition title (soup : node) : option node :=
  head (find_all ["title"] soup).

(** [tag.string]: the single string child, looked for through single
    tag children; [None] otherwise. *)
Fixpoint string_of (n : node) : option string :=
  match n with
  | NavigableString s => Some s
  | Comment s => Some s
  | Tag _ _ cs =>
      match cs with
      | [c] => string_of c
      | _ => None
      end
  end.

(** [soup.find('meta', {'name': nm})] *)
Definition find_meta (nm : string) (soup : node) : option node :=
  head (List.filter
          (fun n => match get "name" n with
                    | Some v => String.eqb v nm
                    | None => false
                    end)
          (find_all ["meta"] soup)).

End Soup.

(* ===================================================================== *)
(** ** PyMuPDF documents and Azure analysis results                       *)
(* ===================================================================== *)

Module Fitz.

(** [doc.extract_image(xref)] returns a dict with the payload and its
    extension; [None] here is a result that [if base_image:] rejects. *)
Record base_image : Type := {
  image : list byte;
  ext : string
}.

(** [page.get_text()], and the xrefs ([img[0]]) of [page.get_images()]. *)
Record page : Type := {
  get_text : string;
  get_images : list nat
}.

Record document : Type := {
  pages : list page;
  metadata : gmap string string;
  extract_image : nat -> result (option base_image)
}.

End Fitz.

Module Azure.

Record cell : Type := {
  row_index : nat;
  column_index : nat;
  cell_content : string
}.

Record table : Type := {
  row_count : nat;
  column_count : nat;
  cells : list cell
}.

(** [page.lines], each line by its [content]. *)
Record page : Type := { lines : list string }.

(** [kv.key] and [kv.value] are elements with a [content], or [None]. *)
Record key_value_pair : Type := {
  key : option string;
  value : option string
}.

Record analyze_result : Type := {
  pages : list page;
  tables : list table;
  key_value_pairs : list key_value_pair
}.

End Azure.

(* ===================================================================== *)
(** ** The environment                                                    *)
(* ===================================================================== *)

(** What a caller hands to [storage_client.upload]. *)
Inductive file_data : Type :=
  | BytesIO (buf : list byte) (pos : nat)
  | RawBytes (b : list byte)
  | PyDict (d : list (string * value)).

(** [storage_client.upload(file_data, key[, content_type])]: any object
    with that method; the content type is [None] when the caller passes
    two arguments only. *)
Definition file_data_t : Type := file_data.

Definition storage_client : Type :=
  log -> file_data -> string -> option string -> result string.

(** The reply to [session.get]: the status line, what reading the body
    gives ([response.text()] or [response.json()]), and [str(e)] of the
    [ClientResponseError] that [raise_for_status] raises for it.  aiohttp
    formats that text from the status, the reason and the URL the reply
    came from, as in
    [404, message='Not Found', url='https://example.org/missing']; the
    format is the library's and the URL is the one after redirects, so
    the text comes with the reply. *)
Record http_response (B : Type) : Type := {
  status : nat;
  reason : string;
  body : result B;
  error_text : string
}.
Arguments status {B} _.
Arguments reason {B} _.
Arguments body {B} _.
Arguments error_text {B} _.

Record Env : Type := {
  (** [datetime.now().isoformat()] and [.strftime("%Y%m%d_%H%M%S")] *)
  now_isoformat : string;
  now_strftime : string;
  (** [hashlib.md5(s.encode()).hexdigest()] *)
  md5_hexdigest : string -> string;
  (** [os.path.basename], [os.path.getsize], [os.getenv] *)
  basename : string -> string;
  getsize : string -> nat;
  getenv : string -> option string;
  (** [urllib.parse.urljoin] *)
  urljoin : string -> string -> string;
  (** [BeautifulSoup(html, 'html.parser')] and [str(soup)] *)
  BeautifulSoup : string -> Soup.node;
  str_soup : Soup.node -> string;
  (** [json.dumps], and [pd.DataFrame(table).to_csv(buf, index=False)] *)
  json_dumps : value -> result string;
  to_csv : list (list string) -> result string;
  (** [session.get(url, headers=...)] on the page itself *)
  session_get : log -> string -> result (http_response string);
  (** [session.get(diffbot_api_url, params={token, url, ...})] *)
  diffbot_get : log -> string -> string -> result (http_response value);
  (** [fitz.open(path)] and [fitz.open(stream=..., filetype="pdf")] *)
  fitz_open : log -> string -> result Fitz.document;
  fitz_open_stream : list byte -> result Fitz.document;
  (** [DocumentAnalysisClient(endpoint, credential)] succeeds or raises *)
  DocumentAnalysisClient : string -> string -> result unit;
  (** [begin_analyze_document("prebuilt-document", document=f).result()] *)
  analyze_document : log -> string -> result Azure.analyze_result;
  analyze_stream : log -> list byte -> result Azure.analyze_result;
  (** whether [asyncio.timeout] fires before the awaited call returns *)
  timed_out : log -> bool
}.

(** [bool(os.getenv(...))]: set and not empty. *)
Definition truthy_opt (o : option string) : bool :=
  match o with
  | Some s => nonempty_str s
  | None => false
  end.

Definition nl : string := String (ascii_of_nat 10) EmptyString.

(** [enumerate(l)] *)
Definition enumerate {A} (l : list A) : list (nat * A) :=
  zip (seq 0 (length l)) l.

(** [resp.raise_for_status()]: aiohttp raises [ClientResponseError], a
    [ClientError], from status 400 on. *)
Definition raise_for_status {B} (resp : http_response B) : M unit :=
  if Nat.leb 400 (status resp)
  then raise (ClientError (error_text resp))
  else ret tt.

(* ===================================================================== *)
(** ** Web/extract_web_opensource.py                                      *)
(* ===================================================================== *)

Module WebProcessor.
Section WebProcessor.
Context (env : Env).

Record t : Type := {
  storage : option storage_client;
  base_path : string
}.

Definition __init__ (storage_client : option storage_client) : t :=
  {| storage := storage_client; base_path := "Web/Opensource/" |}.

Record image : Type := { image_url : string; alt : string; image_title : string }.
Record link : Type := { link_url : string; link_text : string }.

Record page_metadata : Type := {
  title : option string;
  url : string;
  description : string;
  keywords : string
}.

Record content : Type := {
  text_content : list string;
  tables : list (list (list string));
  images : list image;
  links : list link;
  metadata : page_metadata
}.

Record response_content : Type := {
  r_text : list string;
  r_tables : list (list (list string));
  r_images : list image;
  r_links : list link
}.

Record response_metadata : Type := {
  m_url : string;
  m_title : option string;
  m_description : string;
  m_keywords : string;
  storage_paths : gmap string string;
  processor : string;
  m_timestamp : string
}.

Record response : Type := {
  r_status : string;
  message : string;
  document_id : string;
  timestamp : string;
  r_content : response_content;
  r_metadata : response_metadata
}.

Definition _generate_document_id (url : string) : string :=
  let timestamp := now_strftime env in
  let url_hash := String.substring 0 8 (md5_hexdigest env url) in
  "web_os_" +:+ url_hash +:+ "_" +:+ timestamp.

(** The [src]/[href] of an element, made absolute. *)
Definition absolute (url target : string) : string :=
  if negb (startswith_http target) then urljoin env url target else target.

(** lines 97-102 *)
Definition extract_text (soup : Soup.node) : list string :=
  foldl (fun text_content p =>
           let text := strip (Soup.get_text p) in
           if nonempty_str text then text_content ++ [text] else text_content)
        [] (Soup.find_all ["p"; "h1"; "h2"; "h3"; "h4"; "h5"; "h6"] soup).

(** lines 104-113 *)
Definition extract_tables (soup : Soup.node) : list (list (list string)) :=
  foldl (fun tables table =>
           let table_data :=
             foldl (fun table_data row =>
                      let row_data :=
                        map (fun cell => strip (Soup.get_text cell))
                            (Soup.find_all ["td"; "th"] row) in
                      if nonempty row_data then table_data ++ [row_data]
                      else table_data)
                   [] (Soup.find_all ["tr"] table) in
           if nonempty table_data then tables ++ [table_data] else tables)
        [] (Soup.find_all ["table"] soup).

(** lines 115-126 *)
Definition extract_images (url : string) (soup : Soup.node) : list image :=
  foldl (fun images img =>
           match Soup.get "src" img with
           | Some src =>
               if nonempty_str src then
                 images ++ [{| image_url := absolute url src;
                               alt := default "" (Soup.get "alt" img);
                               image_title := default "" (Soup.get "title" img) |}]
               else images
           | None => images
           end)
        [] (Soup.find_all ["img"] soup).

(** lines 128-138 *)
Definition extract_links (url : string) (soup : Soup.node) : list link :=
  foldl (fun links a =>
           match Soup.get "href" a with
           | Some href =>
               if nonempty_str href then
                 links ++ [{| link_url := absolute url href;
                              link_text := strip (Soup.get_text a) |}]
               else links
           | None => links
           end)
        [] (Soup.find_all ["a"] soup).

(** [soup.find('meta', {'name': nm})['content'] if soup.find(...) else ''];
    a [meta] tag without [content] raises [KeyError]. *)
Definition meta_content (nm : string) (soup : Soup.node) : M string :=
  match Soup.find_meta nm soup with
  | Some tag =>
      match Soup.get "content" tag with
      | Some v => ret v
      | None => raise (Exception "KeyError" "'content'")
      end
  | None => ret ""
  end.

Definition _extract_content (url : string) : M content :=
  try_except
    (response <~ call (EvPageGet url) (fun w => session_get env w url) ;;
     (if negb (Nat.eqb (status response) 200)
      then raise (Exception "Exception"
                    ("HTTP Error " +:+ pretty (status response) +:+ ": " +:+ reason response))
      else ret tt) ;;;
     html <~ lift (body response) ;;
     let soup := BeautifulSoup env html in
     let text_content := extract_text soup in
     let tables := extract_tables soup in
     let images := extract_images url soup in
     let links := extract_links url soup in
     description <~ meta_content "description" soup ;;
     keywords <~ meta_content "keywords" soup ;;
     let metadata :=
       {| title := match Soup.title soup with
                   | Some tag => Soup.string_of tag
                   | None => Some ""
                   end;
          url := url;
          description := description;
          keywords := keywords |} in
     ret {| text_content := text_content;
            tables := tables;
            images := images;
            links := links;
            metadata := metadata |})
    (fun e => raise e).

Definition opt_str (o : option string) : value :=
  match o with Some s => VStr s | None => VNone end.

Definition metadata_dict (m : page_metadata) : value :=
  VDict [("title", opt_str (title m)); ("url", VStr (url m));
         ("description", VStr (description m)); ("keywords", VStr (keywords m))].

Definition _store_content (self : t) (content : content) (doc_id : string)
  : M (gmap string string) :=
  try_except
    (let storage_paths : gmap string string := ∅ in
     let base_folder := base_path self +:+ doc_id in
     match storage self with
     | Some client =>
         let text_content := String.concat (nl +:+ nl) (text_content content) in
         let text_key := base_folder +:+ "/text_content.txt" in
         call (EvUpload text_key)
              (fun w => client w (RawBytes (encode_utf8 text_content)) text_key None) ;;;
         let storage_paths := <["text" := text_key]> storage_paths in
         let metadata_key := base_folder +:+ "/metadata.json" in
         metadata_json <~ lift (json_dumps env (metadata_dict (metadata content))) ;;
         call (EvUpload metadata_key)
              (fun w => client w (RawBytes (encode_utf8 metadata_json)) metadata_key None) ;;;
         let storage_paths := <["metadata" := metadata_key]> storage_paths in
         ret storage_paths
     | None => ret storage_paths
     end)
    (fun e => ret ∅).

Definition process_webpage (self : t) (url : string) : M response :=
  try_except
    (let doc_id := _generate_document_id url in
     let timestamp := now_isoformat env in
     content <~ _extract_content url ;;
     storage_paths <~ match storage self with
                      | Some _ => _store_content self content doc_id
                      | None => ret ∅
                      end ;;
     ret {| r_status := "success";
            message := "Webpage processed successfully";
            document_id := doc_id;
            timestamp := timestamp;
            r_content := {| r_text := text_content content;
                            r_tables := tables content;
                            r_images := images content;
                            r_links := links content |};
            r_metadata := {| m_url := url;
                             m_title := title (metadata content);
                             m_description := description (metadata content);
                             m_keywords := keywords (metadata content);
                             storage_paths := storage_paths;
                             processor := "BeautifulSoup";
                             m_timestamp := timestamp |} |})
    (fun e => raise e).

End WebProcessor.
End WebProcessor.

(* ===================================================================== *)
(** ** Web/extract_web_enterprise.py                                      *)
(* ===================================================================== *)

Module WebEnterpriseProcessor.
Section WebEnterpriseProcessor.
Context (env : Env).

Record t : Type := {
  storage : option storage_client;
  base_path : string;
  diffbot_token : option string
}.

Definition __init__ (storage_client : option storage_client) : t :=
  {| storage := storage_client;
     base_path := "Web/Enterprise/";
     diffbot_token := getenv env "DIFFBOT_TOKEN" |}.

(** The dict both extraction routines return.  The Diffbot branch also
    sets [author], [date] and [siteName]; the BeautifulSoup one does not. *)
Record content : Type := {
  text : value;
  title : value;
  images : value;
  links : value;
  html : value;
  author : option value;
  date : option value;
  siteName : option value
}.

Record response_content : Type := {
  r_text : value;
  r_title : value;
  r_images : value;
  r_links : value
}.

Record response_metadata : Type := {
  m_url : string;
  processor : string;
  m_timestamp : string;
  storage_paths : gmap string string
}.

Record response : Type := {
  r_status : string;
  message : string;
  document_id : string;
  timestamp : string;
  r_content : response_content;
  r_metadata : response_metadata
}.

Definition _generate_document_id (url : string) : string :=
  let timestamp := now_strftime env in
  let url_hash := String.substring 0 8 (md5_hexdigest env url) in
  "web_enterprise_" +:+ url_hash +:+ "_" +:+ timestamp.

Definition absolute (url target : string) : string :=
  if negb (startswith_http target) then urljoin env url target else target.

(** lines 134-138 *)
Definition extract_text (soup : Soup.node) : list string :=
  foldl (fun text_content p =>
           let text := strip (Soup.get_text p) in
           if nonempty_str text then text_content ++ [text] else text_content)
        [] (Soup.find_all ["p"; "h1"; "h2"; "h3"; "h4"; "h5"; "h6"] soup).

(** lines 140-150 *)
Definition extract_images (url : string) (soup : Soup.node) : list value :=
  foldl (fun images img =>
           match Soup.get "src" img with
           | Some src =>
               if nonempty_str src then
                 images ++ [VDict [("url", VStr (absolute url src));
                                   ("alt", VStr (default "" (Soup.get "alt" img)));
                                   ("title", VStr (default "" (Soup.get "title" img)))]]
               else images
           | None => images
           end)
        [] (Soup.find_all ["img"] soup).

(** lines 152-161 *)
Definition extract_links (url : string) (soup : Soup.node) : list value :=
  foldl (fun links a =>
           match Soup.get "href" a with
           | Some href =>
               if nonempty_str href then
                 links ++ [VDict [("url", VStr (absolute url href));
                                  ("text", VStr (strip (Soup.get_text a)))]]
               else links
           | None => links
           end)
        [] (Soup.find_all ["a"] soup).

Definition opt_str (o : option string) : value :=
  match o with Some s => VStr s | None => VNone end.

Definition _extract_content_fallback (url : string) : M content :=
  try_except
    (response <~ call (EvPageGet url) (fun w => session_get env w url) ;;
     raise_for_status response ;;;
     html <~ lift (body response) ;;
     let soup := BeautifulSoup env html in
     let text_content := extract_text soup in
     let images := extract_images url soup in
     let links := extract_links url soup in
     ret {| text := VStr (String.concat nl text_content);
            title := match Soup.title soup with
                     | Some tag => opt_str (Soup.string_of tag)
                     | None => VStr ""
                     end;
            images := VList images;
            links := VList links;
            html := VStr (str_soup env soup);
            author := None; date := None; siteName := None |})
    (fun e => raise e).

(** ['objects' in data] *)
Definition has_objects (data : value) : result bool :=
  match data with
  | VDict items => Ok (bool_decide (is_Some (dict_lookup "objects" items)))
  | VList l => Ok (existsb (fun v => match v with
                                     | VStr s => String.eqb s "objects"
                                     | _ => false
                                     end) l)
  | VStr s => Ok (bool_decide (is_Some (String.index 0 "objects" s)))
  | _ => Raise (Exception "TypeError"
                  ("argument of type '" +:+ type_name data +:+ "' is not iterable"))
  end.

(** [data['objects']] *)
Definition get_objects (data : value) : result value :=
  match data with
  | VDict items =>
      match dict_lookup "objects" items with
      | Some v => Ok v
      | None => Raise (Exception "KeyError" "'objects'")
      end
  | VList _ =>
      Raise (Exception "TypeError" "list indices must be integers or slices, not str")
  | VStr _ => Raise (Exception "TypeError" "string indices must be integers, not 'str'")
  | _ => Raise (Exception "TypeError"
                  ("'" +:+ type_name data +:+ "' object is not subscriptable"))
  end.

(** [objects[0]] *)
Definition first_object (objects : value) : result value :=
  match objects with
  | VList (x :: _) => Ok x
  | VList [] => Raise (Exception "IndexError" "list index out of range")
  | VStr (String c _) => Ok (VStr (String c EmptyString))
  | VStr EmptyString => Raise (Exception "IndexError" "string index out of range")
  | VDict _ => Raise (Exception "KeyError" "0")
  | _ => Raise (Exception "TypeError"
                  ("'" +:+ type_name objects +:+ "' object is not subscriptable"))
  end.

(** [article.get(k, dflt)] *)
Definition article_get (article : value) (k : string) (dflt : value) : result value :=
  match article with
  | VDict items => Ok (dict_get k dflt items)
  | _ => Raise (Exception "AttributeError"
                  ("'" +:+ type_name article +:+ "' object has no attribute 'get'"))
  end.

Definition _extract_content_diffbot (self : t) (url : string) : M content :=
  try_except
    (let token := default "" (diffbot_token self) in
     response <~ call (EvDiffbotGet token url) (fun w => diffbot_get env w token url) ;;
     raise_for_status response ;;;
     data <~ lift (body response) ;;
     present <~ lift (has_objects data) ;;
     empty <~ (if negb present then ret true
               else objects <~ lift (get_objects data) ;; ret (negb (truthy objects))) ;;
     if (empty : bool) then _extract_content_fallback url
     else
       objects <~ lift (get_objects data) ;;
       article <~ lift (first_object objects) ;;
       text <~ lift (article_get article "text" (VStr "")) ;;
       title <~ lift (article_get article "title" (VStr "")) ;;
       images <~ lift (article_get article "images" (VList [])) ;;
       links <~ lift (article_get article "links" (VList [])) ;;
       html <~ lift (article_get article "html" (VStr "")) ;;
       author <~ lift (article_get article "author" (VStr "")) ;;
       date <~ lift (article_get article "date" (VStr "")) ;;
       siteName <~ lift (article_get article "siteName" (VStr "")) ;;
       ret {| text := text; title := title; images := images; links := links;
              html := html; author := Some author; date := Some date;
              siteName := Some siteName |})
    (fun e =>
       match e with
       | ClientError _ => _extract_content_fallback url
       | _ => raise e
       end).

(** [v.encode('utf-8')] *)
Definition encode (v : value) : result (list byte) :=
  match v with
  | VStr s => Ok (encode_utf8 s)
  | _ => Raise (Exception "AttributeError"
                  ("'" +:+ type_name v +:+ "' object has no attribute 'encode'"))
  end.

(** [len(v)] *)
Definition len (v : value) : result nat :=
  match v with
  | VList l => Ok (length l)
  | VStr s => Ok (String.length s)
  | VDict items => Ok (length items)
  | _ => Raise (Exception "TypeError"
                  ("object of type '" +:+ type_name v +:+ "' has no len()"))
  end.

Definition _store_content (self : t) (content : content) (doc_id : string)
  : M (gmap string string) :=
  try_except
    (let storage_paths : gmap string string := ∅ in
     let base_folder := base_path self +:+ doc_id in
     match storage self with
     | Some client =>
         let text_key := base_folder +:+ "/content.txt" in
         text_bytes <~ lift (encode (text content)) ;;
         call (EvUpload text_key)
              (fun w => client w (BytesIO text_bytes 0) text_key (Some "text/plain")) ;;;
         let storage_paths := <["text" := text_key]> storage_paths in
         let html_key := base_folder +:+ "/content.html" in
         html_bytes <~ lift (encode (html content)) ;;
         call (EvUpload html_key)
              (fun w => client w (BytesIO html_bytes 0) html_key (Some "text/html")) ;;;
         let storage_paths := <["html" := html_key]> storage_paths in
         image_count <~ lift (len (images content)) ;;
         link_count <~ lift (len (links content)) ;;
         let metadata := VDict [("title", title content);
                                ("image_count", VInt (Z.of_nat image_count));
                                ("link_count", VInt (Z.of_nat link_count))] in
         let metadata_key := base_folder +:+ "/metadata.json" in
         metadata_json <~ lift (json_dumps env metadata) ;;
         call (EvUpload metadata_key)
              (fun w => client w (BytesIO (encode_utf8 metadata_json) 0) metadata_key
                          (Some "application/json")) ;;;
         let storage_paths := <["metadata" := metadata_key]> storage_paths in
         ret storage_paths
     | None => ret storage_paths
     end)
    (fun e => ret ∅).

Definition process_webpage (self : t) (url : string) : M response :=
  try_except
    (let doc_id := _generate_document_id url in
     let timestamp := now_isoformat env in
     content <~ (if truthy_opt (diffbot_token self)
                 then _extract_content_diffbot self url
                 else _extract_content_fallback url) ;;
     storage_paths <~ match storage self with
                      | Some _ => _store_content self content doc_id
                      | None => ret ∅
                      end ;;
     ret {| r_status := "success";
            message := "Webpage processed successfully";
            document_id := doc_id;
            timestamp := timestamp;
            r_content := {| r_text := text content;
                            r_title := title content;
                            r_images := images content;
                            r_links := links content |};
            r_metadata := {| m_url := url;
                             processor := if truthy_opt (diffbot_token self)
                                          then "Diffbot"
                                          else "BeautifulSoup (fallback)";
                             m_timestamp := timestamp;
                             storage_paths := storage_paths |} |})
    (fun e => raise e).

End WebEnterpriseProcessor.
End WebEnterpriseProcessor.

(* ===================================================================== *)
(** ** PDF/extract_pdf_opensource.py                                      *)
(* ===================================================================== *)

Module PDFProcessor.
Section PDFProcessor.
Context (env : Env).

Record t : Type := {
  storage : option storage_client;
  base_path : string
}.

Definition __init__ (storage_client : option storage_client) : t :=
  {| storage := storage_client; base_path := "PDF/Opensource/" |}.

Record image : Type := {
  data : list byte;
  ext : string;
  page : nat;
  index : nat
}.

Record pdf_metadata : Type := {
  title : string;
  author : string;
  subject : string;
  keywords : string;
  page_count : nat;
  file_size : nat;
  creation_date : string;
  modification_date : string
}.

Record content : Type := {
  text_content : list string;
  images : list image;
  tables : list (list (list string));
  metadata : pdf_metadata
}.

(** The image entries of the response: page, index and extension only. *)
Record image_info : Type := {
  i_page : nat;
  i_index : nat;
  i_ext : string
}.

Record response_content : Type := {
  r_text : list string;
  r_tables : list (list (list string));
  r_images : option (list image_info)
}.

Record response_metadata : Type := {
  m_document : pdf_metadata;
  storage_paths : gmap string string;
  processor : string;
  m_timestamp : string
}.

Record response : Type := {
  document_id : string;
  r_content : response_content;
  r_metadata : response_metadata
}.

Definition _generate_document_id (file_path : string) : string :=
  let timestamp := now_strftime env in
  let filename := basename env file_path in
  "pdf_os_" +:+ filename +:+ "_" +:+ timestamp.

(** lines 44-60: the images of one page; an image whose extraction
    raises, or gives nothing, is skipped. *)
Definition page_images (doc : Fitz.document) (page_num : nat) (pg : Fitz.page)
    (images : list image) : list image :=
  foldl (fun images '(img_index, xref) =>
           match Fitz.extract_image doc xref with
           | Ok (Some base_image) =>
               images ++ [{| data := Fitz.image base_image;
                             ext := Fitz.ext base_image;
                             page := page_num + 1;
                             index := img_index |}]
           | Ok None => images
           | Raise _ => images
           end)
        images (enumerate (Fitz.get_images pg)).

(** lines 36-60: [for page_num in range(len(doc)): page = doc[page_num]] *)
Definition extract_pages (doc : Fitz.document) : list string * list image :=
  foldl (fun '(text_content, images) '(page_num, pg) =>
           let text := Fitz.get_text pg in
           let text_content :=
             if nonempty_str (strip text) then text_content ++ [text]
             else text_content in
           (text_content, page_images doc page_num pg images))
        ([], []) (enumerate (Fitz.pages doc)).

Definition metadata_get (doc : Fitz.document) (k : string) : string :=
  default "" (Fitz.metadata doc !! k).

Definition _extract_content (file_path : string) : M content :=
  try_except
    (doc <~ call (EvFitzOpen file_path) (fun w => fitz_open env w file_path) ;;
     let '(text_content, images) := extract_pages doc in
     let tables : list (list (list string)) := [] in
     let metadata :=
       {| title := metadata_get doc "title";
          author := metadata_get doc "author";
          subject := metadata_get doc "subject";
          keywords := metadata_get doc "keywords";
          page_count := length (Fitz.pages doc);
          file_size := getsize env file_path;
          creation_date := metadata_get doc "creationDate";
          modification_date := metadata_get doc "modDate" |} in
     ret {| text_content := text_content;
            images := images;
            tables := tables;
            metadata := metadata |})
    (fun e => raise e).

Definition metadata_dict (m : pdf_metadata) : value :=
  VDict [("title", VStr (title m)); ("author", VStr (author m));
         ("subject", VStr (subject m)); ("keywords", VStr (keywords m));
         ("page_count", VInt (Z.of_nat (page_count m)));
         ("file_size", VInt (Z.of_nat (file_size m)));
         ("creation_date", VStr (creation_date m));
         ("modification_date", VStr (modification_date m))].

Definition _store_content (self : t) (content : content) (doc_id : string)
  : M (gmap string string) :=
  try_except
    (let storage_paths : gmap string string := ∅ in
     let base_folder := base_path self +:+ doc_id in
     match storage self with
     | Some client =>
         let text_content := String.concat (nl +:+ nl) (text_content content) in
         let text_key := base_folder +:+ "/text_content.txt" in
         call (EvUpload text_key)
              (fun w => client w (RawBytes (encode_utf8 text_content)) text_key None) ;;;
         let storage_paths := <["text" := text_key]> storage_paths in
         let metadata_key := base_folder +:+ "/metadata.json" in
         metadata_json <~ lift (json_dumps env (metadata_dict (metadata content))) ;;
         call (EvUpload metadata_key)
              (fun w => client w (RawBytes (encode_utf8 metadata_json)) metadata_key None) ;;;
         let storage_paths := <["metadata" := metadata_key]> storage_paths in
         if nonempty (images content) then
           let images_folder := base_folder +:+ "/images" in
           for_each (enumerate (images content))
             (fun storage_paths '(idx, img) =>
                let img_key :=
                  images_folder +:+ "/image_" +:+ pretty idx +:+ "." +:+ ext img in
                call (EvUpload img_key)
                     (fun w => client w (RawBytes (data img)) img_key None) ;;;
                ret (<["image_" +:+ pretty idx := img_key]> storage_paths))
             storage_paths
         else ret storage_paths
     | None => ret storage_paths
     end)
    (fun e => ret ∅).

Definition process_pdf (self : t) (file_path : string) : M response :=
  try_except
    (let doc_id := _generate_document_id file_path in
     content <~ _extract_content file_path ;;
     storage_paths <~ match storage self with
                      | Some _ =>
                          try_except (_store_content self content doc_id)
                                     (fun storage_error => ret ∅)
                      | None => ret ∅
                      end ;;
     ret {| document_id := doc_id;
            r_content :=
              {| r_text := text_content content;
                 r_tables := tables content;
                 r_images :=
                   if nonempty (images content)
                   then Some (map (fun img => {| i_page := page img;
                                                 i_index := index img;
                                                 i_ext := ext img |})
                                  (images content))
                   else None |};
            r_metadata := {| m_document := metadata content;
                             storage_paths := storage_paths;
                             processor := "PyMuPDF";
                             m_timestamp := now_isoformat env |} |})
    (fun e => raise e).

End PDFProcessor.
End PDFProcessor.

(* ===================================================================== *)
(** ** PDF/extract_pdf_enterprise.py                                      *)
(* ===================================================================== *)

Module PDFEnterpriseProcessor.
Section PDFEnterpriseProcessor.
Context (env : Env).

Record t : Type := {
  storage : option storage_client;
  timeout : nat;
  max_retries : nat;
  retry_delay : nat;
  base_path : string;
  endpoint : option string;
  key : option string;
  document_analysis_client : option unit;
  use_fallback : bool
}.

Definition __init__ (storage_client : option storage_client)
    (timeout max_retries retry_delay : nat) : t :=
  let endpoint := getenv env "AZURE_DOCUMENT_INTELLIGENCE_ENDPOINT" in
  let key := getenv env "AZURE_DOCUMENT_INTELLIGENCE_KEY" in
  let '(client, use_fallback) :=
    if negb (truthy_opt endpoint) || negb (truthy_opt key) then (None, true)
    else
      match DocumentAnalysisClient env (default "" endpoint) (default "" key) with
      | Ok c => (Some c, false)
      | Raise _ => (None, true)
      end in
  {| storage := storage_client;
     timeout := timeout;
     max_retries := max_retries;
     retry_delay := retry_delay;
     base_path := "PDF/Enterprise/";
     endpoint := endpoint;
     key := key;
     document_analysis_client := client;
     use_fallback := use_fallback |}.

Record image : Type := {
  data : list byte;
  ext : string;
  page : nat;
  index : nat
}.

(** The [metadata] entry of the dicts of [_process_with_azure] and
    [_process_with_pymupdf]. *)
Record result_metadata : Type := {
  page_count : nat;
  md_processor : string;
  md_timestamp : string
}.

(** The dict an extraction routine returns; a key the routine does not
    set is [None]. *)
Record content : Type := {
  text_content : list string;
  tables : list (list (list string));
  images : option (list image);
  key_value_pairs : option (gmap string string);
  pages : option nat;
  metadata : option result_metadata
}.

Record response_content : Type := {
  r_text : list string;
  r_tables : list (list (list string));
  r_images : list image;
  r_key_value_pairs : gmap string string
}.

Record response_metadata : Type := {
  filename : string;
  m_timestamp : string;
  processor : string;
  m_page_count : nat;
  storage_paths : gmap string string
}.

Record response : Type := {
  r_status : string;
  message : string;
  document_id : string;
  timestamp : string;
  r_content : response_content;
  r_metadata : response_metadata
}.

(** lines 60-94 *)
Definition _extract_images_from_pdf (pdf_file : list byte) : list image :=
  match fitz_open_stream env pdf_file with
  | Ok doc =>
      foldl (fun images '(page_num, pg) =>
               foldl (fun images '(img_idx, xref) =>
                        match Fitz.extract_image doc xref with
                        | Ok (Some base_image) =>
                            images ++ [{| data := Fitz.image base_image;
                                          ext := Fitz.ext base_image;
                                          page := page_num + 1;
                                          index := img_idx + 1 |}]
                        | Ok None => images
                        | Raise _ => images
                        end)
                     images (enumerate (Fitz.get_images pg)))
            [] (enumerate (Fitz.pages doc))
  | Raise _ => []
  end.

(** [max(f(c) for c in cells)]: [ValueError] on an empty sequence. *)
Definition max_of (f : Azure.cell -> nat) (cells : list Azure.cell) : result nat :=
  match cells with
  | [] => Raise (Exception "ValueError" "max() arg is an empty sequence")
  | c :: cs => Ok (foldl (fun m c' => Nat.max m (f c')) (f c) cs)
  end.

(** [table_data[r][c] = v]: [IndexError] out of range. *)
Definition setitem2 (table_data : list (list string)) (r c : nat) (v : string)
  : result (list (list string)) :=
  match table_data !! r with
  | Some row =>
      if Nat.ltb c (length row) then Ok (<[r := <[c := v]> row]> table_data)
      else Raise (Exception "IndexError" "list assignment index out of range")
  | None => Raise (Exception "IndexError" "list index out of range")
  end.

(** lines 122-132: one table, sized by the largest indices its cells
    report. *)
Definition grid_of_cells (table : Azure.table) : result (list (list string)) :=
  match max_of Azure.row_index (Azure.cells table) with
  | Raise e => Raise e
  | Ok max_row =>
      match max_of Azure.column_index (Azure.cells table) with
      | Raise e => Raise e
      | Ok max_col =>
          let rows := max_row + 1 in
          let cols := max_col + 1 in
          let table_data :=
            foldl (fun table_data _ => table_data ++ [replicate cols ""])
                  [] (seq 0 rows) in
          foldl (fun acc cell =>
                   match acc with
                   | Ok table_data =>
                       setitem2 table_data (Azure.row_index cell)
                                (Azure.column_index cell) (Azure.cell_content cell)
                   | Raise e => Raise e
                   end)
                (Ok table_data) (Azure.cells table)
      end
  end.

(** lines 136-140 and 308-310 *)
Definition collect_key_values (kvs : list Azure.key_value_pair) : gmap string string :=
  foldl (fun key_value_pairs kv =>
           match Azure.key kv, Azure.value kv with
           | Some k, Some v => <[k := v]> key_value_pairs
           | _, _ => key_value_pairs
           end)
        ∅ kvs.

(** lines 96-152 *)
Definition _extract_content (self : t) (pdf_file : list byte) : M content :=
  match document_analysis_client self with
  | None => raise (Exception "ValueError"
                     "Azure Document Intelligence client not initialized")
  | Some _ =>
      try_except
        (let images := _extract_images_from_pdf pdf_file in
         result <~ call EvAzureAnalyzeStream (fun w => analyze_stream env w pdf_file) ;;
         let text_content :=
           foldl (fun text_content pg =>
                    let page_text :=
                      foldl (fun page_text line => page_text +:+ line +:+ nl)
                            "" (Azure.lines pg) in
                    text_content ++ [page_text])
                 [] (Azure.pages result) in
         tables <~ for_each (Azure.tables result)
                     (fun tables table =>
                        table_data <~ lift (grid_of_cells table) ;;
                        ret (tables ++ [table_data]))
                     [] ;;
         let key_value_pairs := collect_key_values (Azure.key_value_pairs result) in
         ret {| text_content := text_content;
                tables := tables;
                images := Some images;
                key_value_pairs := Some key_value_pairs;
                pages := Some (length (Azure.pages result));
                metadata := None |})
        (fun e => raise e)
  end.

(** lines 295-306: one table, sized by the counts the service declares;
    [None] when it has no row. *)
Definition grid_of_counts (table : Azure.table) : option (list (list string)) :=
  let table_data :=
    foldl (fun table_data row_idx =>
             let row_data :=
               foldl (fun row_data col_idx =>
                        let cell :=
                          List.find (fun cell =>
                                       Nat.eqb (Azure.row_index cell) row_idx
                                       && Nat.eqb (Azure.column_index cell) col_idx)
                                    (Azure.cells table) in
                        row_data ++ [match cell with
                                     | Some c => Azure.cell_content c
                                     | None => ""
                                     end])
                     [] (seq 0 (Azure.column_count table)) in
             table_data ++ [row_data])
          [] (seq 0 (Azure.row_count table)) in
  if nonempty table_data then Some table_data else None.

(** lines 277-321 *)
Definition _process_with_azure (self : t) (file_path : string) : M content :=
  result <~ call (EvAzureAnalyze file_path) (fun w => analyze_document env w file_path) ;;
  let text_content :=
    foldl (fun text_content pg => text_content ++ [String.concat nl (Azure.lines pg)])
          [] (Azure.pages result) in
  let tables :=
    foldl (fun tables table =>
             match grid_of_counts table with
             | Some table_data => tables ++ [table_data]
             | None => tables
             end)
          [] (Azure.tables result) in
  let key_value_pairs := collect_key_values (Azure.key_value_pairs result) in
  ret {| text_content := text_content;
         tables := tables;
         images := None;
         key_value_pairs := Some key_value_pairs;
         pages := None;
         metadata := Some {| page_count := length (Azure.pages result);
                             md_processor := "Azure Document Intelligence";
                             md_timestamp := now_isoformat env |} |}.

(** lines 344-388 *)
Definition _process_with_pymupdf (file_path : string) : M content :=
  doc <~ call (EvFitzOpen file_path) (fun w => fitz_open env w file_path) ;;
  let '(text_content, images) :=
    foldl (fun '(text_content, images) '(page_num, pg) =>
             let text := Fitz.get_text pg in
             let text_content :=
               if nonempty_str (strip text) then text_content ++ [text]
               else text_content in
             let images :=
               foldl (fun images '(img_index, xref) =>
                        match Fitz.extract_image doc xref with
                        | Ok (Some base_image) =>
                            images ++ [{| data := Fitz.image base_image;
                                          ext := Fitz.ext base_image;
                                          page := page_num + 1;
                                          index := img_index |}]
                        | Ok None => images
                        | Raise _ => images
                        end)
                     images (enumerate (Fitz.get_images pg)) in
             (text_content, images))
          ([], []) (enumerate (Fitz.pages doc)) in
  ret {| text_content := text_content;
         images := Some images;
         tables := [];
         key_value_pairs := None;
         pages := None;
         metadata := Some {| page_count := length (Fitz.pages doc);
                             md_processor := "PyMuPDF (fallback)";
                             md_timestamp := now_isoformat env |} |}.

(** lines 19-28: [asyncio.timeout] may cut the awaited call short; the
    [TimeoutError] becomes an [HTTPException]. *)
Definition async_timeout {A} (timeout : nat) (m : M A) : M A :=
  try_except
    (fun w => let '(r, w') := m w in
              if timed_out env w then (Raise TimeoutError, w') else (r, w'))
    (fun e =>
       match e with
       | TimeoutError =>
           raise (HTTPException 500
                    ("Operation timed out after " +:+ pretty timeout +:+ " seconds"))
       | _ => raise e
       end).

(** lines 256-275 *)
Definition _extract_content_azure (self : t) (file_path : string) : M content :=
  try_except
    (async_timeout (timeout self) (_process_with_azure self file_path))
    (fun e =>
       match e with
       | TimeoutError => raise (HTTPException 500 "Azure processing timed out")
       | _ => raise e
       end).

(** lines 323-342 *)
Definition _extract_content_fallback (self : t) (file_path : string) : M content :=
  try_except
    (async_timeout (timeout self) (_process_with_pymupdf file_path))
    (fun e =>
       match e with
       | TimeoutError => raise (HTTPException 500 "PDF processing timed out")
       | _ => raise e
       end).

Definition metadata_dict (m : result_metadata) : value :=
  VDict [("page_count", VInt (Z.of_nat (page_count m)));
         ("processor", VStr (md_processor m));
         ("timestamp", VStr (md_timestamp m))].

(** lines 154-210: a failure is logged and raised again. *)
Definition _store_content (self : t) (content : content) (doc_id : string)
  : M (gmap string string) :=
  try_except
    (let storage_paths : gmap string string := ∅ in
     let base_folder := base_path self +:+ doc_id in
     match storage self with
     | Some client =>
         let text_content := String.concat (nl +:+ nl) (text_content content) in
         let text_key := base_folder +:+ "/text_content.txt" in
         call (EvUpload text_key)
              (fun w => client w (BytesIO (encode_utf8 text_content) 0) text_key
                          (Some "text/plain")) ;;;
         let storage_paths := <["text" := text_key]> storage_paths in
         storage_paths <~
           for_each (enumerate (tables content))
             (fun storage_paths '(idx, table) =>
                csv <~ lift (to_csv env table) ;;
                let table_key :=
                  base_folder +:+ "/table_" +:+ pretty (idx + 1) +:+ ".csv" in
                call (EvUpload table_key)
                     (fun w => client w (BytesIO (encode_utf8 csv) 0) table_key
                                 (Some "text/csv")) ;;;
                ret (<["table_" +:+ pretty (idx + 1) := table_key]> storage_paths))
             storage_paths ;;
         let metadata_key := base_folder +:+ "/metadata.json" in
         metadata <~ match metadata content with
                     | Some m => ret m
                     | None => raise (Exception "KeyError" "'metadata'")
                     end ;;
         metadata_json <~ lift (json_dumps env (metadata_dict metadata)) ;;
         call (EvUpload metadata_key)
              (fun w => client w (BytesIO (encode_utf8 metadata_json) 0) metadata_key
                          (Some "application/json")) ;;;
         let storage_paths := <["metadata" := metadata_key]> storage_paths in
         ret storage_paths
     | None => ret storage_paths
     end)
    (fun e => raise e).

Definition _generate_document_id (self : t) (file_path : string) : string :=
  let timestamp := now_strftime env in
  let filename := basename env file_path in
  "pdf_" +:+ (if use_fallback self then "fallback" else "azure")
         +:+ "_" +:+ filename +:+ "_" +:+ timestamp.

(** lines 212-254 *)
Definition process_pdf (self : t) (file_path : string) : M response :=
  try_except
    (let doc_id := _generate_document_id self file_path in
     let timestamp := now_isoformat env in
     result <~ (if use_fallback self
                then _extract_content_fallback self file_path
                else _extract_content_azure self file_path) ;;
     storage_paths <~ match storage self with
                      | Some _ => _store_content self result doc_id
                      | None => ret ∅
                      end ;;
     ret {| r_status := "success";
            message := "PDF processed successfully";
            document_id := doc_id;
            timestamp := timestamp;
            r_content := {| r_text := text_content result;
                            r_tables := tables result;
                            r_images := default [] (images result);
                            r_key_value_pairs := default ∅ (key_value_pairs result) |};
            r_metadata := {| filename := basename env file_path;
                             m_timestamp := timestamp;
                             processor := if use_fallback self
                                          then "PyMuPDF (fallback)"
                                          else "Azure Document Intelligence";
                             m_page_count :=
                               match metadata result with
                               | Some m => page_count m
                               | None => 0
                               end;
                             storage_paths := storage_paths |} |})
    (fun e =>
       raise (HTTPException 500 ("Error processing PDF: " +:+ str_exn e))).

End PDFEnterpriseProcessor.
End PDFEnterpriseProcessor.

(* ===================================================================== *)
(** ** s3/s3.py                                                           *)
(* ===================================================================== *)

Module StorageHandler.
Section StorageHandler.
Context (env : Env).

Record s3_object : Type := {
  obj_body : list byte;
  obj_content_type : string
}.

(** The objects of the service, by bucket and key. *)
Definition s3_state : Type := gmap (string * string) s3_object.

(** The boto3 client: [faults] says when a request fails, from the
    state of the service and the bucket and key addressed. *)
Record s3_client : Type := {
  faults : s3_state -> string -> string -> option exn
}.

Record t : Type := {
  client : s3_client;
  bucket_name : string
}.

(** [s3_client.upload_fileobj(Fileobj, Bucket, Key, ExtraArgs={'ContentType': ct})]:
    stores what [Fileobj.read()] gives from the current position; an
    object without [read] is refused. *)
Definition upload_fileobj (c : s3_client) (fileobj : file_data)
    (bucket key content_type : string) (st : s3_state) : result unit * s3_state :=
  match fileobj with
  | BytesIO buf pos =>
      match faults c st bucket key with
      | Some e => (Raise e, st)
      | None =>
          (Ok tt, <[(bucket, key) := {| obj_body := drop pos buf;
                                        obj_content_type := content_type |}]> st)
      end
  | _ => (Raise (Exception "ValueError" "Fileobj must implement read"), st)
  end.

(** [hasattr(file_data, 'seek')] then [file_data.seek(0)] *)
Definition seek0 (file_data : file_data) : file_data_t :=
  match file_data with
  | BytesIO buf _ => BytesIO buf 0
  | other => other
  end.

(** lines 31-61 *)
Definition upload (self : t) (file_data : file_data) (file_path content_type : string)
    (st : s3_state) : result string * s3_state :=
  let prepared : result (file_data_t * string) :=
    match file_data with
    | PyDict d =>
        match json_dumps env (VDict d) with
        | Ok s => Ok (BytesIO (encode_utf8 s) 0, "application/json")
        | Raise e => Raise e
        end
    | _ => Ok (file_data, content_type)
    end in
  match prepared with
  | Raise e => (Raise e, st)
  | Ok (file_data, content_type) =>
      let file_data := seek0 file_data in
      match upload_fileobj (client self) file_data (bucket_name self) file_path
                           content_type st with
      | (Ok _, st') => (Ok file_path, st')
      | (Raise e, st') => (Raise e, st')
      end
  end.

(** lines 63-70 *)
Definition download (self : t) (file_path : string) (st : s3_state)
  : result (list byte) :=
  match faults (client self) st (bucket_name self) file_path with
  | Some e => Raise e
  | None =>
      match st !! (bucket_name self, file_path) with
      | Some o => Ok (obj_body o)
      | None => Raise (Exception "ClientError" "NoSuchKey")
      end
  end.

(** [s3_client.delete_object(Bucket, Key)]: removes the object; the
    service answers a key that holds nothing like any other. *)
Definition delete_object (c : s3_client) (bucket key : string) (st : s3_state)
  : result unit * s3_state :=
  match faults c st bucket key with
  | Some e => (Raise e, st)
  | None => (Ok tt, base.delete (bucket, key) st)
  end.

(** lines 72-79: [True], or [False] when the request raised. *)
Definition delete (self : t) (file_path : string) (st : s3_state) : bool * s3_state :=
  match delete_object (client self) (bucket_name self) file_path st with
  | (Ok _, st') => (true, st')
  | (Raise _, st') => (false, st')
  end.

End StorageHandler.
End StorageHandler.

(* ===================================================================== *)
(** ** cloud_config.py                                                    *)
(* ===================================================================== *)

Module CloudConfig.

(** [os.environ] *)
Definition environ : Type := gmap string string.

(** [str(x)] of an optional string inside an f-string. *)
Definition str_opt (o : option string) : string := default "None" o.

(** lines 4-9; [client] stands for
    [SecretManagerServiceClient().access_secret_version(request={"name": name})
       .payload.data.decode("UTF-8")], which answers or raises. *)
Definition access_secret_version (client : string -> result string)
    (project_id : option string) (secret_id version_id : string) : result string :=
  let name := "projects/" +:+ str_opt project_id +:+ "/secrets/" +:+ secret_id
              +:+ "/versions/" +:+ version_id in
  client name.

(** lines 15-23, in the order of the dict. *)
Definition secrets : list (string * string) :=
  [("AWS_ACCESS_KEY_ID", "aws-access-key");
   ("AWS_SECRET_ACCESS_KEY", "aws-secret-key");
   ("AWS_REGION", "aws-region");
   ("AWS_BUCKET_NAME", "aws-bucket-name");
   ("DI_ENDPOINT", "azure-di-endpoint");
   ("DI_KEY", "azure-di-key");
   ("DIFFBOT_TOKEN", "diffbot-token")].

Definition has_nul (s : string) : bool :=
  existsb (Ascii.eqb Ascii.zero) (list_ascii_of_string s).

(** [os.environ[k] = v]: a value with a null character is refused. *)
Definition setitem (k v : string) (e : environ) : result environ :=
  if has_nul v then Raise (Exception "ValueError" "embedded null byte")
  else Ok (<[k := v]> e).

(** One turn of the loop of [load_secrets] (lines 25-30): any exception
    is printed and the loop goes on. *)
Definition load_secret (client : string -> result string) (project_id : option string)
    (e : environ) (entry : string * string) : environ :=
  match access_secret_version client project_id entry.2 "latest" with
  | Ok value =>
      match setitem entry.1 value e with
      | Ok e' => e'
      | Raise _ => e
      end
  | Raise _ => e
  end.

(** lines 11-30 *)
Definition load_secrets (client : string -> result string) (e : environ) : environ :=
  let project_id := e !! "GOOGLE_CLOUD_PROJECT" in
  foldl (load_secret client project_id) e secrets.

(** lines 32-34: what importing the module does to the environment. *)
Definition on_import (client : string -> result string) (e : environ) : environ :=
  if truthy_opt (e !! "GOOGLE_CLOUD_PROJECT") then load_secrets client e else e.

End CloudConfig.

(* ===================================================================== *)
(** ** fast_api.py                                                        *)
(* ===================================================================== *)

Module FastApi.
Section FastApi.
Context (env : Env).

(** The [storage] object of lines 30-39 seen as the [storage_client] of a
    processor: [StorageHandler.upload] has three positional parameters
    and no default, so a call with two raises [TypeError]; [service] is
    the state of the bucket when the call is made. *)
Definition storage_client_of (storage : StorageHandler.t)
    (service : log -> StorageHandler.s3_state) : storage_client :=
  fun w file_data file_path content_type =>
    match content_type with
    | Some ct => (StorageHandler.upload env storage file_data file_path ct (service w)).1
    | None =>
        Raise (Exception "TypeError"
                 "StorageHandler.upload() missing 1 required positional argument: 'content_type'")
    end.

(** [UploadFile]: the declared content type and the bytes. *)
Record upload_file : Type := {
  uf_filename : string;
  uf_content_type : option string;
  uf_file : list byte
}.

(** The dict every endpoint returns. *)
Record processing_response (C Mt : Type) : Type := {
  a_status : string;
  a_message : string;
  a_document_id : string;
  a_timestamp : string;
  a_content : C;
  a_metadata : Mt
}.

(** **** The helper [process_pdf] (lines 85-133)                          *)

(** What the helper does to the outside: a POST of some content, a sleep
    of some seconds. *)
Inductive step : Type :=
| Post (content : list byte)
| Sleep (seconds : nat).

Record service_reply : Type := {
  status_code : nat;
  reply_text : string;
  reply_json : result value
}.

(** [except (httpx.ConnectTimeout, httpx.ReadTimeout, httpx.RemoteProtocolError)] *)
Definition retried (e : exn) : bool :=
  match e with
  | Exception c _ =>
      bool_decide (c ∈ ["ConnectTimeout"; "ReadTimeout"; "RemoteProtocolError"])
  | _ => false
  end.

(** The loop [for attempt in range(max_retries)], with [remaining] turns
    to go; [pos] is the position of the upload's file, which
    [await file.read()] moves to the end.  A loop that runs out returns
    [None]. *)
Fixpoint attempts (post : list step -> list byte -> result service_reply)
    (file : list byte) (max_retries remaining pos retry_delay : nat) (tr : list step)
  : result (option value) * list step :=
  match remaining with
  | 0 => (Ok None, tr)
  | S remaining' =>
      let attempt := max_retries - remaining in
      let content := drop pos file in
      let pos := Nat.max pos (length file) in
      let tr := tr ++ [Post content] in
      match post tr content with
      | Ok response =>
          if Nat.eqb (status_code response) 200 then
            match reply_json response with
            | Ok v => (Ok (Some v), tr)
            | Raise e => (Raise e, tr)
            end
          else
            (Raise (HTTPException (status_code response)
                      ("PDF processing service returned error: " +:+ reply_text response)),
             tr)
      | Raise e =>
          if retried e then
            if Nat.eqb attempt (max_retries - 1) then
              (Raise (HTTPException 500
                        ("PDF processing service timeout after " +:+ pretty max_retries
                         +:+ " attempts: " +:+ str_exn e)), tr)
            else
              attempts post file max_retries remaining' pos (retry_delay * 2)
                       (tr ++ [Sleep retry_delay])
          else (Raise e, tr)
      end
  end.

Definition process_pdf (post : list step -> list byte -> result service_reply)
    (file : upload_file) : result (option value) * list step :=
  let max_retries := 3 in
  let retry_delay := 1 in
  match attempts post (uf_file file) max_retries max_retries 0 retry_delay [] with
  | (Ok v, tr) => (Ok v, tr)
  | (Raise e, tr) =>
      (Raise (HTTPException 500 ("Error processing PDF: " +:+ str_exn e)), tr)
  end.

(** **** The PDF endpoints                                                *)

(** The temporary files of the host: the names that exist. *)
Definition files : Type := gset string.

Record host : Type := {
  (** [tempfile.NamedTemporaryFile(delete=False, suffix='.pdf')]: the
      name of the file it creates, or the exception *)
  NamedTemporaryFile : files -> result string;
  (** whether copying the upload into it raises *)
  write_fails : list byte -> option exn;
  (** whether [os.unlink] raises *)
  unlink_fails : string -> option exn
}.

(** [not file.content_type == "application/pdf"] *)
Definition is_pdf (file : upload_file) : bool :=
  bool_decide (uf_content_type file = Some "application/pdf").

(** lines 146-151 and 197-202: the [with] block; the file outlives it. *)
Definition save_upload (h : host) (file : upload_file) (fs : files)
  : result string * files :=
  match NamedTemporaryFile h fs with
  | Raise e => (Raise e, fs)
  | Ok name =>
      match write_fails h (uf_file file) with
      | Some e => (Raise e, {[name]} ∪ fs)
      | None => (Ok name, {[name]} ∪ fs)
      end
  end.

(** lines 169-174 and 224-229: [os.unlink] in a [try] that only logs. *)
Definition cleanup (h : host) (temp_file_path : string) (fs : files) : files :=
  match unlink_fails h temp_file_path with
  | Some _ => fs
  | None => fs ∖ {[temp_file_path]}
  end.

Definition pdf_error (e : exn) : exn :=
  HTTPException 500 ("Error processing PDF: " +:+ str_exn e).

(** lines 135-183.  The dict [process_pdf] of [PDFProcessor] returns has
    no "timestamp" key, so [result.get("timestamp", "")] is the default. *)
Definition process_pdf_opensource (h : host) (storage : option storage_client)
    (file : upload_file) (fs : files) (w : log)
  : (result (processing_response PDFProcessor.response_content
                                 PDFProcessor.response_metadata) * log) * files :=
  if negb (is_pdf file) then
    ((Raise (HTTPException 400 "Only PDF files are accepted"), w), fs)
  else
    match save_upload h file fs with
    | (Raise e, fs) => ((Raise (pdf_error e), w), fs)
    | (Ok temp_file_path, fs) =>
        let processor := PDFProcessor.__init__ storage in
        let '(result, w) := PDFProcessor.process_pdf env processor temp_file_path w in
        let fs := cleanup h temp_file_path fs in
        match result with
        | Ok result =>
            ((Ok {| a_status := "success";
                    a_message := "PDF processed successfully";
                    a_document_id := PDFProcessor.document_id result;
                    a_timestamp := "";
                    a_content := PDFProcessor.r_content result;
                    a_metadata := PDFProcessor.r_metadata result |}, w), fs)
        | Raise e => ((Raise (pdf_error e), w), fs)
        end
    end.

(** lines 186-236.  The dict of [PDFEnterpriseProcessor.process_pdf] is
    never empty, so the test [if not result] never holds. *)
Definition process_pdf_enterprise (h : host) (storage : option storage_client)
    (file : upload_file) (fs : files) (w : log)
  : (result (processing_response PDFEnterpriseProcessor.response_content
                                 PDFEnterpriseProcessor.response_metadata) * log) * files :=
  if negb (is_pdf file) then
    ((Raise (HTTPException 400 "Only PDF files are accepted"), w), fs)
  else
    match save_upload h file fs with
    | (Raise e, fs) => ((Raise (pdf_error e), w), fs)
    | (Ok temp_file_path, fs) =>
        let processor := PDFEnterpriseProcessor.__init__ env storage 300 3 5 in
        let '(result, w) :=
          PDFEnterpriseProcessor.process_pdf env processor temp_file_path w in
        let fs := cleanup h temp_file_path fs in
        match result with
        | Ok result =>
            ((Ok {| a_status := "success";
                    a_message := "PDF processed successfully";
                    a_document_id := PDFEnterpriseProcessor.document_id result;
                    a_timestamp := PDFEnterpriseProcessor.timestamp result;
                    a_content := PDFEnterpriseProcessor.r_content result;
                    a_metadata := PDFEnterpriseProcessor.r_metadata result |}, w), fs)
        | Raise e => ((Raise (pdf_error e), w), fs)
        end
    end.

(** **** The web endpoints                                                *)

Definition webpage_error (e : exn) : exn :=
  HTTPException 500 ("Error processing webpage: " +:+ str_exn e).

(** lines 239-259 *)
Definition process_webpage_opensource (url : string)
  : M (processing_response WebProcessor.response_content WebProcessor.response_metadata) :=
  try_except
    (let processor := WebProcessor.__init__ None in
     result <~ WebProcessor.process_webpage env processor url ;;
     ret {| a_status := WebProcessor.r_status result;
            a_message := WebProcessor.message result;
            a_document_id := WebProcessor.document_id result;
            a_timestamp := WebProcessor.timestamp result;
            a_content := WebProcessor.r_content result;
            a_metadata := WebProcessor.r_metadata result |})
    (fun e => raise (webpage_error e)).

(** lines 262-286; [web_processor_enterprise] is the processor of line 45
    and [url] is [str(request.url)].  The dict of [process_webpage] is
    never empty, so the test [if not result] never holds. *)
Definition process_webpage_enterprise (storage : option storage_client) (url : string)
  : M (processing_response WebEnterpriseProcessor.response_content
                           WebEnterpriseProcessor.response_metadata) :=
  try_except
    (let web_processor_enterprise := WebEnterpriseProcessor.__init__ env storage in
     result <~ WebEnterpriseProcessor.process_webpage env web_processor_enterprise url ;;
     ret {| a_status := "success";
            a_message := "Webpage processed successfully using Enterprise service";
            a_document_id := WebEnterpriseProcessor.document_id result;
            a_timestamp := WebEnterpriseProcessor.timestamp result;
            a_content := WebEnterpriseProcessor.r_content result;
            a_metadata := WebEnterpriseProcessor.r_metadata result |})
    (fun e => raise (webpage_error e)).

(** **** The health check (lines 289-305)                                 *)

Record health : Type := {
  h_status : string;
  h_timestamp : string;
  h_pdf_processor : string;
  h_web_processor : string;
  h_azure_di : string;
  h_diffbot : string
}.

Definition available (b : bool) : string :=
  if b then "available" else "unavailable".

Definition health_check (storage : option storage_client) : health :=
  let pdf_processor_enterprise := PDFEnterpriseProcessor.__init__ env storage 300 3 5 in
  let web_processor_enterprise := WebEnterpriseProcessor.__init__ env storage in
  {| h_status := "healthy";
     h_timestamp := now_isoformat env;
     h_pdf_processor := "available";
     h_web_processor := "available";
     h_azure_di :=
       available (bool_decide
                    (is_Some (PDFEnterpriseProcessor.document_analysis_client
                                pdf_processor_enterprise)));
     h_diffbot :=
       available (truthy_opt (WebEnterpriseProcessor.diffbot_token web_processor_enterprise)) |}.

End FastApi.

Arguments a_status {C Mt} _.
Arguments a_message {C Mt} _.
Arguments a_document_id {C Mt} _.
Arguments a_timestamp {C Mt} _.
Arguments a_content {C Mt} _.
Arguments a_metadata {C Mt} _.

End FastApi.

(* ===================================================================== *)
(** ** Concrete environments, for the examples                            *)
(* ===================================================================== *)

Module Demo.

(** [json.dumps] on values whose strings need no escaping. *)
Definition dq : string := String (ascii_of_nat 34) EmptyString.

Fixpoint dumps (v : value) : string :=
  match v with
  | VNone => "null"
  | VBool b => if b then "true" else "false"
  | VInt z => pretty z
  | VStr s => dq +:+ s +:+ dq
  | VList l => "[" +:+ String.concat ", " (map dumps l) +:+ "]"
  | VDict items =>
      "{" +:+ String.concat ", "
                (map (fun kv => dq +:+ fst kv +:+ dq +:+ ": " +:+ dumps (snd kv)) items)
          +:+ "}"
  end.

(** [DataFrame(table).to_csv(index=False)] on cells that need no quoting:
    a header of column numbers, then one line per row. *)
Definition csv (table : list (list string)) : string :=
  let width := foldr (fun row m => Nat.max (length row) m) 0 table in
  String.concat nl (String.concat "," (map pretty (seq 0 width))
                    :: map (String.concat ",") table) +:+ nl.

Definition page_html : string :=
  "<p> Hello </p><table><tr><td>a</td><td>b</td></tr><tr><td>c</td></tr><tr></tr></table><p>   </p>".

(** An environment from the replies of the outside world. *)
Definition mk_env
    (vars : string -> option string)
    (soup : Soup.node)
    (page : log -> string -> result (http_response string))
    (diffbot : log -> string -> string -> result (http_response value))
    (pdf : result Fitz.document)
    (analysis : result Azure.analyze_result) : Env :=
  {| now_isoformat := "2025-02-07T10:00:00";
     now_strftime := "20250207_100000";
     md5_hexdigest := fun _ => "9b2d5b4678781e53038e91ea5324530a";
     basename := fun p => p;
     getsize := fun _ => 1024;
     getenv := vars;
     urljoin := fun base target => base +:+ target;
     BeautifulSoup := fun _ => soup;
     str_soup := fun _ => page_html;
     json_dumps := fun v => Ok (dumps v);
     to_csv := fun table => Ok (csv table);
     session_get := page;
     diffbot_get := diffbot;
     fitz_open := fun _ _ => pdf;
     fitz_open_stream := fun _ => pdf;
     DocumentAnalysisClient := fun _ _ => Ok tt;
     analyze_document := fun _ _ => analysis;
     analyze_stream := fun _ _ => analysis;
     timed_out := fun _ => false |}.

Definition no_vars : string -> option string := fun _ => None.

Definition all_vars : string -> option string := fun _ => Some "secret".

(** The text aiohttp gives the error of a reply. *)
Definition error_of (code : nat) (phrase url : string) : string :=
  pretty code +:+ ", message='" +:+ phrase +:+ "', url='" +:+ url +:+ "'".

Definition diffbot_api_url : string := "https://api.diffbot.com/v3/article".

Definition reply {B} (code : nat) (phrase : string) (b : B)
  : log -> string -> result (http_response B) :=
  fun _ url => Ok {| status := code; reason := phrase; body := Ok b;
                     error_text := error_of code phrase url |}.

(** The tree of [page_html]: a paragraph, a table whose rows have two
    cells, one cell and none, and a blank paragraph. *)
Definition soup_p : Soup.node :=
  Soup.Tag "[document]" []
    [Soup.Tag "p" [] [Soup.NavigableString " Hello "];
     Soup.Tag "table" []
       [Soup.Tag "tr" [] [Soup.Tag "td" [] [Soup.NavigableString "a"];
                          Soup.Tag "td" [] [Soup.NavigableString "b"]];
        Soup.Tag "tr" [] [Soup.Tag "td" [] [Soup.NavigableString "c"]];
        Soup.Tag "tr" [] []];
     Soup.Tag "p" [] [Soup.NavigableString "   "]].

(** Diffbot answers 200 with an empty list of objects. *)
Definition diffbot_empty : log -> string -> string -> result (http_response value) :=
  fun _ _ _ => Ok {| status := 200; reason := "OK";
                     body := Ok (VDict [("objects", VList [])]);
                     error_text := error_of 200 "OK" diffbot_api_url |}.

Definition diffbot_article : log -> string -> string -> result (http_response value) :=
  fun _ _ _ =>
    Ok {| status := 200; reason := "OK";
          body := Ok (VDict [("objects",
                              VList [VDict [("text", VStr "From Diffbot");
                                            ("title", VStr "T")]])]);
          error_text := error_of 200 "OK" diffbot_api_url |}.

Definition diffbot_down : log -> string -> string -> result (http_response value) :=
  fun _ _ _ => Raise (ClientError "Cannot connect to host api.diffbot.com").

Definition diffbot_broken : log -> string -> string -> result (http_response value) :=
  fun _ _ _ => Raise TimeoutError.

Definition web_env (vars : string -> option string) diffbot : Env :=
  mk_env vars soup_p
         (fun _ url => Ok {| status := 200; reason := "OK"; body := Ok page_html;
                             error_text := error_of 200 "OK" url |})
         diffbot
         (Raise (Exception "FileNotFoundError" "no such file"))
         (Raise (Exception "HttpResponseError" "no service")).

Definition web_env_status (code : nat) (phrase : string) : Env :=
  mk_env no_vars soup_p
         (fun _ url => Ok {| status := code; reason := phrase; body := Ok "";
                             error_text := error_of code phrase url |})
         diffbot_down
         (Raise (Exception "FileNotFoundError" "no such file"))
         (Raise (Exception "HttpResponseError" "no service")).

(** A storage client whose every upload raises, and one that works. *)
Definition failing_store : storage_client :=
  fun _ _ _ _ =>
    Raise (Exception "botocore.exceptions.ClientError"
             "An error occurred (AccessDenied) when calling the PutObject operation: Access Denied").

Definition working_store : storage_client :=
  fun _ _ key _ => Ok key.

(** A three-page PDF: text, a blank page, text with one embedded image. *)
Definition pdf3 : Fitz.document :=
  {| Fitz.pages := [ {| Fitz.get_text := "Page one"; Fitz.get_images := [] |};
                     {| Fitz.get_text := "  "; Fitz.get_images := [] |};
                     {| Fitz.get_text := "Page three"; Fitz.get_images := [7] |} ];
     Fitz.metadata := {["title" := "Report"]};
     Fitz.extract_image := fun xref =>
       if Nat.eqb xref 7 then Ok (Some {| Fitz.image := ["x"%byte]; Fitz.ext := "png" |})
       else Raise (Exception "ValueError" "bad xref") |}.

Definition cell (r c : nat) (s : string) : Azure.cell :=
  {| Azure.row_index := r; Azure.column_index := c; Azure.cell_content := s |}.

(** A table declared 2 x 2 of which the service reports one cell. *)
Definition sparse_table : Azure.table :=
  {| Azure.row_count := 2; Azure.column_count := 2; Azure.cells := [cell 0 0 "a"] |}.

(** The 2 x 3 table of the specification's scenario. *)
Definition full_table : Azure.table :=
  {| Azure.row_count := 2; Azure.column_count := 3;
     Azure.cells := [cell 0 0 "c00"; cell 0 1 "c01"; cell 0 2 "c02";
                     cell 1 0 "c10"; cell 1 1 "c11"; cell 1 2 "c12"] |}.

Definition analysis3 (t : Azure.table) : Azure.analyze_result :=
  {| Azure.pages := [ {| Azure.lines := ["Page one"] |};
                      {| Azure.lines := [] |};
                      {| Azure.lines := ["Page"; "three"] |} ];
     Azure.tables := [t];
     Azure.key_value_pairs := [ {| Azure.key := Some "Name"; Azure.value := Some "Ada" |};
                                {| Azure.key := Some "Date"; Azure.value := None |} ] |}.

Definition pdf_env (vars : string -> option string) (t : Azure.table) : Env :=
  mk_env vars soup_p (fun _ _ => Raise (ClientError "offline")) diffbot_down
         (Ok pdf3) (Ok (analysis3 t)).

(** The inputs of the examples. *)
Definition url : string := "https://example.org".

Definition env_no_objects : Env := web_env all_vars diffbot_empty.
Definition env_diffbot_down : Env := web_env all_vars diffbot_down.
Definition env_diffbot_broken : Env := web_env all_vars diffbot_broken.
Definition env_no_token : Env := web_env no_vars diffbot_down.
Definition env_404 : Env := web_env_status 404 "Not Found".

Definition env_pdf_full : Env := pdf_env all_vars full_table.
Definition env_pdf_sparse : Env := pdf_env all_vars sparse_table.
Definition env_pdf_no_azure : Env := pdf_env no_vars full_table.

Definition not_found : http_response string :=
  {| status := 404; reason := "Not Found"; body := Ok "";
     error_text := error_of 404 "Not Found" "https://example.org/missing" |}.

(** A storage handler on a service that never fails. *)
Definition bucket_handler : StorageHandler.t :=
  {| StorageHandler.client := {| StorageHandler.faults := fun _ _ _ => None |};
     StorageHandler.bucket_name := "bucket" |}.

(** The same environment with [asyncio.timeout] firing before the awaited
    call returns. *)
Definition slow (e : Env) : Env :=
  {| now_isoformat := now_isoformat e;
     now_strftime := now_strftime e;
     md5_hexdigest := md5_hexdigest e;
     basename := basename e;
     getsize := getsize e;
     getenv := getenv e;
     urljoin := urljoin e;
     BeautifulSoup := BeautifulSoup e;
     str_soup := str_soup e;
     json_dumps := json_dumps e;
     to_csv := to_csv e;
     session_get := session_get e;
     diffbot_get := diffbot_get e;
     fitz_open := fitz_open e;
     fitz_open_stream := fitz_open_stream e;
     DocumentAnalysisClient := DocumentAnalysisClient e;
     analyze_document := analyze_document e;
     analyze_stream := analyze_stream e;
     timed_out := fun _ => true |}.

Definition env_pdf_slow : Env := slow env_pdf_full.

(** A table for which the service reports no cell at all. *)
Definition empty_table : Azure.table :=
  {| Azure.row_count := 2; Azure.column_count := 2; Azure.cells := [] |}.

Definition env_pdf_empty_table : Env := pdf_env all_vars empty_table.

Definition env_diffbot_article : Env := web_env all_vars diffbot_article.

(** Diffbot answers with a list of objects whose first entry is a string. *)
Definition diffbot_odd : log -> string -> string -> result (http_response value) :=
  fun _ _ _ => Ok {| status := 200; reason := "OK";
                     body := Ok (VDict [("objects", VList [VStr "x"])]);
                     error_text := error_of 200 "OK" diffbot_api_url |}.

Definition env_diffbot_odd : Env := web_env all_vars diffbot_odd.

(** The page answers 204. *)
Definition env_204 : Env := web_env_status 204 "No Content".

Definition no_content : http_response string :=
  {| status := 204; reason := "No Content"; body := Ok "";
     error_text := error_of 204 "No Content" url |}.

(** A page whose [meta] description has no [content] attribute. *)
Definition soup_meta : Soup.node :=
  Soup.Tag "[document]" []
    [Soup.Tag "meta" [("name", "description")] [];
     Soup.Tag "p" [] [Soup.NavigableString "Hello"]].

Definition ok_page : http_response string :=
  {| status := 200; reason := "OK"; body := Ok page_html;
     error_text := error_of 200 "OK" url |}.

Definition env_meta : Env :=
  mk_env no_vars soup_meta (fun _ _ => Ok ok_page) diffbot_down
         (Raise (Exception "FileNotFoundError" "no such file"))
         (Raise (Exception "HttpResponseError" "no service")).

(** No PDF can be opened. *)
Definition env_no_pdf : Env := env_no_token.

(** The host of the endpoints: temporary files are created and removed
    without trouble. *)
Definition quiet_host : FastApi.host :=
  {| FastApi.NamedTemporaryFile := fun _ => Ok "/tmp/tmpq1.pdf";
     FastApi.write_fails := fun _ => None;
     FastApi.unlink_fails := fun _ => None |}.

Definition pdf_upload : FastApi.upload_file :=
  {| FastApi.uf_filename := "a.pdf";
     FastApi.uf_content_type := Some "application/pdf";
     FastApi.uf_file := ["%"%byte; "P"%byte] |}.

Definition text_upload : FastApi.upload_file :=
  {| FastApi.uf_filename := "a.txt";
     FastApi.uf_content_type := Some "text/plain";
     FastApi.uf_file := ["h"%byte; "i"%byte] |}.

(** A processing service that never answers in time, and one that
    answers 503. *)
Definition post_timeout : list FastApi.step -> list byte -> result FastApi.service_reply :=
  fun _ _ => Raise (Exception "ReadTimeout" "timed out").

Definition busy : FastApi.service_reply :=
  {| FastApi.status_code := 503;
     FastApi.reply_text := "busy";
     FastApi.reply_json := Raise (Exception "JSONDecodeError" "no JSON") |}.

Definition post_unavailable : list FastApi.step -> list byte -> result FastApi.service_reply :=
  fun _ _ => Ok busy.

(** An environment of the process, and Secret Manager holding every
    secret. *)
Definition environ0 : CloudConfig.environ :=
  {[ "GOOGLE_CLOUD_PROJECT" := "project-1" ]}.

Definition secret_client : string -> result string := fun _ => Ok "secret".

(** The world of [env_pdf_full] with the variables of an [os.environ]. *)
Definition env_of_environ (e : CloudConfig.environ) : Env :=
  pdf_env (fun k => e !! k) full_table.

(** The state of the bucket as the handler's clients see it: empty. *)
Definition empty_bucket : log -> StorageHandler.s3_state := fun _ => ∅.

(** A cloud PDF adapter on a storage client that works. *)
Definition cloud_pdf_storing : PDFEnterpriseProcessor.t :=
  PDFEnterpriseProcessor.__init__ env_pdf_full (Some working_store) 300 3 5.

(** Diffbot cannot be reached and the page answers with status 203. *)
Definition env_page_203 : Env :=
  mk_env all_vars soup_p
         (fun _ url => Ok {| status := 203; reason := "Non-Authoritative Information";
                             body := Ok page_html;
                             error_text := error_of 203 "Non-Authoritative Information" url |})
         diffbot_down
         (Raise (Exception "FileNotFoundError" "no such file"))
         (Raise (Exception "HttpResponseError" "no service")).

End Demo.

(* ===================================================================== *)
(** ** Vocabulary of the statements                                       *)
(* ===================================================================== *)

Module Notions.

(** All rows of a table have one length. *)
Definition rectangular (table : list (list string)) : Prop :=
  exists n, Forall (fun row => length row = n) table.

(** A grid of [R] rows of [C] columns each. *)
Definition dims (R C : nat) (g : list (list string)) : Prop :=
  length g = R /\ Forall (fun row => length row = C) g.

(** [g[r][c]], when both indices are in range. *)
Definition grid_get (g : list (list string)) (r c : nat) : option string :=
  match g !! r with Some row => row !! c | None => None end.

(** [m] is the largest value of [f] over the cells. *)
Definition is_max (f : Azure.cell -> nat) (cells : list Azure.cell) (m : nat) : Prop :=
  (exists c, c ∈ cells /\ f c = m) /\ (forall c, c ∈ cells -> f c <= m).

Definition at_position (r c : nat) (cell : Azure.cell) : bool :=
  Nat.eqb (Azure.row_index cell) r && Nat.eqb (Azure.column_index cell) c.

(** The first, and the last, cell the service reports at a position. *)
Definition first_cell (cells : list Azure.cell) (r c : nat) : option Azure.cell :=
  List.find (at_position r c) cells.

Definition last_cell (cells : list Azure.cell) (r c : nat) : option Azure.cell :=
  List.find (at_position r c) (rev cells).

(** The content of a reported cell, the empty string for none. *)
Definition cell_text (o : option Azure.cell) : string :=
  match o with Some c => Azure.cell_content c | None => "" end.

(** One step of the filling loop of [grid_of_cells]. *)
Definition fill_step (acc : result (list (list string))) (cell : Azure.cell)
  : result (list (list string)) :=
  match acc with
  | Ok table_data =>
      PDFEnterpriseProcessor.setitem2 table_data (Azure.row_index cell)
        (Azure.column_index cell) (Azure.cell_content cell)
  | Raise e => Raise e
  end.

(** The tables [_process_with_azure] keeps, in order. *)
Definition azure_tables (res : Azure.analyze_result) : list (list (list string)) :=
  flat_map (fun table => match PDFEnterpriseProcessor.grid_of_counts table with
                         | Some g => [g]
                         | None => []
                         end) (Azure.tables res).

(** A page whose text is not blank, and the texts of those pages. *)
Definition nonblank (pg : Fitz.page) : bool :=
  nonempty_str (strip (Fitz.get_text pg)).

Definition page_texts (doc : Fitz.document) : list string :=
  Fitz.get_text <$> List.filter nonblank (Fitz.pages doc).

(** What one heading or paragraph, one [<tr>] and one [<table>]
    contribute to the result of the local web adapter. *)
Definition text_of (p : Soup.node) : list string :=
  let t := strip (Soup.get_text p) in if nonempty_str t then [t] else [].

Definition row_of (row : Soup.node) : list (list string) :=
  let row_data := map (fun cell => strip (Soup.get_text cell))
                      (Soup.find_all ["td"; "th"] row) in
  if nonempty row_data then [row_data] else [].

Definition table_of (table : Soup.node) : list (list (list string)) :=
  let table_data := flat_map row_of (Soup.find_all ["tr"] table) in
  if nonempty table_data then [table_data] else [].

(** What the Diffbot call gives once the status is checked and the body
    is decoded (lines 87-89 of extract_web_enterprise.py). *)
Definition diffbot_reply (env : Env) (w : log) (token url : string) : result value :=
  match diffbot_get env w token url with
  | Raise e => Raise e
  | Ok response =>
      if Nat.leb 400 (status response)
      then Raise (ClientError (error_text response))
      else body response
  end.

(** A decoded reply without extracted objects: no [objects] key, or a
    falsy value under it. *)
Definition no_objects (data : value) : bool :=
  match data with
  | VDict items =>
      match dict_lookup "objects" items with
      | None => true
      | Some v => negb (truthy v)
      end
  | _ => false
  end.

(** The descriptors of the local web adapter as the dicts of the cloud
    web adapter. *)
Definition image_value (i : WebProcessor.image) : value :=
  VDict [("url", VStr (WebProcessor.image_url i));
         ("alt", VStr (WebProcessor.alt i));
         ("title", VStr (WebProcessor.image_title i))].

Definition link_value (l : WebProcessor.link) : value :=
  VDict [("url", VStr (WebProcessor.link_url l));
         ("text", VStr (WebProcessor.link_text l))].

Definition is_client_error (e : exn) : bool :=
  match e with ClientError _ => true | _ => false end.

(** The replies after which the cloud web adapter turns to BeautifulSoup. *)
Definition recoverable (reply : result value) : bool :=
  match reply with
  | Ok data => no_objects data
  | Raise e => is_client_error e
  end.

(** A key-value pair with both parts present, under the key [k]. *)
Definition complete_pair (k : string) (kv : Azure.key_value_pair) : bool :=
  match Azure.key kv, Azure.value kv with
  | Some k', Some _ => String.eqb k' k
  | _, _ => false
  end.

(** An image of the local PDF adapter as the cloud adapter records it:
    with the same index, and with the index counted from one. *)
Definition same_image (i : PDFProcessor.image) : PDFEnterpriseProcessor.image :=
  {| PDFEnterpriseProcessor.data := PDFProcessor.data i;
     PDFEnterpriseProcessor.ext := PDFProcessor.ext i;
     PDFEnterpriseProcessor.page := PDFProcessor.page i;
     PDFEnterpriseProcessor.index := PDFProcessor.index i |}.

Definition shift_index (i : PDFProcessor.image) : PDFEnterpriseProcessor.image :=
  {| PDFEnterpriseProcessor.data := PDFProcessor.data i;
     PDFEnterpriseProcessor.ext := PDFProcessor.ext i;
     PDFEnterpriseProcessor.page := PDFProcessor.page i;
     PDFEnterpriseProcessor.index := PDFProcessor.index i + 1 |}.

(** What PyMuPDF yields for one image reference of a page (nothing when
    the extraction raises or gives no image), for one page, and for a
    document. *)
Definition image_of (doc : Fitz.document) (page_num : nat) (x : nat * nat)
  : list PDFProcessor.image :=
  match Fitz.extract_image doc x.2 with
  | Ok (Some b) => [{| PDFProcessor.data := Fitz.image b; PDFProcessor.ext := Fitz.ext b;
                       PDFProcessor.page := page_num + 1; PDFProcessor.index := x.1 |}]
  | _ => []
  end.

Definition images_of_page (doc : Fitz.document) (x : nat * Fitz.page)
  : list PDFProcessor.image :=
  flat_map (image_of doc x.1) (enumerate (Fitz.get_images x.2)).

Definition document_images (doc : Fitz.document) : list PDFProcessor.image :=
  flat_map (images_of_page doc) (enumerate (Fitz.pages doc)).

(** The descriptor the local PDF adapter returns for an image. *)
Definition image_descriptor (i : PDFProcessor.image) : PDFProcessor.image_info :=
  {| PDFProcessor.i_page := PDFProcessor.page i;
     PDFProcessor.i_index := PDFProcessor.index i;
     PDFProcessor.i_ext := PDFProcessor.ext i |}.

(** The exception [async_timeout] raises when the time is up. *)
Definition timeout_error (t : nat) : exn :=
  HTTPException 500 ("Operation timed out after " +:+ pretty t +:+ " seconds").

(** The text of a page as [PDFEnterpriseProcessor._extract_content]
    builds it: every line followed by a newline. *)
Definition lines_with_newlines (pg : Azure.page) : string :=
  String.concat "" ((fun line => line +:+ nl) <$> Azure.lines pg).

(** One turn of the table loop of [PDFEnterpriseProcessor._extract_content]. *)
Definition tables_step (tables : list (list (list string))) (table : Azure.table)
  : M (list (list (list string))) :=
  table_data <~ lift (PDFEnterpriseProcessor.grid_of_cells table) ;;
  ret (tables ++ [table_data]).

(** The keys the cloud web adapter uploads to, in order, and the mapping
    it returns when the three uploads succeed. *)
Definition web_cloud_keys (self : WebEnterpriseProcessor.t) (doc_id : string) : list string :=
  [(WebEnterpriseProcessor.base_path self +:+ doc_id) +:+ "/content.txt";
   (WebEnterpriseProcessor.base_path self +:+ doc_id) +:+ "/content.html";
   (WebEnterpriseProcessor.base_path self +:+ doc_id) +:+ "/metadata.json"].

Definition web_cloud_paths (self : WebEnterpriseProcessor.t) (doc_id : string)
  : gmap string string :=
  <["metadata" := (WebEnterpriseProcessor.base_path self +:+ doc_id) +:+ "/metadata.json"]>
    (<["html" := (WebEnterpriseProcessor.base_path self +:+ doc_id) +:+ "/content.html"]>
       (<["text" := (WebEnterpriseProcessor.base_path self +:+ doc_id) +:+ "/content.txt"]> ∅)).

(** The content read off a Diffbot article, and off a parsed page. *)
Definition article_content (art : list (string * value)) : WebEnterpriseProcessor.content :=
  {| WebEnterpriseProcessor.text := dict_get "text" (VStr "") art;
     WebEnterpriseProcessor.title := dict_get "title" (VStr "") art;
     WebEnterpriseProcessor.images := dict_get "images" (VList []) art;
     WebEnterpriseProcessor.links := dict_get "links" (VList []) art;
     WebEnterpriseProcessor.html := dict_get "html" (VStr "") art;
     WebEnterpriseProcessor.author := Some (dict_get "author" (VStr "") art);
     WebEnterpriseProcessor.date := Some (dict_get "date" (VStr "") art);
     WebEnterpriseProcessor.siteName := Some (dict_get "siteName" (VStr "") art) |}.

Definition soup_content (env : Env) (url : string) (soup : Soup.node)
  : WebEnterpriseProcessor.content :=
  {| WebEnterpriseProcessor.text :=
       VStr (String.concat nl (WebEnterpriseProcessor.extract_text soup));
     WebEnterpriseProcessor.title :=
       match Soup.title soup with
       | Some tag => WebEnterpriseProcessor.opt_str (Soup.string_of tag)
       | None => VStr ""
       end;
     WebEnterpriseProcessor.images := VList (WebEnterpriseProcessor.extract_images env url soup);
     WebEnterpriseProcessor.links := VList (WebEnterpriseProcessor.extract_links env url soup);
     WebEnterpriseProcessor.html := VStr (str_soup env soup);
     WebEnterpriseProcessor.author := None;
     WebEnterpriseProcessor.date := None;
     WebEnterpriseProcessor.siteName := None |}.

(** The keys the local web adapter uploads to, in order, and the mapping
    it returns when both uploads succeed. *)
Definition web_local_keys (self : WebProcessor.t) (doc_id : string) : list string :=
  [(WebProcessor.base_path self +:+ doc_id) +:+ "/text_content.txt";
   (WebProcessor.base_path self +:+ doc_id) +:+ "/metadata.json"].

Definition web_local_paths (self : WebProcessor.t) (doc_id : string) : gmap string string :=
  <["metadata" := (WebProcessor.base_path self +:+ doc_id) +:+ "/metadata.json"]>
    (<["text" := (WebProcessor.base_path self +:+ doc_id) +:+ "/text_content.txt"]> ∅).

(** What [async_timeout] makes of an exception of the awaited call. *)
Definition through_timeout (t : nat) (e : exn) : exn :=
  match e with
  | TimeoutError => timeout_error t
  | _ => e
  end.

(** The keys the cloud PDF adapter uploads to for a document with [n]
    tables, in order: the text, one CSV file per table, counted from
    one, and the metadata. *)
Definition cloud_pdf_table_key (self : PDFEnterpriseProcessor.t) (doc_id : string) (i : nat)
  : string :=
  (PDFEnterpriseProcessor.base_path self +:+ doc_id) +:+ "/table_" +:+ pretty i +:+ ".csv".

Definition cloud_pdf_keys (self : PDFEnterpriseProcessor.t) (doc_id : string) (n : nat)
  : list string :=
  ((PDFEnterpriseProcessor.base_path self +:+ doc_id) +:+ "/text_content.txt")
    :: (cloud_pdf_table_key self doc_id <$> seq 1 n)
    ++ [(PDFEnterpriseProcessor.base_path self +:+ doc_id) +:+ "/metadata.json"].

(** The requests the cloud web adapter makes for a page: with a token the
    request to Diffbot and then [k] requests of the page, without one the
    request of the page. *)
Definition web_cloud_requests (self : WebEnterpriseProcessor.t) (url : string) (k : nat)
  : list event :=
  if truthy_opt (WebEnterpriseProcessor.diffbot_token self)
  then EvDiffbotGet (default "" (WebEnterpriseProcessor.diffbot_token self)) url
         :: replicate k (EvPageGet url)
  else [EvPageGet url].

(** The extraction call of the cloud PDF adapter, by its mode. *)
Definition cloud_pdf_extraction (env : Env) (self : PDFEnterpriseProcessor.t)
    (path : string) : M PDFEnterpriseProcessor.content :=
  if PDFEnterpriseProcessor.use_fallback self
  then PDFEnterpriseProcessor._extract_content_fallback env self path
  else PDFEnterpriseProcessor._extract_content_azure env self path.

Definition cloud_pdf_extraction_call (self : PDFEnterpriseProcessor.t) (path : string)
  : event :=
  if PDFEnterpriseProcessor.use_fallback self then EvFitzOpen path
  else EvAzureAnalyze path.

(** What the last request of the forwarding helper of fast_api.py makes
    of the helper's result: the JSON body of a reply with status 200, or
    the failure that ends the helper, wrapped. *)
Definition forwarded (last : result FastApi.service_reply) : result (option value) :=
  match last with
  | Ok reply =>
      if Nat.eqb (FastApi.status_code reply) 200 then
        match FastApi.reply_json reply with
        | Ok v => Ok (Some v)
        | Raise e => Raise (FastApi.pdf_error e)
        end
      else
        Raise (FastApi.pdf_error
                 (HTTPException (FastApi.status_code reply)
                    ("PDF processing service returned error: "
                     +:+ FastApi.reply_text reply)))
  | Raise e =>
      if FastApi.retried e then
        Raise (FastApi.pdf_error
                 (HTTPException 500
                    ("PDF processing service timeout after " +:+ pretty 3
                     +:+ " attempts: " +:+ str_exn e)))
      else Raise (FastApi.pdf_error e)
  end.

(** A table of the local web adapter as a value. *)
Definition table_value (table : list (list string)) : value :=
  VList ((fun row => VList (VStr <$> row)) <$> table).

(** The [content] dict of a response of the local web adapter (lines
    52-57 of extract_web_opensource.py) and of the cloud web adapter
    (lines 52-57 of extract_web_enterprise.py). *)
Definition local_content_dict (c : WebProcessor.response_content) : value :=
  VDict [("text", VList (VStr <$> WebProcessor.r_text c));
         ("tables", VList (table_value <$> WebProcessor.r_tables c));
         ("images", VList (image_value <$> WebProcessor.r_images c));
         ("links", VList (link_value <$> WebProcessor.r_links c))].

Definition cloud_content_dict (c : WebEnterpriseProcessor.response_content) : value :=
  VDict [("text", WebEnterpriseProcessor.r_text c);
         ("title", WebEnterpriseProcessor.r_title c);
         ("images", WebEnterpriseProcessor.r_images c);
         ("links", WebEnterpriseProcessor.r_links c)].

(** The shape of a dict: its keys, in order, each with the type of the
    value it holds.  Two values are identical in shape when they have
    one type and one shape. *)
Definition shape (v : value) : list (string * string) :=
  match v with
  | VDict items => (fun kv => (kv.1, type_name kv.2)) <$> items
  | _ => []
  end.

Definition same_shape (a b : value) : bool :=
  bool_decide (type_name a = type_name b /\ shape a = shape b).

End Notions.

Import Notions.

(* ===================================================================== *)
(** ** Loops, strings and the monad                                       *)
(* ===================================================================== *)

Section loops.
Context {A B : Type}.

(** A loop that only appends is a [flat_map]. *)
Lemma foldl_snoc_flat (g : B -> list A) (body : list A -> B -> list A) :
  (forall acc x, body acc x = acc ++ g x) ->
  forall l acc, foldl body acc l = acc ++ flat_map g l.
Proof.
  intros Hbody l. induction l as [|x l IH]; intros acc; simpl.
  - by rewrite app_nil_r.
  - rewrite IH, Hbody. by rewrite <- app_assoc.
Qed.

Lemma foldl_snoc_fmap (f : B -> A) (body : list A -> B -> list A) :
  (forall acc x, body acc x = acc ++ [f x]) ->
  forall l acc, foldl body acc l = acc ++ (f <$> l).
Proof.
  intros Hbody l. induction l as [|x l IH]; intros acc; simpl.
  - by rewrite app_nil_r.
  - rewrite IH, Hbody. by rewrite <- app_assoc.
Qed.

Lemma flat_map_filter_fmap (p : B -> bool) (f : B -> A) (l : list B) :
  flat_map (fun x => if p x then [f x] else []) l = f <$> List.filter p l.
Proof.
  induction l as [|x l IH]; simpl; [done|].
  destruct (p x); simpl; by rewrite IH.
Qed.

Lemma flat_map_snd {I} (h : B -> list A) (el : list (I * B)) :
  flat_map (fun x => h x.2) el = flat_map h (el.*2).
Proof. induction el as [|[a b] el IH]; simpl; [done|]. by rewrite IH. Qed.

Lemma find_app (p : A -> bool) (l1 l2 : list A) :
  List.find p (l1 ++ l2) =
  match List.find p l1 with Some y => Some y | None => List.find p l2 end.
Proof. induction l1 as [|x l1 IH]; simpl; [done|]. by destruct (p x). Qed.

Lemma nonempty_true (l : list A) : nonempty l = true <-> l <> [].
Proof. destruct l; simpl; split; intros; congruence. Qed.

Lemma enumerate_snd (l : list A) : (enumerate l).*2 = l.
Proof. unfold enumerate. apply snd_zip. by rewrite length_seq. Qed.
End loops.

Section pair_loops.
Context {S T X : Type}.

(** The first component of a loop over a pair of accumulators. *)
Lemma foldl_fst_flat (body : list S * T -> X -> list S * T) (g : X -> list S) :
  (forall acc x, (body acc x).1 = acc.1 ++ g x) ->
  forall l acc, (foldl body acc l).1 = acc.1 ++ flat_map g l.
Proof.
  intros Hbody l. induction l as [|x l IH]; intros acc; simpl.
  - by rewrite app_nil_r.
  - rewrite IH, Hbody. by rewrite <- app_assoc.
Qed.
End pair_loops.

Section strip.

Lemma lstrip_head c r s : lstrip s = String c r -> isspace c = false.
Proof.
  induction s as [|a s IH]; simpl; [done|].
  destruct (isspace a) eqn:Ha; [done|]. by intros [= <- <-].
Qed.

Lemma rstrip_cons_nonspace c s :
  isspace c = false -> rstrip (String c s) = String c (rstrip s).
Proof. intros Hc. simpl. rewrite Hc. by destruct (rstrip s). Qed.

Lemma rstrip_idemp s : rstrip (rstrip s) = rstrip s.
Proof.
  induction s as [|c s IH]; simpl; [done|].
  destruct (rstrip s) as [|c' r] eqn:Hr.
  - destruct (isspace c) eqn:Hc; simpl; [done|]. by rewrite Hc.
  - change (rstrip (String c (String c' r)) = String c (String c' r)).
    simpl rstrip at 1. simpl in IH.
    destruct (match rstrip r with
              | "" => if isspace c' then "" else String c' ""
              | String a s0 => String c' (String a s0)
              end) eqn:E; [done|].
    by inversion IH; subst.
Qed.

(** Stripping twice is stripping once. *)
Lemma strip_idemp s : strip (strip s) = strip s.
Proof.
  unfold strip. destruct (lstrip s) as [|c r] eqn:Hl; [done|].
  apply lstrip_head in Hl. rewrite (rstrip_cons_nonspace _ _ Hl).
  simpl lstrip. rewrite Hl. rewrite <- (rstrip_cons_nonspace _ _ Hl).
  apply rstrip_idemp.
Qed.

Lemma nonempty_str_true s : nonempty_str s = true <-> s <> "".
Proof.
  unfold nonempty_str.
  destruct (String.eqb_spec s ""); simpl; split; intros; congruence.
Qed.
End strip.

Section monad.
Context {A B : Type}.

Lemma bind_ok (m : M A) (k : A -> M B) w a w' :
  m w = (Ok a, w') -> bind m k w = k a w'.
Proof. unfold bind. by intros ->. Qed.

Lemma bind_raise (m : M A) (k : A -> M B) w e w' :
  m w = (Raise e, w') -> bind m k w = (Raise e, w').
Proof. unfold bind. by intros ->. Qed.

(** [except Exception: raise] changes nothing. *)
Lemma try_reraise (m : M A) w : try_except m (fun e => raise e) w = m w.
Proof. unfold try_except, raise. by destruct (m w) as [[a|e] w']. Qed.

(** [except Exception: return d] never raises. *)
Lemma try_default_ok (m : M A) (d : A) w :
  exists a w', try_except m (fun _ => ret d) w = (Ok a, w').
Proof. unfold try_except, ret. destruct (m w) as [[a|e] w']; eauto. Qed.

Lemma try_default_raise (m : M A) (d : A) w e w' :
  m w = (Raise e, w') -> try_except m (fun _ => ret d) w = (Ok d, w').
Proof. unfold try_except, ret. by intros ->. Qed.
End monad.

Ltac run_monad := unfold bind, call, lift, ret, raise.

(* ===================================================================== *)
(** ** The local web adapter                                              *)
(* ===================================================================== *)

Section web_local.
Import WebProcessor.

Lemma extract_text_flat soup :
  extract_text soup =
  flat_map text_of (Soup.find_all ["p"; "h1"; "h2"; "h3"; "h4"; "h5"; "h6"] soup).
Proof.
  unfold extract_text. rewrite (foldl_snoc_flat text_of); [done|].
  intros acc p. unfold text_of. destruct (nonempty_str _); simpl; [done|].
  by rewrite app_nil_r.
Qed.

Lemma extract_tables_flat soup :
  extract_tables soup = flat_map table_of (Soup.find_all ["table"] soup).
Proof.
  unfold extract_tables. rewrite (foldl_snoc_flat table_of); [done|].
  intros acc table. unfold table_of.
  rewrite (foldl_snoc_flat row_of).
  - simpl. destruct (nonempty _); simpl; [done|]. by rewrite app_nil_r.
  - intros acc' row. unfold row_of. destruct (nonempty _); simpl; [done|].
    by rewrite app_nil_r.
Qed.

Lemma extract_text_stripped soup :
  Forall (fun t => t <> "" /\ strip t = t) (extract_text soup).
Proof.
  rewrite extract_text_flat. apply Forall_flat_map, Forall_forall.
  intros p _. unfold text_of.
  destruct (nonempty_str _) eqn:E; [|constructor].
  repeat constructor; [by apply nonempty_str_true | apply strip_idemp].
Qed.

Lemma extract_tables_nonempty soup :
  Forall (fun table => table <> [] /\ Forall (fun row => row <> []) table)
         (extract_tables soup).
Proof.
  rewrite extract_tables_flat. apply Forall_flat_map, Forall_forall.
  intros table _. unfold table_of.
  destruct (nonempty _) eqn:E; [|constructor].
  repeat constructor; [by apply nonempty_true|].
  apply Forall_flat_map, Forall_forall. intros row _. unfold row_of.
  destruct (nonempty (map _ _)) eqn:E'; [|constructor].
  repeat constructor. by apply nonempty_true.
Qed.

Lemma meta_content_log nm soup w v w' :
  meta_content nm soup w = (Ok v, w') -> w' = w.
Proof.
  unfold meta_content, ret, raise.
  destruct (Soup.find_meta nm soup); [destruct (Soup.get _ _)|]; congruence.
Qed.

(** A successful extraction saw status 200 and holds what the loops
    collect from the parsed body. *)
Lemma web_local_extract_inv env url w c w' :
  _extract_content env url w = (Ok c, w') ->
  exists resp html,
    session_get env w url = Ok resp /\ status resp = 200 /\ body resp = Ok html /\
    w' = w ++ [EvPageGet url] /\
    text_content c = extract_text (BeautifulSoup env html) /\
    tables c = extract_tables (BeautifulSoup env html) /\
    images c = extract_images env url (BeautifulSoup env html) /\
    links c = extract_links env url (BeautifulSoup env html).
Proof.
  unfold _extract_content. rewrite try_reraise. run_monad.
  destruct (session_get env w url) as [resp|e] eqn:Hget; [|done].
  destruct (Nat.eqb_spec (status resp) 200) as [H200|H200]; simpl; [|done].
  destruct (body resp) as [html|e] eqn:Hbody; [|done].
  destruct (meta_content "description" _ _) as [[d|e] w1] eqn:Hd; [|done].
  destruct (meta_content "keywords" _ _) as [[k|e] w2] eqn:Hk; [|done].
  intros [= <- <-]. exists resp, html. simpl.
  apply meta_content_log in Hd, Hk. by subst.
Qed.

Lemma web_local_process_inv env self url w r w' :
  process_webpage env self url w = (Ok r, w') ->
  exists c w1,
    _extract_content env url w = (Ok c, w1) /\
    r_text (r_content r) = text_content c /\
    r_tables (r_content r) = tables c /\
    r_images (r_content r) = images c /\
    r_links (r_content r) = links c /\
    processor (r_metadata r) = "BeautifulSoup".
Proof.
  unfold process_webpage. rewrite try_reraise. unfold bind at 1.
  destruct (_extract_content env url w) as [[c|e] w1] eqn:Hc; [|done].
  unfold bind, ret.
  destruct (storage self);
    [destruct (_store_content env _ c _ w1) as [[p|e] w2] | simpl];
    intros [= <- <-]; exists c, w1; done.
Qed.

Lemma web_local_store_total env self c doc_id w :
  exists p w', _store_content env self c doc_id w = (Ok p, w').
Proof. unfold _store_content. apply try_default_ok. Qed.

(** A storage client that raises leaves the mapping empty. *)
Lemma web_local_store_failure env self client c doc_id w e :
  storage self = Some client ->
  (forall w0 d k ct, client w0 d k ct = Raise e) ->
  exists w', _store_content env self c doc_id w = (Ok ∅, w').
Proof.
  intros Hst Hclient. unfold _store_content. eexists. eapply try_default_raise.
  rewrite Hst. run_monad. rewrite Hclient. reflexivity.
Qed.

(** A failing storage client does not fail the request. *)
Lemma web_local_survives_storage_failure env self client url w c w1 e :
  storage self = Some client ->
  (forall w0 d k ct, client w0 d k ct = Raise e) ->
  _extract_content env url w = (Ok c, w1) ->
  exists r w', process_webpage env self url w = (Ok r, w') /\
               storage_paths (r_metadata r) = ∅.
Proof.
  intros Hst Hclient Hc.
  destruct (web_local_store_failure env self client c (_generate_document_id env url)
              w1 e Hst Hclient) as [w' Hstore].
  unfold process_webpage. rewrite try_reraise. rewrite (bind_ok _ _ _ _ _ Hc).
  rewrite Hst. rewrite (bind_ok _ _ _ _ _ Hstore). unfold ret. by eexists _, _.
Qed.

End web_local.

(* ===================================================================== *)
(** ** Table grids of the cloud PDF adapter                               *)
(* ===================================================================== *)

Section grids.
Import PDFEnterpriseProcessor.

(** The grid of the main path, row by row and column by column. *)
Lemma grid_of_counts_eq table :
  grid_of_counts table =
  if Nat.eqb (Azure.row_count table) 0 then None
  else Some ((fun r => (fun c => cell_text (first_cell (Azure.cells table) r c))
                         <$> seq 0 (Azure.column_count table))
               <$> seq 0 (Azure.row_count table)).
Proof.
  unfold grid_of_counts.
  rewrite (foldl_snoc_fmap
             (fun r => (fun c => cell_text (first_cell (Azure.cells table) r c))
                         <$> seq 0 (Azure.column_count table))).
  - simpl. destruct (Azure.row_count table); done.
  - intros acc r. f_equal.
    by rewrite (foldl_snoc_fmap (fun c => cell_text (first_cell (Azure.cells table) r c))).
Qed.

Lemma grid_of_counts_spec table g :
  grid_of_counts table = Some g ->
  dims (Azure.row_count table) (Azure.column_count table) g /\
  forall r c, r < Azure.row_count table -> c < Azure.column_count table ->
    grid_get g r c = Some (cell_text (first_cell (Azure.cells table) r c)).
Proof.
  rewrite grid_of_counts_eq. destruct (Nat.eqb _ 0); [done|]. intros [= <-].
  split; [split|].
  - by rewrite length_fmap, length_seq.
  - apply Forall_fmap, Forall_forall. intros r _. simpl.
    by rewrite length_fmap, length_seq.
  - intros r c Hr Hc. unfold grid_get.
    rewrite list_lookup_fmap, lookup_seq_lt by done. simpl.
    by rewrite list_lookup_fmap, lookup_seq_lt by done.
Qed.

Lemma max_of_spec f cells m :
  max_of f cells = Ok m -> is_max f cells m.
Proof.
  unfold max_of, is_max. destruct cells as [|c0 cs]; [done|]. intros [= <-].
  assert (H : forall l a,
             (a <= foldl (fun m c' => Nat.max m (f c')) a l) /\
             (foldl (fun m c' => Nat.max m (f c')) a l = a \/
              exists c, c ∈ l /\ f c = foldl (fun m c' => Nat.max m (f c')) a l) /\
             (forall c, c ∈ l -> f c <= foldl (fun m c' => Nat.max m (f c')) a l)).
  { induction l as [|x l IH]; intros a; simpl.
    - split; [lia|]. split; [by left|]. intros c Hc. by apply not_elem_of_nil in Hc.
    - destruct (IH (Nat.max a (f x))) as (Hle & Hor & Hall). split; [lia|]. split.
      + destruct Hor as [Heq | (c & Hc & Hfc)].
        * destruct (Nat.max_spec a (f x)) as [[_ Hm]|[_ Hm]].
          -- right. exists x. split; [left|]. lia.
          -- left. lia.
        * right. exists c. split; [by right|done].
      + intros c [->|Hc]%elem_of_cons; [lia|by apply Hall]. }
  destruct (H cs (f c0)) as (Hle & Hor & Hall). split.
  - destruct Hor as [Heq | (c & Hc & Hfc)].
    + exists c0. split; [left|done].
    + exists c. split; [by right|done].
  - intros c [->|Hc]%elem_of_cons; [done|by apply Hall].
Qed.

Lemma max_of_nonempty f cells :
  cells <> [] -> exists m, max_of f cells = Ok m.
Proof. destruct cells; [done|]. intros _. simpl. eauto. Qed.

Lemma is_max_unique f cells m m' :
  is_max f cells m -> is_max f cells m' -> m = m'.
Proof.
  intros [(c & Hc & <-) Hall] [(c' & Hc' & <-) Hall'].
  apply Hall in Hc'. apply Hall' in Hc. lia.
Qed.

Lemma is_max_nonempty f cells m : is_max f cells m -> cells <> [].
Proof.
  intros [(c & Hc & _) _] E. rewrite E in Hc. by apply not_elem_of_nil in Hc.
Qed.

(** An assignment inside the grid succeeds and changes one entry. *)
Lemma setitem2_spec g r c v R C :
  dims R C g -> r < R -> c < C ->
  exists g', setitem2 g r c v = Ok g' /\ dims R C g' /\
    forall r' c', grid_get g' r' c' =
      if Nat.eqb r r' && Nat.eqb c c' then Some v else grid_get g r' c'.
Proof.
  intros [Hlen Hrows] Hr Hc. unfold setitem2.
  destruct (g !! r) as [row|] eqn:Hrow.
  2:{ apply lookup_ge_None in Hrow. lia. }
  assert (Hrl : length row = C).
  { rewrite Forall_forall in Hrows. apply Hrows. by eapply list_elem_of_lookup_2. }
  destruct (Nat.ltb_spec c (length row)); [|lia].
  eexists. split; [done|]. split.
  - split; [by rewrite length_insert|].
    apply Forall_insert; [done|]. by rewrite length_insert.
  - intros r' c'. unfold grid_get.
    destruct (Nat.eqb_spec r r') as [<-|Hne]; simpl.
    + rewrite list_lookup_insert_eq by lia.
      destruct (Nat.eqb_spec c c') as [<-|Hne'].
      * by rewrite list_lookup_insert_eq by lia.
      * rewrite list_lookup_insert_ne by done. by rewrite Hrow.
    + by rewrite list_lookup_insert_ne by done.
Qed.

(** The filling loop, by induction on the cells still to write: no
    assignment fails, and a position ends with what the last cell
    reported there wrote. *)
Lemma fill_spec R C cells : forall g,
  dims R C g ->
  Forall (fun cell => Azure.row_index cell < R /\ Azure.column_index cell < C) cells ->
  exists g', foldl fill_step (Ok g) cells = Ok g' /\ dims R C g' /\
    forall r c, grid_get g' r c =
      match last_cell cells r c with
      | Some cell => Some (Azure.cell_content cell)
      | None => grid_get g r c
      end.
Proof.
  induction cells as [|x l IH]; intros g Hd Hin; simpl.
  - by exists g.
  - apply Forall_cons in Hin as [[Hxr Hxc] Hin].
    destruct (setitem2_spec g _ _ (Azure.cell_content x) R C Hd Hxr Hxc)
      as (g1 & Hset & Hd1 & Hget1).
    rewrite Hset. destruct (IH g1 Hd1 Hin) as (g' & Hfold & Hd' & Hget').
    exists g'. split; [done|]. split; [done|].
    intros r c. rewrite Hget'. unfold last_cell. simpl. rewrite find_app.
    destruct (List.find (at_position r c) (rev l)); [done|].
    rewrite Hget1. simpl. unfold at_position. by destruct (_ && _).
Qed.

Lemma initial_grid rows cols :
  foldl (fun (table_data : list (list string)) (_ : nat) =>
           table_data ++ [replicate cols ""]) [] (seq 0 rows)
  = replicate rows (replicate cols "").
Proof.
  rewrite (foldl_snoc_fmap (fun _ => replicate cols "")) by done. simpl.
  generalize 0. induction rows as [|n IH]; intros k; simpl; [done|]. by rewrite IH.
Qed.

Lemma initial_grid_spec rows cols :
  dims rows cols (replicate rows (replicate cols "")) /\
  forall r c, r < rows -> c < cols ->
    grid_get (replicate rows (replicate cols "")) r c = Some "".
Proof.
  split; [split|].
  - by rewrite length_replicate.
  - apply Forall_replicate. by rewrite length_replicate.
  - intros r c Hr Hc. unfold grid_get.
    rewrite lookup_replicate_2 by done. by rewrite lookup_replicate_2.
Qed.

Lemma grid_of_cells_spec table R C :
  is_max Azure.row_index (Azure.cells table) R ->
  is_max Azure.column_index (Azure.cells table) C ->
  exists g, grid_of_cells table = Ok g /\ dims (R + 1) (C + 1) g /\
    forall r c, r <= R -> c <= C ->
      grid_get g r c = Some (cell_text (last_cell (Azure.cells table) r c)).
Proof.
  intros HR HC. unfold grid_of_cells.
  pose proof (is_max_nonempty _ _ _ HR) as Hne.
  destruct (max_of_nonempty Azure.row_index _ Hne) as [mr Hmr].
  destruct (max_of_nonempty Azure.column_index _ Hne) as [mc Hmc].
  rewrite Hmr, Hmc.
  apply max_of_spec in Hmr. apply max_of_spec in Hmc.
  assert (mr = R) as -> by (by eapply is_max_unique).
  assert (mc = C) as -> by (by eapply is_max_unique).
  rewrite initial_grid.
  destruct (initial_grid_spec (R + 1) (C + 1)) as [Hd0 Hget0].
  destruct (fill_spec (R + 1) (C + 1) (Azure.cells table) _ Hd0) as (g & Hfold & Hd & Hget).
  { apply Forall_forall. intros cell Hcell.
    destruct HR as [_ HR]. destruct HC as [_ HC].
    specialize (HR _ Hcell). specialize (HC _ Hcell). lia. }
  exists g. split; [exact Hfold|]. split; [done|].
  intros r c Hr Hc. rewrite Hget.
  destruct (last_cell _ r c); simpl; [done|]. apply Hget0; lia.
Qed.

Lemma grid_of_cells_inv table g :
  grid_of_cells table = Ok g ->
  exists R C, is_max Azure.row_index (Azure.cells table) R /\
              is_max Azure.column_index (Azure.cells table) C /\
              dims (R + 1) (C + 1) g.
Proof.
  intros Hg.
  destruct (max_of Azure.row_index (Azure.cells table)) as [R|e] eqn:HR.
  2:{ revert Hg. unfold grid_of_cells. by rewrite HR. }
  destruct (max_of Azure.column_index (Azure.cells table)) as [C|e] eqn:HC.
  2:{ revert Hg. unfold grid_of_cells. by rewrite HR, HC. }
  apply max_of_spec in HR, HC. exists R, C. split; [done|]. split; [done|].
  destruct (grid_of_cells_spec table R C HR HC) as (g' & Hg' & Hd & _).
  rewrite Hg in Hg'. by injection Hg' as ->.
Qed.

Lemma dims_rectangular R C g : dims R C g -> rectangular g.
Proof. intros [_ H]. by exists C. Qed.

Lemma azure_tables_rectangular res : Forall rectangular (azure_tables res).
Proof.
  unfold azure_tables. apply Forall_flat_map, Forall_forall. intros table _.
  destruct (grid_of_counts table) as [g|] eqn:E; [|constructor].
  repeat constructor. apply grid_of_counts_spec in E as [Hd _].
  by eapply dims_rectangular.
Qed.

End grids.

(* ===================================================================== *)
(** ** The PDF adapters                                                   *)
(* ===================================================================== *)

Lemma page_texts_flat (l : list Fitz.page) :
  flat_map (fun x : nat * Fitz.page =>
              if nonblank x.2 then [Fitz.get_text x.2] else []) (enumerate l)
  = Fitz.get_text <$> List.filter nonblank l.
Proof.
  rewrite (flat_map_snd (fun pg => if nonblank pg then [Fitz.get_text pg] else [])).
  rewrite enumerate_snd. apply flat_map_filter_fmap.
Qed.

Lemma page_texts_length doc : length (page_texts doc) <= length (Fitz.pages doc).
Proof. unfold page_texts. rewrite length_fmap. apply List.filter_length_le. Qed.

Section pdf_local.
Import PDFProcessor.

Lemma extract_pages_text doc : (extract_pages doc).1 = page_texts doc.
Proof.
  unfold extract_pages.
  rewrite (foldl_fst_flat _ (fun x : nat * Fitz.page =>
             if nonblank x.2 then [Fitz.get_text x.2] else [])).
  - simpl. apply page_texts_flat.
  - intros [tc im] [n pg]. simpl. unfold nonblank.
    destruct (nonempty_str _); simpl; [done|]. by rewrite app_nil_r.
Qed.

Lemma pdf_local_extract_ok env path w doc :
  fitz_open env w path = Ok doc ->
  exists c, _extract_content env path w = (Ok c, w ++ [EvFitzOpen path]) /\
    text_content c = page_texts doc /\
    tables c = [] /\
    images c = (extract_pages doc).2 /\
    page_count (metadata c) = length (Fitz.pages doc).
Proof.
  intros Hopen. unfold _extract_content. rewrite try_reraise.
  unfold bind, call. rewrite Hopen.
  rewrite <- extract_pages_text.
  destruct (extract_pages doc) as [tc im]. unfold ret. by eexists.
Qed.

Lemma pdf_local_store_total env self c doc_id w :
  exists p w', _store_content env self c doc_id w = (Ok p, w').
Proof. unfold _store_content. apply try_default_ok. Qed.

Lemma pdf_local_store_failure env self client c doc_id w e :
  storage self = Some client ->
  (forall w0 d k ct, client w0 d k ct = Raise e) ->
  exists w', _store_content env self c doc_id w = (Ok ∅, w').
Proof.
  intros Hst Hclient. unfold _store_content. eexists. eapply try_default_raise.
  rewrite Hst. run_monad. rewrite Hclient. reflexivity.
Qed.

(** A failing storage client does not fail the request. *)
Lemma pdf_local_survives_storage_failure env self client path w doc e :
  storage self = Some client ->
  (forall w0 d k ct, client w0 d k ct = Raise e) ->
  fitz_open env w path = Ok doc ->
  exists r w', process_pdf env self path w = (Ok r, w') /\
               storage_paths (r_metadata r) = ∅.
Proof.
  intros Hst Hclient Hopen.
  destruct (pdf_local_extract_ok env path w doc Hopen) as (c & Hc & _).
  destruct (pdf_local_store_failure env self client c (_generate_document_id env path)
              (w ++ [EvFitzOpen path]) e Hst Hclient) as [w' Hstore].
  unfold process_pdf. rewrite try_reraise. rewrite (bind_ok _ _ _ _ _ Hc).
  rewrite Hst. unfold bind at 1, try_except. rewrite Hstore. unfold ret. by eexists _, _.
Qed.

(** The local adapter answers whenever PyMuPDF opens the file. *)
Lemma pdf_local_process_ok env self path w doc :
  fitz_open env w path = Ok doc ->
  exists r w', process_pdf env self path w = (Ok r, w') /\
    r_text (r_content r) = page_texts doc /\
    r_tables (r_content r) = [] /\
    page_count (m_document (r_metadata r)) = length (Fitz.pages doc) /\
    processor (r_metadata r) = "PyMuPDF".
Proof.
  intros Hopen. destruct (pdf_local_extract_ok env path w doc Hopen)
    as (c & Hc & Htext & Htab & _ & Hcount).
  unfold process_pdf. rewrite try_reraise. rewrite (bind_ok _ _ _ _ _ Hc).
  unfold bind.
  destruct (storage self) as [client|].
  - destruct (try_default_ok (_store_content env self c (_generate_document_id env path))
                             (∅ : gmap string string) (w ++ [EvFitzOpen path]))
      as (p & w2 & Hp).
    rewrite Hp. unfold ret. by eexists _, _.
  - unfold ret. by eexists _, _.
Qed.

End pdf_local.

Section pdf_cloud.
Import PDFEnterpriseProcessor.

Lemma async_timeout_ok_inv {A} env t (m : M A) w a w' :
  async_timeout env t m w = (Ok a, w') -> m w = (Ok a, w').
Proof.
  unfold async_timeout, try_except, raise.
  destruct (m w) as [[a0|e] w0]; destruct (timed_out env w); simpl;
    try destruct e; congruence.
Qed.

Lemma async_timeout_ok {A} env t (m : M A) w a w' :
  timed_out env w = false -> m w = (Ok a, w') -> async_timeout env t m w = (Ok a, w').
Proof. unfold async_timeout, try_except. by intros -> ->. Qed.

Lemma extract_azure_inv env self path w c w' :
  _extract_content_azure env self path w = (Ok c, w') ->
  _process_with_azure env self path w = (Ok c, w').
Proof.
  unfold _extract_content_azure, try_except at 1.
  destruct (async_timeout _ _ _ w) as [[c0|e] w0] eqn:E.
  - intros [= <- <-]. by apply async_timeout_ok_inv in E.
  - destruct e; unfold raise; congruence.
Qed.

Lemma extract_pymupdf_inv env self path w c w' :
  _extract_content_fallback env self path w = (Ok c, w') ->
  _process_with_pymupdf env path w = (Ok c, w').
Proof.
  unfold _extract_content_fallback, try_except at 1.
  destruct (async_timeout _ _ _ w) as [[c0|e] w0] eqn:E.
  - intros [= <- <-]. by apply async_timeout_ok_inv in E.
  - destruct e; unfold raise; congruence.
Qed.

(** What the main path returns: no [images] key at all. *)
Lemma process_with_azure_spec env self path w :
  _process_with_azure env self path w =
  match analyze_document env w path with
  | Raise e => (Raise e, w ++ [EvAzureAnalyze path])
  | Ok res =>
      (Ok {| text_content := String.concat nl <$> (Azure.lines <$> Azure.pages res);
             tables := azure_tables res;
             images := None;
             key_value_pairs := Some (collect_key_values (Azure.key_value_pairs res));
             pages := None;
             metadata := Some {| page_count := length (Azure.pages res);
                                 md_processor := "Azure Document Intelligence";
                                 md_timestamp := now_isoformat env |} |},
       w ++ [EvAzureAnalyze path])
  end.
Proof.
  unfold _process_with_azure, bind, call, ret.
  destruct (analyze_document env w path) as [res|e]; [|done].
  do 2 f_equal. f_equal.
  - rewrite (foldl_snoc_fmap (fun pg => String.concat nl (Azure.lines pg))) by done.
    simpl. by rewrite <- list_fmap_compose.
  - unfold azure_tables. rewrite (foldl_snoc_flat
       (fun table => match grid_of_counts table with Some g => [g] | None => [] end));
      [done|].
    intros acc t. destruct (grid_of_counts t); [done|]. by rewrite app_nil_r.
Qed.

Lemma process_with_pymupdf_ok env path w doc :
  fitz_open env w path = Ok doc ->
  exists c, _process_with_pymupdf env path w = (Ok c, w ++ [EvFitzOpen path]) /\
    text_content c = page_texts doc /\ tables c = [] /\
    metadata c = Some {| page_count := length (Fitz.pages doc);
                         md_processor := "PyMuPDF (fallback)";
                         md_timestamp := now_isoformat env |}.
Proof.
  intros Hopen. unfold _process_with_pymupdf, bind, call, ret. rewrite Hopen.
  match goal with |- context [foldl ?b ?a ?l] =>
    pose proof (foldl_fst_flat b (fun x : nat * Fitz.page =>
             if nonblank x.2 then [Fitz.get_text x.2] else [])) as H;
    destruct (foldl b a l) as [tc im] eqn:E end.
  eexists. split; [reflexivity|]. simpl. split; [|done].
  match type of H with ?P -> _ => assert (HP : P) end.
  { intros [tc' im'] [n pg]. simpl. unfold nonblank.
    destruct (nonempty_str _); simpl; [done|]. by rewrite app_nil_r. }
  specialize (H HP (enumerate (Fitz.pages doc)) ([], [])).
  rewrite E in H. simpl in H. rewrite H. apply page_texts_flat.
Qed.

(** A successful answer of the cloud PDF processor, by the path taken. *)
Lemma pdf_cloud_process_inv env self path w r w' :
  process_pdf env self path w = (Ok r, w') ->
  if use_fallback self then
    exists doc, fitz_open env w path = Ok doc /\
      r_text (r_content r) = page_texts doc /\
      r_tables (r_content r) = [] /\
      m_page_count (r_metadata r) = length (Fitz.pages doc) /\
      processor (r_metadata r) = "PyMuPDF (fallback)"
  else
    exists res, analyze_document env w path = Ok res /\
      r_text (r_content r) = String.concat nl <$> (Azure.lines <$> Azure.pages res) /\
      r_tables (r_content r) = azure_tables res /\
      r_images (r_content r) = [] /\
      m_page_count (r_metadata r) = length (Azure.pages res) /\
      processor (r_metadata r) = "Azure Document Intelligence".
Proof.
  unfold process_pdf, try_except at 1, bind at 1.
  destruct (use_fallback self) eqn:Hfb.
  - destruct (_extract_content_fallback env self path w) as [[c|e] w1] eqn:Hc;
      [|unfold raise; congruence].
    apply extract_pymupdf_inv in Hc.
    destruct (fitz_open env w path) as [doc|e] eqn:Hopen.
    2:{ revert Hc. unfold _process_with_pymupdf, bind, call. by rewrite Hopen. }
    destruct (process_with_pymupdf_ok env path w doc Hopen)
      as (c' & Hc' & Htext & Htab & Hm).
    rewrite Hc in Hc'. injection Hc' as <- ->.
    unfold bind, ret, raise.
    destruct (storage self);
      [destruct (_store_content env self c _ _) as [[p|e] w2]|];
      intros [= <- <-]; exists doc; simpl; rewrite ?Hm; done.
  - destruct (_extract_content_azure env self path w) as [[c|e] w1] eqn:Hc;
      [|unfold raise; congruence].
    apply extract_azure_inv in Hc. rewrite process_with_azure_spec in Hc.
    destruct (analyze_document env w path) as [res|e] eqn:Hres; [|done].
    injection Hc as <- <-.
    unfold bind, ret, raise.
    destruct (storage self);
      [destruct (_store_content env self _ _ _) as [[p|e] w2]|];
      intros [= <- <-]; exists res; simpl; done.
Qed.

(** A failed upload ends the cloud PDF request, whatever was extracted. *)
Lemma pdf_cloud_store_failure env self client path w c w1 e :
  storage self = Some client ->
  (forall w0 d k ct, client w0 d k ct = Raise e) ->
  (if use_fallback self then _extract_content_fallback env self path w
   else _extract_content_azure env self path w) = (Ok c, w1) ->
  exists w', process_pdf env self path w =
             (Raise (HTTPException 500 ("Error processing PDF: " +:+ str_exn e)), w').
Proof.
  intros Hst Hclient Hc. unfold process_pdf, try_except at 1, bind at 1.
  assert (Hstore : exists w', _store_content env self c
                      (_generate_document_id env self path) w1 = (Raise e, w')).
  { unfold _store_content. rewrite try_reraise, Hst. run_monad.
    rewrite Hclient. eauto. }
  destruct Hstore as [w' Hstore].
  destruct (use_fallback self); rewrite Hc, Hst; unfold bind at 1;
    rewrite Hstore; unfold raise; eauto.
Qed.

End pdf_cloud.

(* ===================================================================== *)
(** ** The cloud web adapter                                              *)
(* ===================================================================== *)

Section web_cloud.
Import WebEnterpriseProcessor.

(** One run of the BeautifulSoup routine makes one request. *)
Lemma fallback_log env url w r w' :
  _extract_content_fallback env url w = (r, w') -> w' = w ++ [EvPageGet url].
Proof.
  unfold _extract_content_fallback. rewrite try_reraise.
  unfold bind, call, raise_for_status, lift, ret, raise.
  destruct (session_get env w url) as [resp|e]; [|congruence].
  destruct (Nat.leb 400 (status resp)); [congruence|].
  destruct (body resp); congruence.
Qed.

Lemma diffbot_client_error env self url w msg :
  diffbot_reply env w (default "" (diffbot_token self)) url = Raise (ClientError msg) ->
  _extract_content_diffbot env self url w =
  _extract_content_fallback env url
    (w ++ [EvDiffbotGet (default "" (diffbot_token self)) url]).
Proof.
  unfold diffbot_reply, _extract_content_diffbot, try_except at 1.
  unfold bind at 1, call at 1.
  destruct (diffbot_get env w _ url) as [resp|e].
  - unfold bind at 1, raise_for_status.
    destruct (Nat.leb 400 (status resp)); [done|].
    unfold ret, bind at 1, lift at 1. by intros ->.
  - by intros [= ->].
Qed.

Lemma diffbot_other_error env self url w e :
  diffbot_reply env w (default "" (diffbot_token self)) url = Raise e ->
  is_client_error e = false ->
  _extract_content_diffbot env self url w =
  (Raise e, w ++ [EvDiffbotGet (default "" (diffbot_token self)) url]).
Proof.
  unfold diffbot_reply, _extract_content_diffbot, try_except at 1.
  unfold bind at 1, call at 1.
  destruct (diffbot_get env w _ url) as [resp|e0].
  - unfold bind at 1, raise_for_status.
    destruct (Nat.leb 400 (status resp)); [by intros [= <-]|].
    unfold ret, bind at 1, lift at 1. intros -> He. by destruct e.
  - intros [= ->] He. by destruct e.
Qed.

(** Without objects the BeautifulSoup routine runs inside the [try]: a
    client error of that run is caught by the same handler, which runs
    the routine once more. *)
Lemma diffbot_no_objects env self url w data :
  diffbot_reply env w (default "" (diffbot_token self)) url = Ok data ->
  no_objects data = true ->
  _extract_content_diffbot env self url w =
  match _extract_content_fallback env url
          (w ++ [EvDiffbotGet (default "" (diffbot_token self)) url]) with
  | (Raise (ClientError _), w2) => _extract_content_fallback env url w2
  | other => other
  end.
Proof.
  unfold diffbot_reply, _extract_content_diffbot, try_except at 1.
  unfold bind at 1, call at 1.
  destruct (diffbot_get env w _ url) as [resp|e0]; [|done].
  unfold bind at 1, raise_for_status.
  destruct (Nat.leb 400 (status resp)); [done|].
  unfold ret, bind at 1, lift at 1. intros -> Hno.
  destruct data as [| | | | |items]; try done. simpl in Hno.
  unfold bind at 1, lift at 1, has_objects.
  destruct (dict_lookup "objects" items) as [v|] eqn:Hv.
  - rewrite bool_decide_eq_true_2 by eauto.
    unfold bind at 1. simpl. unfold bind at 1, lift at 1, get_objects. rewrite Hv.
    unfold ret. rewrite Hno.
    simpl. destruct (_extract_content_fallback env url _) as [[c|[]] w2]; done.
  - rewrite bool_decide_eq_false_2 by (intros [? ?]; done).
    unfold bind at 1. simpl. unfold ret.
    destruct (_extract_content_fallback env url _) as [[c|[]] w2]; done.
Qed.

(** After a recoverable reply the content is the result of a run of the
    BeautifulSoup routine on the same URL. *)
Lemma diffbot_recoverable env self url w c w' :
  recoverable (diffbot_reply env w (default "" (diffbot_token self)) url) = true ->
  _extract_content_diffbot env self url w = (Ok c, w') ->
  exists wk,
    (wk = w ++ [EvDiffbotGet (default "" (diffbot_token self)) url] \/
     wk = w ++ [EvDiffbotGet (default "" (diffbot_token self)) url] ++ [EvPageGet url]) /\
    _extract_content_fallback env url wk = (Ok c, w').
Proof.
  intros Hrec Hc.
  set (w1 := w ++ [EvDiffbotGet (default "" (diffbot_token self)) url]).
  destruct (diffbot_reply env w _ url) as [data|e] eqn:Hreply; simpl in Hrec.
  - rewrite (diffbot_no_objects _ _ _ _ _ Hreply Hrec) in Hc. fold w1 in Hc.
    destruct (_extract_content_fallback env url w1) as [[c0|e] w2] eqn:Hf.
    + exists w1. split; [by left|]. by rewrite Hf.
    + pose proof (fallback_log _ _ _ _ _ Hf) as ->.
      destruct e; try done. exists (w1 ++ [EvPageGet url]).
      split; [right; unfold w1; by rewrite <- app_assoc|done].
  - destruct e; try done.
    rewrite (diffbot_client_error _ _ _ _ _ Hreply) in Hc.
    exists w1. split; [by left|done].
Qed.

Lemma web_cloud_store_total env self c doc_id w :
  exists p w', _store_content env self c doc_id w = (Ok p, w').
Proof. unfold _store_content. apply try_default_ok. Qed.

Lemma web_cloud_store_failure env self client c doc_id w e :
  storage self = Some client ->
  (forall w0 d k ct, client w0 d k ct = Raise e) ->
  exists w', _store_content env self c doc_id w = (Ok ∅, w').
Proof.
  intros Hst Hclient. unfold _store_content, try_except. rewrite Hst. simpl.
  unfold bind at 1, lift at 1.
  destruct (encode (text c)); [|unfold ret; eauto].
  unfold bind at 1, call at 1. rewrite Hclient. unfold ret. eauto.
Qed.

(** A failing storage client does not fail the request. *)
Lemma web_cloud_survives_storage_failure env self client url w c w1 e :
  storage self = Some client ->
  (forall w0 d k ct, client w0 d k ct = Raise e) ->
  (if truthy_opt (diffbot_token self)
   then _extract_content_diffbot env self url w
   else _extract_content_fallback env url w) = (Ok c, w1) ->
  exists r w', process_webpage env self url w = (Ok r, w') /\
               storage_paths (r_metadata r) = ∅.
Proof.
  intros Hst Hclient Hc.
  destruct (web_cloud_store_failure env self client c (_generate_document_id env url)
              w1 e Hst Hclient) as [w' Hstore].
  unfold process_webpage. rewrite try_reraise. unfold bind at 1.
  destruct (truthy_opt (diffbot_token self)); rewrite Hc, Hst;
    rewrite (bind_ok _ _ _ _ _ Hstore); unfold ret; by eexists _, _.
Qed.

Lemma web_cloud_process_inv env self url w r w' :
  process_webpage env self url w = (Ok r, w') ->
  exists c w1,
    (if truthy_opt (diffbot_token self)
     then _extract_content_diffbot env self url w
     else _extract_content_fallback env url w) = (Ok c, w1) /\
    r_content r = {| r_text := text c; r_title := title c;
                     r_images := images c; r_links := links c |} /\
    processor (r_metadata r) =
      if truthy_opt (diffbot_token self) then "Diffbot" else "BeautifulSoup (fallback)".
Proof.
  unfold process_webpage. rewrite try_reraise. unfold bind at 1.
  destruct (truthy_opt (diffbot_token self)).
  - destruct (_extract_content_diffbot env self url w) as [[c|e] w1] eqn:Hc; [|done].
    unfold bind, ret.
    destruct (storage self);
      [destruct (_store_content env _ c _ w1) as [[p|e] w2] | simpl];
      intros [= <- <-]; by exists c, w1.
  - destruct (_extract_content_fallback env url w) as [[c|e] w1] eqn:Hc; [|done].
    unfold bind, ret.
    destruct (storage self);
      [destruct (_store_content env _ c _ w1) as [[p|e] w2] | simpl];
      intros [= <- <-]; by exists c, w1.
Qed.

Lemma web_cloud_process_of_content env self url w c w1 :
  (if truthy_opt (diffbot_token self)
   then _extract_content_diffbot env self url w
   else _extract_content_fallback env url w) = (Ok c, w1) ->
  exists r w', process_webpage env self url w = (Ok r, w') /\
    r_content r = {| r_text := text c; r_title := title c;
                     r_images := images c; r_links := links c |}.
Proof.
  intros Hc. unfold process_webpage. rewrite try_reraise. unfold bind at 1.
  destruct (truthy_opt (diffbot_token self)); rewrite Hc; unfold bind, ret.
  - destruct (storage self); [|eauto].
    destruct (web_cloud_store_total env self c (_generate_document_id env url) w1)
      as (p & w2 & ->). eauto.
  - destruct (storage self); [|eauto].
    destruct (web_cloud_store_total env self c (_generate_document_id env url) w1)
      as (p & w2 & ->). eauto.
Qed.

Lemma web_cloud_hard_failure env self url w e :
  truthy_opt (diffbot_token self) = true ->
  diffbot_reply env w (default "" (diffbot_token self)) url = Raise e ->
  is_client_error e = false ->
  process_webpage env self url w =
  (Raise e, w ++ [EvDiffbotGet (default "" (diffbot_token self)) url]).
Proof.
  intros Htok Hreply He. unfold process_webpage. rewrite try_reraise.
  unfold bind at 1. rewrite Htok.
  by rewrite (diffbot_other_error _ _ _ _ _ Hreply He).
Qed.

(** The label follows the token, not the routine that ran. *)
Lemma web_cloud_label_after_fallback env self url w r w' :
  truthy_opt (diffbot_token self) = true ->
  recoverable (diffbot_reply env w (default "" (diffbot_token self)) url) = true ->
  process_webpage env self url w = (Ok r, w') ->
  processor (r_metadata r) = "Diffbot".
Proof.
  intros Htok _ Hr. apply web_cloud_process_inv in Hr as (c & w1 & _ & _ & Hp).
  by rewrite Htok in Hp.
Qed.

(** The uploads of [_store_content] go, in order, to a prefix of the
    three keys; the mapping is the full one after three successful
    uploads and empty otherwise. *)
Lemma web_cloud_store_shape env self c doc_id w :
  exists p n,
    _store_content env self c doc_id w =
      (Ok p, w ++ (EvUpload <$> take n (web_cloud_keys self doc_id))) /\
    ((p = web_cloud_paths self doc_id /\ n = 3 /\ is_Some (storage self)) \/
     (p = ∅ /\ n <= 3)).
Proof.
  unfold _store_content, try_except. cbv zeta.
  destruct (storage self) as [client|] eqn:Hst.
  2:{ exists ∅, 0. unfold ret. simpl. rewrite app_nil_r. split; [reflexivity|].
      right. split; [done|lia]. }
  unfold bind at 1, lift at 1.
  destruct (encode (text c)) as [tb|e].
  2:{ exists ∅, 0. unfold ret. simpl. rewrite app_nil_r. split; [reflexivity|].
      right. split; [done|lia]. }
  unfold bind at 1, call at 1.
  destruct (client w _ _ _) as [k1|e].
  2:{ exists ∅, 1. unfold ret. split; [reflexivity|]. right. split; [done|lia]. }
  unfold bind at 1, lift at 1.
  destruct (encode (html c)) as [hb|e].
  2:{ exists ∅, 1. unfold ret. split; [reflexivity|]. right. split; [done|lia]. }
  unfold bind at 1, call at 1.
  destruct (client _ (BytesIO hb 0) _ _) as [k2|e].
  2:{ exists ∅, 2. unfold ret. simpl. rewrite <- app_assoc. split; [reflexivity|]. right.
      split; [done|lia]. }
  unfold bind at 1, lift at 1.
  destruct (len (images c)) as [ic|e].
  2:{ exists ∅, 2. unfold ret. simpl. rewrite <- app_assoc. split; [reflexivity|]. right.
      split; [done|lia]. }
  unfold bind at 1, lift at 1.
  destruct (len (links c)) as [lc|e].
  2:{ exists ∅, 2. unfold ret. simpl. rewrite <- app_assoc. split; [reflexivity|]. right.
      split; [done|lia]. }
  unfold bind at 1, lift at 1.
  destruct (json_dumps env _) as [js|e].
  2:{ exists ∅, 2. unfold ret. simpl. rewrite <- app_assoc. split; [reflexivity|]. right.
      split; [done|lia]. }
  unfold bind at 1, call at 1.
  destruct (client _ (BytesIO (encode_utf8 js) 0) _ _) as [k3|e].
  - exists (web_cloud_paths self doc_id), 3. unfold ret. simpl.
    rewrite <- !app_assoc. split; [reflexivity|]. left. split; [done|]. split; [done|eauto].
  - exists ∅, 3. unfold ret. simpl. rewrite <- !app_assoc. split; [reflexivity|]. right.
    split; [done|lia].
Qed.

Lemma web_cloud_process_shape env self url w r w' :
  process_webpage env self url w = (Ok r, w') ->
  exists c w1 n,
    (if truthy_opt (diffbot_token self)
     then _extract_content_diffbot env self url w
     else _extract_content_fallback env url w) = (Ok c, w1) /\
    document_id r = _generate_document_id env url /\
    w' = w1 ++ (EvUpload <$> take n (web_cloud_keys self (document_id r))) /\
    ((storage_paths (r_metadata r) = web_cloud_paths self (document_id r) /\ n = 3) \/
     (storage_paths (r_metadata r) = ∅ /\ n <= 3)).
Proof.
  unfold process_webpage. rewrite try_reraise. unfold bind at 1. cbv zeta.
  match goal with |- context [?m w] =>
    match m with (if _ then _ else _) => destruct (m w) as [[c|e] w1] eqn:Hc end end; [|done].
  unfold bind at 1.
  destruct (web_cloud_store_shape env self c (_generate_document_id env url) w1)
    as (p & n & Hstore & Hp).
  destruct (storage self) as [client|] eqn:Hst.
  - rewrite Hstore. unfold ret. intros [= <- <-]. simpl.
    exists c, w1, n. split; [by destruct (truthy_opt (diffbot_token self))|].
    do 2 (split; [done|]).
    destruct Hp as [(-> & -> & _)|[-> Hn]]; [by left|by right].
  - unfold ret. intros [= <- <-]. simpl.
    exists c, w1, 0. simpl. rewrite app_nil_r.
    split; [by destruct (truthy_opt (diffbot_token self))|]. do 2 (split; [done|]).
    right. split; [done|lia].
Qed.

Lemma web_cloud_fallback_eq env url w :
  _extract_content_fallback env url w =
  (match session_get env w url with
   | Raise e => Raise e
   | Ok resp =>
       if Nat.leb 400 (status resp)
       then Raise (ClientError (error_text resp))
       else match body resp with
            | Ok html => Ok (soup_content env url (BeautifulSoup env html))
            | Raise e => Raise e
            end
   end, w ++ [EvPageGet url]).
Proof.
  unfold _extract_content_fallback. rewrite try_reraise.
  unfold bind, call, raise_for_status, lift, ret, raise.
  destruct (session_get env w url) as [resp|e]; [|done].
  destruct (Nat.leb 400 (status resp)); [done|].
  by destruct (body resp).
Qed.

(** The calls of the Diffbot routine: the request to Diffbot, then at most
    two requests of the page (two when, after a reply without objects,
    the first run of the BeautifulSoup routine fails with a client
    error). *)
Lemma diffbot_log env self url w r w' :
  _extract_content_diffbot env self url w = (r, w') ->
  exists k, k <= 2 /\
    w' = w ++ EvDiffbotGet (default "" (diffbot_token self)) url
           :: replicate k (EvPageGet url).
Proof.
  set (w1 := w ++ [EvDiffbotGet (default "" (diffbot_token self)) url]).
  assert (Hw1 : forall k, w1 ++ replicate k (EvPageGet url) =
                          w ++ EvDiffbotGet (default "" (diffbot_token self)) url
                            :: replicate k (EvPageGet url)).
  { intros k. unfold w1. by rewrite <- app_assoc. }
  unfold _extract_content_diffbot, try_except at 1. cbv zeta.
  match goal with |- context [match ?b w with _ => _ end] =>
    destruct (b w) as [ra w2] eqn:Hb end.
  assert (Hk : exists k, k <= 1 /\ w2 = w1 ++ replicate k (EvPageGet url)).
  { revert Hb. unfold bind at 1, call at 1. fold w1.
    destruct (diffbot_get env w _ url) as [resp|e0];
      [|intros [= _ <-]; exists 0; split; [lia|by rewrite app_nil_r]].
    unfold bind at 1, raise_for_status.
    destruct (Nat.leb 400 (status resp));
      [intros [= _ <-]; exists 0; split; [lia|by rewrite app_nil_r]|].
    unfold ret at 1. unfold bind at 1, lift at 1.
    destruct (body resp) as [data|e0];
      [|intros [= _ <-]; exists 0; split; [lia|by rewrite app_nil_r]].
    unfold bind at 1, lift at 1.
    destruct (has_objects data) as [present|e0];
      [|intros [= _ <-]; exists 0; split; [lia|by rewrite app_nil_r]].
    unfold bind at 1.
    assert (Hfb : forall rf wf, _extract_content_fallback env url w1 = (rf, wf) ->
                    exists k, k <= 1 /\ wf = w1 ++ replicate k (EvPageGet url)).
    { intros rf wf Hf. apply fallback_log in Hf as ->. exists 1. split; [lia|done]. }
    assert (Hrest : forall rf wf,
              (objects <~ lift (get_objects data) ;;
               article <~ lift (first_object objects) ;;
               text <~ lift (article_get article "text" (VStr "")) ;;
               title <~ lift (article_get article "title" (VStr "")) ;;
               images <~ lift (article_get article "images" (VList [])) ;;
               links <~ lift (article_get article "links" (VList [])) ;;
               html <~ lift (article_get article "html" (VStr "")) ;;
               author <~ lift (article_get article "author" (VStr "")) ;;
               date <~ lift (article_get article "date" (VStr "")) ;;
               siteName <~ lift (article_get article "siteName" (VStr "")) ;;
               ret {| text := text; title := title; images := images; links := links;
                      html := html; author := Some author; date := Some date;
                      siteName := Some siteName |}) w1 = (rf, wf) ->
              exists k, k <= 1 /\ wf = w1 ++ replicate k (EvPageGet url)).
    { intros rf wf. unfold bind, lift, ret.
      destruct (get_objects data) as [objs|e0];
        [|intros [= _ <-]; exists 0; split; [lia|by rewrite app_nil_r]].
      destruct (first_object objs) as [art|e0];
        [|intros [= _ <-]; exists 0; split; [lia|by rewrite app_nil_r]].
      destruct art; simpl; intros [= _ <-]; exists 0; (split; [lia|by rewrite app_nil_r]). }
    destruct present; cbn [negb].
    - unfold bind at 1, lift at 1.
      destruct (get_objects data) as [objs|e0] eqn:Hobjs;
        [|intros [= _ <-]; exists 0; split; [lia|by rewrite app_nil_r]].
      unfold ret at 1. destruct (negb (truthy objs)); [apply Hfb|].
      intros H. apply (Hrest ra w2). exact H.
    - unfold ret at 1. apply Hfb. }
  destruct Hk as (k & Hk & ->).
  destruct ra as [c|e].
  - intros [= _ <-]. exists k. split; [lia|apply Hw1].
  - destruct e; try (unfold raise; intros [= _ <-]; exists k; split; [lia|apply Hw1]).
    intros Hf. apply fallback_log in Hf as ->. exists (S k). split; [lia|].
    rewrite <- Hw1. rewrite <- app_assoc. f_equal.
    change (EvPageGet url :: replicate k (EvPageGet url))
      with (replicate (S k) (EvPageGet url)).
    by rewrite replicate_S_end.
Qed.

End web_cloud.

Section pdf_local_inversion.
Import PDFProcessor.

Lemma pdf_local_extract_inv env path w c w' :
  _extract_content env path w = (Ok c, w') ->
  exists doc, fitz_open env w path = Ok doc.
Proof.
  unfold _extract_content. rewrite try_reraise. unfold bind, call.
  destruct (fitz_open env w path); [eauto|done].
Qed.

Lemma pdf_local_process_inv env self path w r w' :
  process_pdf env self path w = (Ok r, w') ->
  exists doc, fitz_open env w path = Ok doc.
Proof.
  unfold process_pdf. rewrite try_reraise. unfold bind at 1.
  destruct (_extract_content env path w) as [[c|e] w1] eqn:Hc; [|done].
  intros _. by eapply pdf_local_extract_inv.
Qed.

End pdf_local_inversion.


(* ===================================================================== *)
(** ** The two BeautifulSoup routines compared                            *)
(* ===================================================================== *)

Section web_adapters_compared.

Lemma fmap_flat_map {A B C} (f : B -> C) (g : A -> list B) (l : list A) :
  f <$> flat_map g l = flat_map (fun x => f <$> g x) l.
Proof. induction l as [|x l IH]; simpl; [done|]. by rewrite fmap_app, IH. Qed.

Lemma cloud_images_of_local env url soup :
  WebEnterpriseProcessor.extract_images env url soup =
  image_value <$> WebProcessor.extract_images env url soup.
Proof.
  unfold WebEnterpriseProcessor.extract_images, WebProcessor.extract_images.
  set (g := fun img : Soup.node =>
              match Soup.get "src" img with
              | Some src =>
                  if nonempty_str src then
                    [{| WebProcessor.image_url := WebProcessor.absolute env url src;
                        WebProcessor.alt := default "" (Soup.get "alt" img);
                        WebProcessor.image_title := default "" (Soup.get "title" img) |}]
                  else []
              | None => []
              end).
  rewrite (foldl_snoc_flat g).
  2:{ intros acc img. unfold g. destruct (Soup.get "src" img) as [src|];
        [destruct (nonempty_str src)|]; by rewrite ?app_nil_r. }
  rewrite (foldl_snoc_flat (fun img => image_value <$> g img)).
  2:{ intros acc img. unfold g. destruct (Soup.get "src" img) as [src|];
        [destruct (nonempty_str src)|]; by rewrite ?app_nil_r. }
  simpl. by rewrite fmap_flat_map.
Qed.

Lemma cloud_links_of_local env url soup :
  WebEnterpriseProcessor.extract_links env url soup =
  link_value <$> WebProcessor.extract_links env url soup.
Proof.
  unfold WebEnterpriseProcessor.extract_links, WebProcessor.extract_links.
  set (g := fun a : Soup.node =>
              match Soup.get "href" a with
              | Some href =>
                  if nonempty_str href then
                    [{| WebProcessor.link_url := WebProcessor.absolute env url href;
                        WebProcessor.link_text := strip (Soup.get_text a) |}]
                  else []
              | None => []
              end).
  rewrite (foldl_snoc_flat g).
  2:{ intros acc a. unfold g. destruct (Soup.get "href" a) as [href|];
        [destruct (nonempty_str href)|]; by rewrite ?app_nil_r. }
  rewrite (foldl_snoc_flat (fun a => link_value <$> g a)).
  2:{ intros acc a. unfold g. destruct (Soup.get "href" a) as [href|];
        [destruct (nonempty_str href)|]; by rewrite ?app_nil_r. }
  simpl. by rewrite fmap_flat_map.
Qed.

(** Where the local web adapter answers, the BeautifulSoup routine of the
    cloud adapter answers from the same request with the same fragments,
    images and links; its [text] is the fragments joined by newlines, a
    single string, and it has no tables. *)
Lemma cloud_fallback_of_local env url w c w' :
  WebProcessor._extract_content env url w = (Ok c, w') ->
  exists c',
    WebEnterpriseProcessor._extract_content_fallback env url w = (Ok c', w') /\
    WebEnterpriseProcessor.text c' =
      VStr (String.concat nl (WebProcessor.text_content c)) /\
    WebEnterpriseProcessor.images c' = VList (image_value <$> WebProcessor.images c) /\
    WebEnterpriseProcessor.links c' = VList (link_value <$> WebProcessor.links c).
Proof.
  intros Hc. apply web_local_extract_inv in Hc
    as (resp & html & Hget & H200 & Hbody & -> & -> & _ & -> & ->).
  unfold WebEnterpriseProcessor._extract_content_fallback. rewrite try_reraise.
  unfold bind, call, raise_for_status, lift, ret. rewrite Hget, H200, Hbody. simpl.
  eexists. split; [reflexivity|]. simpl.
  split; [done|]. by rewrite cloud_images_of_local, cloud_links_of_local.
Qed.

(** The content of the BeautifulSoup routine of the cloud adapter through
    the extraction loops of the local adapter. *)
Lemma soup_content_of_local env url soup :
  soup_content env url soup =
  {| WebEnterpriseProcessor.text :=
       VStr (String.concat nl (WebProcessor.extract_text soup));
     WebEnterpriseProcessor.title :=
       match Soup.title soup with
       | Some tag => WebEnterpriseProcessor.opt_str (Soup.string_of tag)
       | None => VStr ""
       end;
     WebEnterpriseProcessor.images :=
       VList (image_value <$> WebProcessor.extract_images env url soup);
     WebEnterpriseProcessor.links :=
       VList (link_value <$> WebProcessor.extract_links env url soup);
     WebEnterpriseProcessor.html := VStr (str_soup env soup);
     WebEnterpriseProcessor.author := None;
     WebEnterpriseProcessor.date := None;
     WebEnterpriseProcessor.siteName := None |}.
Proof.
  unfold soup_content. by rewrite cloud_images_of_local, cloud_links_of_local.
Qed.

(** The two [content] dicts never have one shape: the second key is
    [title] in one and [tables] in the other. *)
Lemma content_shapes_differ rc lc :
  same_shape (cloud_content_dict rc) (local_content_dict lc) = false.
Proof.
  unfold same_shape. apply bool_decide_eq_false_2. intros [_ H].
  simpl in H. discriminate H.
Qed.

End web_adapters_compared.

(* ===================================================================== *)
(** ** The properties of the specification                                *)
(* ===================================================================== *)

(** C1 (the code departs from the claim): [metadata.processor] is to name
    the engine that produced the content.  With a Diffbot token set and a
    Diffbot reply that holds no objects, the content of the response is
    the one the BeautifulSoup routine extracts from the page, and the
    response still says "Diffbot": the label is computed from the token
    alone.  The log shows both requests. *)
Theorem processor_label_after_runtime_fallback :
  exists r c,
    WebEnterpriseProcessor.process_webpage Demo.env_no_objects
      (WebEnterpriseProcessor.__init__ Demo.env_no_objects None) Demo.url [] =
      (Ok r, [EvDiffbotGet "secret" Demo.url; EvPageGet Demo.url]) /\
    WebEnterpriseProcessor._extract_content_fallback Demo.env_no_objects Demo.url
      [EvDiffbotGet "secret" Demo.url] =
      (Ok c, [EvDiffbotGet "secret" Demo.url; EvPageGet Demo.url]) /\
    WebEnterpriseProcessor.r_text (WebEnterpriseProcessor.r_content r) =
      WebEnterpriseProcessor.text c /\
    WebEnterpriseProcessor.r_text (WebEnterpriseProcessor.r_content r) = VStr "Hello" /\
    WebEnterpriseProcessor.processor (WebEnterpriseProcessor.r_metadata r) = "Diffbot".
Proof.
  eexists _, _. split; [vm_compute; reflexivity|].
  split; [vm_compute; reflexivity|]. by vm_compute.
Qed.

(** C2 (the code departs from the claim): a failure of the storage client
    is not to fail a request whose extraction succeeded.  The cloud PDF
    processor extracts this document, its first upload raises, its
    [_store_content] raises again and [process_pdf] answers with an
    [HTTPException] 500.  The other three processors return the empty
    mapping there ([pdf_local_survives_storage_failure],
    [web_local_survives_storage_failure],
    [web_cloud_survives_storage_failure]). *)
Theorem cloud_pdf_storage_failure_fails_request :
  (exists c w1,
     PDFEnterpriseProcessor._extract_content_azure Demo.env_pdf_full
       (PDFEnterpriseProcessor.__init__ Demo.env_pdf_full (Some Demo.failing_store) 300 3 5)
       "a.pdf" [] = (Ok c, w1)) /\
  fst (PDFEnterpriseProcessor.process_pdf Demo.env_pdf_full
         (PDFEnterpriseProcessor.__init__ Demo.env_pdf_full (Some Demo.failing_store) 300 3 5)
         "a.pdf" []) =
    Raise (HTTPException 500
             "Error processing PDF: An error occurred (AccessDenied) when calling the PutObject operation: Access Denied").
Proof.
  split; [eexists _, _; vm_compute; reflexivity|]. by vm_compute.
Qed.

(** C3, as stated, fails: the service declares a table of 2 rows and 2
    columns and reports one cell, at row 0 and column 0, so the largest
    indices are 0 and 0; the grid of the response has 2 rows of 2 columns,
    not 1 row of 1 column. *)
Lemma cloud_grid_sized_by_declared_counts :
  is_max Azure.row_index (Azure.cells Demo.sparse_table) 0 /\
  is_max Azure.column_index (Azure.cells Demo.sparse_table) 0 /\
  exists r w',
    PDFEnterpriseProcessor.process_pdf Demo.env_pdf_sparse
      (PDFEnterpriseProcessor.__init__ Demo.env_pdf_sparse None 300 3 5) "a.pdf" []
      = (Ok r, w') /\
    PDFEnterpriseProcessor.r_tables (PDFEnterpriseProcessor.r_content r) =
      [[["a"; ""]; [""; ""]]] /\
    ~ Forall (dims (0 + 1) (0 + 1))
             (PDFEnterpriseProcessor.r_tables (PDFEnterpriseProcessor.r_content r)).
Proof.
  assert (Hmax : forall f, f (Demo.cell 0 0 "a") = 0 ->
                           is_max f (Azure.cells Demo.sparse_table) 0).
  { intros f Hf. split.
    - exists (Demo.cell 0 0 "a"). split; [left|done].
    - intros c Hc. apply list_elem_of_singleton in Hc as ->. lia. }
  split; [by apply Hmax|]. split; [by apply Hmax|].
  eexists _, _. split; [vm_compute; reflexivity|]. split; [by vm_compute|].
  vm_compute. intros H. apply Forall_cons in H as [[H _] _]. discriminate.
Qed.

(** C3, amended: on the path [process_pdf] takes ([_process_with_azure])
    a table with no declared row is dropped, and any other becomes a grid
    of exactly [row_count] rows of [column_count] columns, the counts the
    service declares; a position holds the content of the first cell
    reported there and the empty string when none is.  In
    [_extract_content], for cells whose largest row index is [R] and
    largest column index is [C], the grid has exactly [R + 1] rows of
    [C + 1] columns; a position holds the content of the last cell
    reported there and the empty string when none is. *)
Theorem cloud_grid_dimensions table :
  (forall g, PDFEnterpriseProcessor.grid_of_counts table = Some g ->
     dims (Azure.row_count table) (Azure.column_count table) g /\
     forall r c, r < Azure.row_count table -> c < Azure.column_count table ->
       grid_get g r c = Some (cell_text (first_cell (Azure.cells table) r c))) /\
  (PDFEnterpriseProcessor.grid_of_counts table = None <-> Azure.row_count table = 0) /\
  (forall R C,
     is_max Azure.row_index (Azure.cells table) R ->
     is_max Azure.column_index (Azure.cells table) C ->
     exists g, PDFEnterpriseProcessor.grid_of_cells table = Ok g /\
       dims (R + 1) (C + 1) g /\
       forall r c, r <= R -> c <= C ->
         grid_get g r c = Some (cell_text (last_cell (Azure.cells table) r c))) /\
  (forall env self path w r w',
     PDFEnterpriseProcessor.use_fallback self = false ->
     PDFEnterpriseProcessor.process_pdf env self path w = (Ok r, w') ->
     exists res, analyze_document env w path = Ok res /\
       PDFEnterpriseProcessor.r_tables (PDFEnterpriseProcessor.r_content r) =
         azure_tables res).
Proof.
  split; [apply grid_of_counts_spec|]. split.
  - rewrite grid_of_counts_eq.
    destruct (Nat.eqb_spec (Azure.row_count table) 0); split; intros; congruence.
  - split; [apply grid_of_cells_spec|].
    intros env self path w r w' Hfb Hr.
    apply pdf_cloud_process_inv in Hr. rewrite Hfb in Hr.
    destruct Hr as (res & Hres & _ & Htab & _). by exists res.
Qed.

Lemma cloud_grid_dimensions_witness :
  (PDFEnterpriseProcessor.grid_of_counts Demo.full_table =
     Some [["c00"; "c01"; "c02"]; ["c10"; "c11"; "c12"]] /\
   dims 2 3 [["c00"; "c01"; "c02"]; ["c10"; "c11"; "c12"]]) /\
  (is_max Azure.row_index (Azure.cells Demo.full_table) 1 /\
   is_max Azure.column_index (Azure.cells Demo.full_table) 2 /\
   exists g, PDFEnterpriseProcessor.grid_of_cells Demo.full_table = Ok g /\
             dims (1 + 1) (2 + 1) g) /\
  (PDFEnterpriseProcessor.use_fallback
     (PDFEnterpriseProcessor.__init__ Demo.env_pdf_full None 300 3 5) = false /\
   exists r w',
     PDFEnterpriseProcessor.process_pdf Demo.env_pdf_full
       (PDFEnterpriseProcessor.__init__ Demo.env_pdf_full None 300 3 5) "a.pdf" []
       = (Ok r, w') /\
     exists res, analyze_document Demo.env_pdf_full [] "a.pdf" = Ok res /\
       PDFEnterpriseProcessor.r_tables (PDFEnterpriseProcessor.r_content r) =
         azure_tables res).
Proof.
  assert (H1 : PDFEnterpriseProcessor.grid_of_counts Demo.full_table =
               Some [["c00"; "c01"; "c02"]; ["c10"; "c11"; "c12"]])
    by (vm_compute; reflexivity).
  assert (HR : is_max Azure.row_index (Azure.cells Demo.full_table) 1).
  { apply max_of_spec. vm_compute. reflexivity. }
  assert (HC : is_max Azure.column_index (Azure.cells Demo.full_table) 2).
  { apply max_of_spec. vm_compute. reflexivity. }
  destruct (cloud_grid_dimensions Demo.full_table) as (Hcounts & _ & Hcells & Hproc).
  split; [split; [exact H1 | exact (proj1 (Hcounts _ H1))]|]. split.
  - split; [exact HR|]. split; [exact HC|].
    destruct (Hcells 1 2 HR HC) as (g & Hg & Hd & _). by exists g.
  - split; [reflexivity|]. eexists _, _. split; [vm_compute; reflexivity|].
    eapply (Hproc Demo.env_pdf_full
              (PDFEnterpriseProcessor.__init__ Demo.env_pdf_full None 300 3 5) "a.pdf" []);
      [reflexivity | vm_compute; reflexivity].
Defined.

(** C4, as stated, fails: the local web adapter turns a [<table>] whose
    rows hold two cells and one cell into a table with rows of length 2
    and 1. *)
Lemma web_local_table_not_rectangular :
  exists r w',
    WebProcessor.process_webpage Demo.env_no_token (WebProcessor.__init__ None) Demo.url []
      = (Ok r, w') /\
    WebProcessor.r_tables (WebProcessor.r_content r) = [[["a"; "b"]; ["c"]]] /\
    ~ Forall rectangular (WebProcessor.r_tables (WebProcessor.r_content r)).
Proof.
  eexists _, _. split; [vm_compute; reflexivity|]. split; [by vm_compute|].
  vm_compute. intros H. apply Forall_cons in H as [[n Hn] _].
  apply Forall_cons in Hn as [H2 Hn]. apply Forall_cons in Hn as [H1 _].
  simpl in H1, H2. congruence.
Qed.

(** C4, amended: every table in a response of the cloud PDF processor is
    rectangular, and so is every grid [_extract_content] builds; the local
    PDF adapter returns no table; a table of the local web adapter has one
    row for each [<tr>] that has cells, holding one entry for each
    [<td>]/[<th>] of that [<tr>] (its rows may differ in length).  The
    response of the cloud web adapter has no [tables] field. *)
Theorem tables_rectangular_where_built_as_grids :
  (forall env self path w r w',
     PDFEnterpriseProcessor.process_pdf env self path w = (Ok r, w') ->
     Forall rectangular
            (PDFEnterpriseProcessor.r_tables (PDFEnterpriseProcessor.r_content r))) /\
  (forall table g, PDFEnterpriseProcessor.grid_of_cells table = Ok g -> rectangular g) /\
  (forall env self path w r w',
     PDFProcessor.process_pdf env self path w = (Ok r, w') ->
     PDFProcessor.r_tables (PDFProcessor.r_content r) = []) /\
  (forall soup,
     WebProcessor.extract_tables soup = flat_map table_of (Soup.find_all ["table"] soup)).
Proof.
  split; [|split; [|split]].
  - intros env self path w r w' Hr. apply pdf_cloud_process_inv in Hr.
    destruct (PDFEnterpriseProcessor.use_fallback self).
    + destruct Hr as (doc & _ & _ & -> & _). constructor.
    + destruct Hr as (res & _ & _ & -> & _). apply azure_tables_rectangular.
  - intros table g Hg. apply grid_of_cells_inv in Hg as (R & C & _ & _ & Hd).
    by eapply dims_rectangular.
  - intros env self path w r w' Hr.
    destruct (pdf_local_process_inv _ _ _ _ _ _ Hr) as [doc Hopen].
    destruct (pdf_local_process_ok env self path w doc Hopen)
      as (r0 & w0 & Hr0 & _ & Htab & _).
    rewrite Hr in Hr0. by injection Hr0 as <- <-.
  - apply extract_tables_flat.
Qed.

Lemma tables_rectangular_witness :
  (exists r w',
     PDFEnterpriseProcessor.process_pdf Demo.env_pdf_sparse
       (PDFEnterpriseProcessor.__init__ Demo.env_pdf_sparse None 300 3 5) "a.pdf" []
       = (Ok r, w') /\
     Forall rectangular
            (PDFEnterpriseProcessor.r_tables (PDFEnterpriseProcessor.r_content r))) /\
  (exists g, PDFEnterpriseProcessor.grid_of_cells Demo.full_table = Ok g /\
             rectangular g) /\
  (exists r w',
     PDFProcessor.process_pdf Demo.env_pdf_full (PDFProcessor.__init__ None) "a.pdf" []
       = (Ok r, w') /\
     PDFProcessor.r_tables (PDFProcessor.r_content r) = []).
Proof.
  destruct tables_rectangular_where_built_as_grids as (Hcloud & Hcells & Hlocal & _).
  split; [|split].
  - eexists _, _. split; [vm_compute; reflexivity|].
    eapply (Hcloud Demo.env_pdf_sparse
              (PDFEnterpriseProcessor.__init__ Demo.env_pdf_sparse None 300 3 5) "a.pdf" []).
    vm_compute. reflexivity.
  - eexists. split; [vm_compute; reflexivity|].
    eapply (Hcells Demo.full_table). vm_compute. reflexivity.
  - eexists _, _. split; [vm_compute; reflexivity|].
    eapply (Hlocal Demo.env_pdf_full (PDFProcessor.__init__ None) "a.pdf" []).
    vm_compute. reflexivity.
Defined.

(** C5: the local PDF adapter answers every PDF that PyMuPDF opens; its
    [text] holds the extracted text of the pages whose text is not blank,
    in page order and nothing else, so at most one entry per page, and
    [page_count] is the number of pages.  The PyMuPDF path of the cloud
    processor returns the same text and page count whenever it answers. *)
Theorem pdf_local_text_per_nonblank_page :
  (forall env self path w doc,
     fitz_open env w path = Ok doc ->
     exists r w', PDFProcessor.process_pdf env self path w = (Ok r, w') /\
       PDFProcessor.r_text (PDFProcessor.r_content r) =
         Fitz.get_text <$> List.filter nonblank (Fitz.pages doc) /\
       length (PDFProcessor.r_text (PDFProcessor.r_content r)) <= length (Fitz.pages doc) /\
       PDFProcessor.page_count
         (PDFProcessor.m_document (PDFProcessor.r_metadata r)) = length (Fitz.pages doc)) /\
  (forall env self path w r w',
     PDFEnterpriseProcessor.use_fallback self = true ->
     PDFEnterpriseProcessor.process_pdf env self path w = (Ok r, w') ->
     exists doc, fitz_open env w path = Ok doc /\
       PDFEnterpriseProcessor.r_text (PDFEnterpriseProcessor.r_content r) =
         Fitz.get_text <$> List.filter nonblank (Fitz.pages doc) /\
       length (PDFEnterpriseProcessor.r_text (PDFEnterpriseProcessor.r_content r))
         <= length (Fitz.pages doc) /\
       PDFEnterpriseProcessor.m_page_count (PDFEnterpriseProcessor.r_metadata r)
         = length (Fitz.pages doc)).
Proof.
  split.
  - intros env self path w doc Hopen.
    destruct (pdf_local_process_ok env self path w doc Hopen)
      as (r & w' & Hr & Htext & _ & Hcount & _).
    exists r, w'. split; [done|]. split; [done|]. split; [|done].
    rewrite Htext. apply page_texts_length.
  - intros env self path w r w' Hfb Hr.
    apply pdf_cloud_process_inv in Hr. rewrite Hfb in Hr.
    destruct Hr as (doc & Hopen & Htext & _ & Hcount & _).
    exists doc. split; [done|]. split; [done|]. split; [|done].
    rewrite Htext. apply page_texts_length.
Qed.

Lemma pdf_local_text_witness :
  (fitz_open Demo.env_pdf_no_azure [] "a.pdf" = Ok Demo.pdf3 /\
   exists r w',
     PDFProcessor.process_pdf Demo.env_pdf_no_azure (PDFProcessor.__init__ None) "a.pdf" []
       = (Ok r, w') /\
     PDFProcessor.r_text (PDFProcessor.r_content r) = ["Page one"; "Page three"] /\
     length (PDFProcessor.r_text (PDFProcessor.r_content r)) <= 3 /\
     PDFProcessor.page_count (PDFProcessor.m_document (PDFProcessor.r_metadata r)) = 3) /\
  (PDFEnterpriseProcessor.use_fallback
     (PDFEnterpriseProcessor.__init__ Demo.env_pdf_no_azure None 300 3 5) = true /\
   exists r w',
     PDFEnterpriseProcessor.process_pdf Demo.env_pdf_no_azure
       (PDFEnterpriseProcessor.__init__ Demo.env_pdf_no_azure None 300 3 5) "a.pdf" []
       = (Ok r, w') /\
     exists doc, fitz_open Demo.env_pdf_no_azure [] "a.pdf" = Ok doc /\
       PDFEnterpriseProcessor.r_text (PDFEnterpriseProcessor.r_content r) =
         Fitz.get_text <$> List.filter nonblank (Fitz.pages doc) /\
       length (PDFEnterpriseProcessor.r_text (PDFEnterpriseProcessor.r_content r))
         <= length (Fitz.pages doc) /\
       PDFEnterpriseProcessor.m_page_count (PDFEnterpriseProcessor.r_metadata r)
         = length (Fitz.pages doc)).
Proof.
  destruct pdf_local_text_per_nonblank_page as [Hlocal Hcloud]. split.
  - split; [reflexivity|].
    destruct (Hlocal Demo.env_pdf_no_azure (PDFProcessor.__init__ None)
                "a.pdf" [] Demo.pdf3 eq_refl) as (r & w' & Hr & Htext & Hlen & Hcount).
    exists r, w'. split; [exact Hr|]. split; [exact Htext|].
    split; [exact Hlen|exact Hcount].
  - split; [reflexivity|]. eexists _, _. split; [vm_compute; reflexivity|].
    eapply (Hcloud Demo.env_pdf_no_azure
              (PDFEnterpriseProcessor.__init__ Demo.env_pdf_no_azure None 300 3 5)
              "a.pdf" []); [reflexivity | vm_compute; reflexivity].
Defined.

(** C6, as stated, fails against the local web adapter.  Diffbot answers
    with no object (first part) or cannot be reached (second part) and
    the cloud adapter answers from the page.  In the first part the local
    adapter, called on the same URL, answers too, and the two [content]
    dicts differ in shape: [text] is one string, not a list, and the keys
    are text, title, images, links, not text, tables, images, links.  In
    the second part the page answers with status 203: the cloud adapter
    returns its content, the local adapter fails with "HTTP Error 203". *)
Lemma cloud_web_fallback_not_local_shape :
  (diffbot_reply Demo.env_no_objects [] "secret" Demo.url =
     Ok (VDict [("objects", VList [])]) /\
   exists r r0,
     WebEnterpriseProcessor.process_webpage Demo.env_no_objects
       (WebEnterpriseProcessor.__init__ Demo.env_no_objects None) Demo.url [] =
       (Ok r, [EvDiffbotGet "secret" Demo.url; EvPageGet Demo.url]) /\
     WebProcessor.process_webpage Demo.env_no_objects (WebProcessor.__init__ None)
       Demo.url [] = (Ok r0, [EvPageGet Demo.url]) /\
     cloud_content_dict (WebEnterpriseProcessor.r_content r) =
       VDict [("text", VStr "Hello"); ("title", VStr "");
              ("images", VList []); ("links", VList [])] /\
     local_content_dict (WebProcessor.r_content r0) =
       VDict [("text", VList [VStr "Hello"]);
              ("tables", VList [VList [VList [VStr "a"; VStr "b"]; VList [VStr "c"]]]);
              ("images", VList []); ("links", VList [])] /\
     same_shape (cloud_content_dict (WebEnterpriseProcessor.r_content r))
                (local_content_dict (WebProcessor.r_content r0)) = false) /\
  (diffbot_reply Demo.env_page_203 [] "secret" Demo.url =
     Raise (ClientError "Cannot connect to host api.diffbot.com") /\
   (exists r,
      WebEnterpriseProcessor.process_webpage Demo.env_page_203
        (WebEnterpriseProcessor.__init__ Demo.env_page_203 None) Demo.url [] =
        (Ok r, [EvDiffbotGet "secret" Demo.url; EvPageGet Demo.url]) /\
      WebEnterpriseProcessor.r_text (WebEnterpriseProcessor.r_content r) = VStr "Hello") /\
   WebProcessor.process_webpage Demo.env_page_203 (WebProcessor.__init__ None) Demo.url [] =
     (Raise (Exception "Exception" "HTTP Error 203: Non-Authoritative Information"),
      [EvPageGet Demo.url])).
Proof.
  split.
  - split; [reflexivity|]. eexists _, _.
    split; [vm_compute; reflexivity|]. split; [vm_compute; reflexivity|].
    split; [vm_compute; reflexivity|]. split; [vm_compute; reflexivity|].
    by vm_compute.
  - split; [reflexivity|]. split; [|by vm_compute].
    eexists. split; [vm_compute; reflexivity|]. by vm_compute.
Qed.

Section cloud_web_fallback.
Import WebEnterpriseProcessor.

(** C6, amended: when the Diffbot call answers without objects, or fails
    with a client error (the request, the status or the body), the cloud
    web adapter runs its own BeautifulSoup routine in the same request
    (without objects the routine runs inside the [try], so a client error
    of that run is answered by one more run).  The routine requests the
    page once, fails with a client error on a status of 400 or more, and
    otherwise returns, from the parsed body, the fragments the local
    adapter extracts joined by newlines into one string, the title, and
    the images and links the local adapter extracts, as dicts.  So after
    such a reply, when the page answers below 400 with a body, the
    request succeeds with that content, and every response comes from
    such an answer of the page.  Where a direct call of the local adapter
    answers, the routine answers from the same request with the same
    fragments, images and links; but the [content] dict of the cloud
    adapter never has the shape of the local one (it has [title] and no
    [tables], and its [text] is a string).  Any other exception of the
    Diffbot call leaves [_extract_content_diffbot] and [process_webpage]
    unchanged, and no request to the page is made. *)
Theorem cloud_web_fallback_runs_page_routine env self url w :
  let token := default "" (diffbot_token self) in
  let w1 := w ++ [EvDiffbotGet token url] in
  (forall data,
     diffbot_reply env w token url = Ok data -> no_objects data = true ->
     _extract_content_diffbot env self url w =
       match _extract_content_fallback env url w1 with
       | (Raise (ClientError _), w2) => _extract_content_fallback env url w2
       | other => other
       end) /\
  (forall msg,
     diffbot_reply env w token url = Raise (ClientError msg) ->
     _extract_content_diffbot env self url w = _extract_content_fallback env url w1) /\
  (forall w0,
     _extract_content_fallback env url w0 =
       (match session_get env w0 url with
        | Raise e => Raise e
        | Ok resp =>
            if Nat.leb 400 (status resp)
            then Raise (ClientError (error_text resp))
            else match body resp with
                 | Ok page =>
                     let soup := BeautifulSoup env page in
                     Ok {| text := VStr (String.concat nl (WebProcessor.extract_text soup));
                           title := match Soup.title soup with
                                    | Some tag => opt_str (Soup.string_of tag)
                                    | None => VStr ""
                                    end;
                           images := VList (image_value <$>
                                              WebProcessor.extract_images env url soup);
                           links := VList (link_value <$>
                                             WebProcessor.extract_links env url soup);
                           html := VStr (str_soup env soup);
                           author := None; date := None; siteName := None |}
                 | Raise e => Raise e
                 end
        end, w0 ++ [EvPageGet url])) /\
  (forall resp page,
     truthy_opt (diffbot_token self) = true ->
     recoverable (diffbot_reply env w token url) = true ->
     session_get env w1 url = Ok resp -> status resp < 400 -> body resp = Ok page ->
     exists r w',
       process_webpage env self url w = (Ok r, w') /\
       r_content r =
         {| r_text := VStr (String.concat nl
                              (WebProcessor.extract_text (BeautifulSoup env page)));
            r_title := match Soup.title (BeautifulSoup env page) with
                       | Some tag => opt_str (Soup.string_of tag)
                       | None => VStr ""
                       end;
            r_images := VList (image_value <$>
                                 WebProcessor.extract_images env url (BeautifulSoup env page));
            r_links := VList (link_value <$>
                                WebProcessor.extract_links env url (BeautifulSoup env page)) |}) /\
  (forall r w',
     truthy_opt (diffbot_token self) = true ->
     recoverable (diffbot_reply env w token url) = true ->
     process_webpage env self url w = (Ok r, w') ->
     exists wk resp page,
       (wk = w1 \/ wk = w1 ++ [EvPageGet url]) /\
       session_get env wk url = Ok resp /\ status resp < 400 /\ body resp = Ok page /\
       r_content r =
         {| r_text := VStr (String.concat nl
                              (WebProcessor.extract_text (BeautifulSoup env page)));
            r_title := match Soup.title (BeautifulSoup env page) with
                       | Some tag => opt_str (Soup.string_of tag)
                       | None => VStr ""
                       end;
            r_images := VList (image_value <$>
                                 WebProcessor.extract_images env url (BeautifulSoup env page));
            r_links := VList (link_value <$>
                                WebProcessor.extract_links env url (BeautifulSoup env page)) |}) /\
  (forall w0 c w2,
     WebProcessor._extract_content env url w0 = (Ok c, w2) ->
     exists c',
       _extract_content_fallback env url w0 = (Ok c', w2) /\
       text c' = VStr (String.concat nl (WebProcessor.text_content c)) /\
       images c' = VList (image_value <$> WebProcessor.images c) /\
       links c' = VList (link_value <$> WebProcessor.links c)) /\
  (forall rc lc, same_shape (cloud_content_dict rc) (local_content_dict lc) = false) /\
  (forall e,
     diffbot_reply env w token url = Raise e -> is_client_error e = false ->
     _extract_content_diffbot env self url w = (Raise e, w1) /\
     (truthy_opt (diffbot_token self) = true ->
      process_webpage env self url w = (Raise e, w1))).
Proof.
  intros token w1.
  assert (Hfb : forall w0,
            _extract_content_fallback env url w0 =
              (match session_get env w0 url with
               | Raise e => Raise e
               | Ok resp =>
                   if Nat.leb 400 (status resp)
                   then Raise (ClientError (error_text resp))
                   else match body resp with
                        | Ok page => Ok (soup_content env url (BeautifulSoup env page))
                        | Raise e => Raise e
                        end
               end, w0 ++ [EvPageGet url])) by apply web_cloud_fallback_eq.
  split; [|split; [|split; [|split; [|split; [|split; [|split]]]]]].
  - intros data Hreply Hno. by eapply diffbot_no_objects.
  - intros msg Hreply. by eapply diffbot_client_error.
  - intros w0. rewrite Hfb. cbv zeta.
    destruct (session_get env w0 url) as [resp|e]; [|done].
    destruct (Nat.leb 400 (status resp)); [done|].
    destruct (body resp); [|done]. by rewrite soup_content_of_local.
  - intros resp page Htok Hrec Hget Hst Hbody.
    assert (Hrun : _extract_content_fallback env url w1 =
                   (Ok (soup_content env url (BeautifulSoup env page)),
                    w1 ++ [EvPageGet url])).
    { rewrite Hfb, Hget, Hbody.
      destruct (Nat.leb_spec 400 (status resp)); [lia|done]. }
    assert (Hc : _extract_content_diffbot env self url w =
                 (Ok (soup_content env url (BeautifulSoup env page)),
                  w1 ++ [EvPageGet url])).
    { destruct (diffbot_reply env w token url) as [data|e] eqn:Hreply; simpl in Hrec.
      - rewrite (diffbot_no_objects _ _ _ _ _ Hreply Hrec). fold token w1.
        by rewrite Hrun.
      - destruct e; try done. by rewrite (diffbot_client_error _ _ _ _ _ Hreply). }
    destruct (web_cloud_process_of_content env self url w _ _
                ltac:(rewrite Htok; exact Hc)) as (r & w' & Hr & Hcontent).
    exists r, w'. split; [done|]. by rewrite Hcontent, soup_content_of_local.
  - intros r w' Htok Hrec Hr.
    apply web_cloud_process_inv in Hr as (c & w2 & Hc & Hcontent & _).
    rewrite Htok in Hc.
    destruct (diffbot_recoverable _ _ _ _ _ _ Hrec Hc) as (wk & Hwk & Hf).
    rewrite Hfb in Hf.
    destruct (session_get env wk url) as [resp|e] eqn:Hget; [|done].
    destruct (Nat.leb_spec 400 (status resp)) as [|Hst]; [done|].
    destruct (body resp) as [page|e] eqn:Hbody; [|done].
    injection Hf as <- _.
    exists wk, resp, page. split.
    { destruct Hwk as [->| ->]; [by left|right]. unfold w1, token.
      by rewrite <- app_assoc. }
    split; [done|]. split; [done|]. split; [done|].
    by rewrite Hcontent, soup_content_of_local.
  - intros w0 c w2 Hc. by apply cloud_fallback_of_local.
  - apply content_shapes_differ.
  - intros e Hreply He. split; [by apply diffbot_other_error|].
    intros Htok. by apply web_cloud_hard_failure.
Qed.

Lemma cloud_web_fallback_runs_page_routine_witness :
  (diffbot_reply Demo.env_no_objects [] "secret" Demo.url =
     Ok (VDict [("objects", VList [])]) /\
   no_objects (VDict [("objects", VList [])]) = true /\
   _extract_content_diffbot Demo.env_no_objects
     (__init__ Demo.env_no_objects None) Demo.url [] =
   _extract_content_fallback Demo.env_no_objects Demo.url
     [EvDiffbotGet "secret" Demo.url]) /\
  (diffbot_reply Demo.env_diffbot_down [] "secret" Demo.url =
     Raise (ClientError "Cannot connect to host api.diffbot.com") /\
   _extract_content_diffbot Demo.env_diffbot_down
     (__init__ Demo.env_diffbot_down None) Demo.url [] =
   _extract_content_fallback Demo.env_diffbot_down Demo.url
     [EvDiffbotGet "secret" Demo.url]) /\
  (truthy_opt (diffbot_token (__init__ Demo.env_diffbot_down None)) = true /\
   recoverable (diffbot_reply Demo.env_diffbot_down [] "secret" Demo.url) = true /\
   session_get Demo.env_diffbot_down [EvDiffbotGet "secret" Demo.url] Demo.url =
     Ok Demo.ok_page /\
   status Demo.ok_page < 400 /\
   body Demo.ok_page = Ok Demo.page_html /\
   exists r w',
     process_webpage Demo.env_diffbot_down (__init__ Demo.env_diffbot_down None)
       Demo.url [] = (Ok r, w') /\
     r_content r = {| r_text := VStr "Hello"; r_title := VStr "";
                      r_images := VList []; r_links := VList [] |}) /\
  (truthy_opt (diffbot_token (__init__ Demo.env_no_objects None)) = true /\
   recoverable (diffbot_reply Demo.env_no_objects [] "secret" Demo.url) = true /\
   exists r w',
     process_webpage Demo.env_no_objects (__init__ Demo.env_no_objects None)
       Demo.url [] = (Ok r, w') /\
     exists wk resp page,
       (wk = [EvDiffbotGet "secret" Demo.url] \/
        wk = [EvDiffbotGet "secret" Demo.url] ++ [EvPageGet Demo.url]) /\
       session_get Demo.env_no_objects wk Demo.url = Ok resp /\
       status resp < 400 /\ body resp = Ok page /\
       r_text (r_content r) =
         VStr (String.concat nl
                 (WebProcessor.extract_text (BeautifulSoup Demo.env_no_objects page)))) /\
  (diffbot_reply Demo.env_diffbot_broken [] "secret" Demo.url = Raise TimeoutError /\
   is_client_error TimeoutError = false /\
   process_webpage Demo.env_diffbot_broken
     (__init__ Demo.env_diffbot_broken None) Demo.url [] =
   (Raise TimeoutError, [EvDiffbotGet "secret" Demo.url])).
Proof.
  split; [|split; [|split; [|split]]].
  - split; [reflexivity|]. split; [reflexivity|].
    exact (proj1 (cloud_web_fallback_runs_page_routine Demo.env_no_objects
                    (__init__ Demo.env_no_objects None) Demo.url [])
                 (VDict [("objects", VList [])]) eq_refl eq_refl).
  - split; [reflexivity|].
    destruct (cloud_web_fallback_runs_page_routine Demo.env_diffbot_down
                (__init__ Demo.env_diffbot_down None) Demo.url [])
      as (_ & Hclient & _).
    exact (Hclient "Cannot connect to host api.diffbot.com" eq_refl).
  - assert (Hst : status Demo.ok_page < 400) by (simpl; lia).
    split; [reflexivity|]. split; [reflexivity|]. split; [reflexivity|].
    split; [exact Hst|]. split; [reflexivity|].
    destruct (cloud_web_fallback_runs_page_routine Demo.env_diffbot_down
                (__init__ Demo.env_diffbot_down None) Demo.url [])
      as (_ & _ & _ & Hruns & _).
    destruct (Hruns Demo.ok_page Demo.page_html eq_refl eq_refl eq_refl Hst eq_refl)
      as (r & w' & Hr & Hcontent).
    exists r, w'. split; [exact Hr|]. rewrite Hcontent. vm_compute. reflexivity.
  - split; [reflexivity|]. split; [reflexivity|].
    eexists _, _. split; [vm_compute; reflexivity|].
    destruct (cloud_web_fallback_runs_page_routine Demo.env_no_objects
                (__init__ Demo.env_no_objects None) Demo.url [])
      as (_ & _ & _ & _ & Hproc & _).
    destruct (Hproc _ _ eq_refl eq_refl eq_refl)
      as (wk & resp & page & Hwk & Hget & Hst & Hbody & Hcontent).
    exists wk, resp, page. split; [exact Hwk|]. split; [exact Hget|].
    split; [exact Hst|]. split; [exact Hbody|].
    exact (f_equal r_text Hcontent).
  - split; [reflexivity|]. split; [reflexivity|].
    destruct (cloud_web_fallback_runs_page_routine Demo.env_diffbot_broken
                (__init__ Demo.env_diffbot_broken None) Demo.url [])
      as (_ & _ & _ & _ & _ & _ & _ & Hhard).
    exact (proj2 (Hhard TimeoutError eq_refl eq_refl) eq_refl).
Defined.

End cloud_web_fallback.

(** C7 (the code departs from the claim): the images of the cloud PDF
    processor are to come from the PyMuPDF routine.  On the path
    [process_pdf] takes with an Azure client, the dict of
    [_process_with_azure] has no [images] key and the response holds no
    image, for a PDF in which [_extract_images_from_pdf] finds one and for
    which the local adapter reports one. *)
Theorem cloud_pdf_main_path_returns_no_images :
  PDFEnterpriseProcessor.use_fallback
    (PDFEnterpriseProcessor.__init__ Demo.env_pdf_full None 300 3 5) = false /\
  (exists r w',
     PDFEnterpriseProcessor.process_pdf Demo.env_pdf_full
       (PDFEnterpriseProcessor.__init__ Demo.env_pdf_full None 300 3 5) "a.pdf" []
       = (Ok r, w') /\
     PDFEnterpriseProcessor.r_images (PDFEnterpriseProcessor.r_content r) = [] /\
     PDFEnterpriseProcessor.processor (PDFEnterpriseProcessor.r_metadata r) =
       "Azure Document Intelligence") /\
  PDFEnterpriseProcessor._extract_images_from_pdf Demo.env_pdf_full [] =
    [ {| PDFEnterpriseProcessor.data := ["x"%byte]; PDFEnterpriseProcessor.ext := "png";
         PDFEnterpriseProcessor.page := 3; PDFEnterpriseProcessor.index := 1 |} ] /\
  (exists r w',
     PDFProcessor.process_pdf Demo.env_pdf_full (PDFProcessor.__init__ None) "a.pdf" []
       = (Ok r, w') /\
     PDFProcessor.r_images (PDFProcessor.r_content r) =
       Some [ {| PDFProcessor.i_page := 3; PDFProcessor.i_index := 0;
                 PDFProcessor.i_ext := "png" |} ]).
Proof.
  split; [by vm_compute|]. split.
  - eexists _, _. split; [vm_compute; reflexivity|]. by vm_compute.
  - split; [by vm_compute|]. eexists _, _. split; [vm_compute; reflexivity|]. by vm_compute.
Qed.

(** C8: a fetch of the local web adapter that answers with a status other
    than 200 ends the request with that error; no record is returned and
    the request to the page is the only call made. *)
Theorem web_local_non_200_is_fatal env self url w resp :
  session_get env w url = Ok resp ->
  status resp <> 200 ->
  WebProcessor.process_webpage env self url w =
    (Raise (Exception "Exception"
              ("HTTP Error " +:+ pretty (status resp) +:+ ": " +:+ reason resp)),
     w ++ [EvPageGet url]).
Proof.
  intros Hget Hstatus. unfold WebProcessor.process_webpage. rewrite try_reraise.
  apply bind_raise. unfold WebProcessor._extract_content. rewrite try_reraise.
  unfold bind at 1, call at 1. rewrite Hget.
  destruct (Nat.eqb_spec (status resp) 200); [done|]. reflexivity.
Qed.

Lemma web_local_non_200_witness :
  session_get Demo.env_404 [] "https://example.org/missing" = Ok Demo.not_found /\
  status Demo.not_found <> 200 /\
  WebProcessor.process_webpage Demo.env_404 (WebProcessor.__init__ None)
    "https://example.org/missing" [] =
    (Raise (Exception "Exception" "HTTP Error 404: Not Found"),
     [EvPageGet "https://example.org/missing"]).
Proof.
  assert (Hget : session_get Demo.env_404 [] "https://example.org/missing"
                 = Ok Demo.not_found) by reflexivity.
  assert (Hne : status Demo.not_found <> 200) by (simpl; lia).
  split; [exact Hget|]. split; [exact Hne|].
  exact (web_local_non_200_is_fatal Demo.env_404 (WebProcessor.__init__ None)
           "https://example.org/missing" [] Demo.not_found Hget Hne).
Defined.

(** C9: [StorageHandler.upload] of a dictionary stores, under the bucket
    and [file_path], the UTF-8 bytes of [json.dumps] of the dictionary
    with content type [application/json], whatever [content_type] was
    passed; it raises, and stores nothing, when [json.dumps] or the
    service raises.  For every kind of [file_data] a successful upload
    returns [file_path]. *)
Theorem upload_dict_is_stored_as_json env self d file_path content_type st :
  StorageHandler.upload env self (PyDict d) file_path content_type st =
    match json_dumps env (VDict d) with
    | Raise e => (Raise e, st)
    | Ok s =>
        match StorageHandler.faults (StorageHandler.client self) st
                (StorageHandler.bucket_name self) file_path with
        | Some e => (Raise e, st)
        | None =>
            (Ok file_path,
             <[(StorageHandler.bucket_name self, file_path) :=
                 {| StorageHandler.obj_body := encode_utf8 s;
                    StorageHandler.obj_content_type := "application/json" |}]> st)
        end
    end /\
  forall file_data key st',
    StorageHandler.upload env self file_data file_path content_type st = (Ok key, st') ->
    key = file_path.
Proof.
  split.
  - unfold StorageHandler.upload.
    destruct (json_dumps env (VDict d)) as [s|e]; [|done]. simpl.
    by destruct (StorageHandler.faults _ _ _ _).
  - intros file_data key st'. unfold StorageHandler.upload.
    destruct file_data as [buf pos|b|d']; simpl.
    + destruct (StorageHandler.faults _ _ _ _); congruence.
    + congruence.
    + destruct (json_dumps env (VDict d')) as [s|e]; [|congruence]. simpl.
      destruct (StorageHandler.faults _ _ _ _); congruence.
Qed.

Lemma upload_dict_witness :
  StorageHandler.upload Demo.env_no_token Demo.bucket_handler
    (PyDict [("title", VStr "T")]) "a/metadata.json" "text/plain" ∅ =
  (Ok "a/metadata.json",
   {[ ("bucket", "a/metadata.json") :=
        {| StorageHandler.obj_body :=
             encode_utf8 (Demo.dumps (VDict [("title", VStr "T")]));
           StorageHandler.obj_content_type := "application/json" |} ]}) /\
  "a/metadata.json" = "a/metadata.json".
Proof.
  destruct (upload_dict_is_stored_as_json Demo.env_no_token Demo.bucket_handler
              [("title", VStr "T")] "a/metadata.json" "text/plain" ∅) as [Heq Hkey].
  split; [exact Heq|].
  exact (Hkey (PyDict [("title", VStr "T")]) "a/metadata.json" _ Heq).
Defined.

(** C10: in a response of the local web adapter no table is empty and no
    row is empty, and every text entry is a stripped, non-empty string:
    the tables are what [table_of] gives for the [<table>] elements and
    [row_of] for their [<tr>] elements, which give nothing for a [<tr>]
    without cells and for a [<table>] without rows. *)
Theorem web_local_no_empty_table_row_or_text env self url w r w' :
  WebProcessor.process_webpage env self url w = (Ok r, w') ->
  Forall (fun table => table <> [] /\ Forall (fun row => row <> []) table)
         (WebProcessor.r_tables (WebProcessor.r_content r)) /\
  Forall (fun t => strip t <> "" /\ strip t = t)
         (WebProcessor.r_text (WebProcessor.r_content r)) /\
  exists html,
    WebProcessor.r_tables (WebProcessor.r_content r) =
      flat_map table_of (Soup.find_all ["table"] (BeautifulSoup env html)) /\
    WebProcessor.r_text (WebProcessor.r_content r) =
      flat_map text_of
        (Soup.find_all ["p"; "h1"; "h2"; "h3"; "h4"; "h5"; "h6"] (BeautifulSoup env html)).
Proof.
  intros Hr. apply web_local_process_inv in Hr
    as (c & w1 & Hc & -> & -> & _).
  apply web_local_extract_inv in Hc
    as (resp & html & _ & _ & _ & _ & -> & -> & _).
  split; [apply extract_tables_nonempty|]. split.
  - eapply Forall_impl; [apply extract_text_stripped|].
    intros t [Hne Hs]. split; congruence.
  - exists html. by rewrite extract_tables_flat, extract_text_flat.
Qed.

Lemma web_local_no_empty_witness :
  exists r w',
    WebProcessor.process_webpage Demo.env_no_token (WebProcessor.__init__ None) Demo.url []
      = (Ok r, w') /\
    WebProcessor.r_tables (WebProcessor.r_content r) = [[["a"; "b"]; ["c"]]] /\
    WebProcessor.r_text (WebProcessor.r_content r) = ["Hello"] /\
    Forall (fun table => table <> [] /\ Forall (fun row => row <> []) table)
           (WebProcessor.r_tables (WebProcessor.r_content r)).
Proof.
  eexists _, _. split; [vm_compute; reflexivity|].
  split; [reflexivity|]. split; [reflexivity|].
  refine (proj1 (web_local_no_empty_table_row_or_text Demo.env_no_token
                   (WebProcessor.__init__ None) Demo.url [] _ [EvPageGet Demo.url] _)).
  vm_compute. reflexivity.
Defined.

(* ===================================================================== *)
(** ** Further properties of the adapters                                 *)
(* ===================================================================== *)

Section more_loops.
Context {A B C : Type}.

Lemma foldl_snd_pair {S T X} (body : S * T -> X -> S * T) (step : T -> X -> T) :
  (forall acc x, (body acc x).2 = step acc.2 x) ->
  forall l acc, (foldl body acc l).2 = foldl step acc.2 l.
Proof.
  intros Hbody l. induction l as [|x l IH]; intros acc; simpl; [done|].
  by rewrite IH, Hbody.
Qed.

(** Two append loops whose bodies agree through [f] give results that
    agree through [f]. *)
Lemma foldl_fmap_rel (f : A -> B) (body1 : list A -> C -> list A)
    (body2 : list B -> C -> list B) :
  (forall acc x, body2 (f <$> acc) x = f <$> body1 acc x) ->
  forall l acc, foldl body2 (f <$> acc) l = f <$> foldl body1 acc l.
Proof.
  intros Hbody l. induction l as [|x l IH]; intros acc; simpl; [done|].
  by rewrite Hbody, IH.
Qed.

Lemma enumerate_lookup (l : list A) n x :
  (n, x) ∈ enumerate l -> l !! n = Some x.
Proof.
  unfold enumerate. intros Hin. apply list_elem_of_lookup in Hin as [i Hi].
  apply lookup_zip_with_Some in Hi as (a & b & Heq & Ha & Hb).
  injection Heq as -> ->. apply lookup_seq in Ha as [-> _]. done.
Qed.

Lemma for_each_ext {S} (xs : list A) (body1 body2 : S -> A -> M S) :
  (forall s x w, body1 s x w = body2 s x w) ->
  forall s w, for_each xs body1 s w = for_each xs body2 s w.
Proof.
  intros Hbody. induction xs as [|x xs IH]; intros s w; simpl; [done|].
  unfold bind. rewrite Hbody. destruct (body2 s x w) as [[s'|e] w']; [apply IH|done].
Qed.

End more_loops.

Section string_append.

Lemma string_app_nil_r s : s +:+ "" = s.
Proof.
  induction s as [|c s IH]; [done|].
  change (String c (s +:+ "") = String c s). by rewrite IH.
Qed.

Lemma string_app_assoc s t u : s +:+ t +:+ u = (s +:+ t) +:+ u.
Proof.
  induction s as [|c s IH]; [done|].
  change (String c (s +:+ t +:+ u) = String c ((s +:+ t) +:+ u)). by rewrite IH.
Qed.

End string_append.

(* --------------------------------------------------------------------- *)
(** *** Images of a PDF                                                    *)

Section pdf_images.

Lemma page_images_flat doc n pg acc :
  PDFProcessor.page_images doc n pg acc = acc ++ images_of_page doc (n, pg).
Proof.
  unfold PDFProcessor.page_images, images_of_page. simpl.
  apply (foldl_snoc_flat (image_of doc n)).
  intros a [i xref]. unfold image_of. simpl.
  destruct (Fitz.extract_image doc xref) as [[b|]|e]; by rewrite ?app_nil_r.
Qed.

Lemma extract_pages_images doc :
  (PDFProcessor.extract_pages doc).2 = document_images doc.
Proof.
  unfold PDFProcessor.extract_pages, document_images.
  rewrite (foldl_snd_pair _ (fun im (x : nat * Fitz.page) =>
                               PDFProcessor.page_images doc x.1 x.2 im)).
  2:{ by intros [tc im] [n pg]. }
  simpl. rewrite (foldl_snoc_flat (images_of_page doc)); [done|].
  intros acc [n pg]. apply page_images_flat.
Qed.

Lemma document_images_bounds doc :
  Forall (fun i => exists pg,
            Fitz.pages doc !! (PDFProcessor.page i - 1) = Some pg /\
            1 <= PDFProcessor.page i <= length (Fitz.pages doc) /\
            PDFProcessor.index i < length (Fitz.get_images pg))
         (document_images doc).
Proof.
  unfold document_images. apply Forall_flat_map, Forall_forall.
  intros [n pg] Hn. apply enumerate_lookup in Hn.
  unfold images_of_page. apply Forall_flat_map, Forall_forall.
  intros [i xref] Hi. apply enumerate_lookup in Hi. unfold image_of. simpl.
  destruct (Fitz.extract_image doc xref) as [[b|]|e]; [|constructor|constructor].
  constructor; [|constructor]. simpl. exists pg.
  replace (n + 1 - 1) with n by lia. split; [done|].
  apply lookup_lt_Some in Hn, Hi. simpl in Hi. lia.
Qed.

Lemma stream_images_shift env bytes doc :
  fitz_open_stream env bytes = Ok doc ->
  PDFEnterpriseProcessor._extract_images_from_pdf env bytes =
  shift_index <$> document_images doc.
Proof.
  intros Hopen. unfold PDFEnterpriseProcessor._extract_images_from_pdf. rewrite Hopen.
  rewrite <- extract_pages_images. unfold PDFProcessor.extract_pages.
  rewrite (foldl_snd_pair _ (fun im (x : nat * Fitz.page) =>
                               PDFProcessor.page_images doc x.1 x.2 im)).
  2:{ by intros [tc im] [n pg]. }
  simpl. change (@nil PDFEnterpriseProcessor.image) with (shift_index <$> []).
  apply foldl_fmap_rel. intros acc [n pg]. simpl.
  unfold PDFProcessor.page_images. apply foldl_fmap_rel.
  intros acc' [i xref]. destruct (Fitz.extract_image doc xref) as [[b|]|e]; [|done|done].
  by rewrite fmap_app.
Qed.

Lemma process_with_pymupdf_images env path w doc :
  fitz_open env w path = Ok doc ->
  exists c, PDFEnterpriseProcessor._process_with_pymupdf env path w
              = (Ok c, w ++ [EvFitzOpen path]) /\
    PDFEnterpriseProcessor.images c = Some (same_image <$> document_images doc).
Proof.
  intros Hopen. unfold PDFEnterpriseProcessor._process_with_pymupdf, bind, call, ret.
  rewrite Hopen.
  match goal with |- context [foldl ?b ?a ?l] =>
    pose proof (foldl_snd_pair b
      (fun (im : list PDFEnterpriseProcessor.image) (x : nat * Fitz.page) =>
         foldl (fun images '(img_index, xref) =>
                  match Fitz.extract_image doc xref with
                  | Ok (Some base_image) =>
                      images ++ [{| PDFEnterpriseProcessor.data := Fitz.image base_image;
                                    PDFEnterpriseProcessor.ext := Fitz.ext base_image;
                                    PDFEnterpriseProcessor.page := x.1 + 1;
                                    PDFEnterpriseProcessor.index := img_index |}]
                  | Ok None => images
                  | Raise _ => images
                  end)
               im (enumerate (Fitz.get_images x.2)))) as H;
    destruct (foldl b a l) as [tc im] eqn:E end.
  eexists. split; [reflexivity|]. simpl. f_equal.
  match type of H with ?P -> _ => assert (HP : P) by (by intros [tc' im'] [n pg]) end.
  specialize (H HP (enumerate (Fitz.pages doc)) ([], [])). rewrite E in H. simpl in H.
  rewrite H, <- extract_pages_images. unfold PDFProcessor.extract_pages.
  rewrite (foldl_snd_pair _ (fun im (x : nat * Fitz.page) =>
                               PDFProcessor.page_images doc x.1 x.2 im)).
  2:{ by intros [tc0 im0] [n pg]. }
  simpl. change (@nil PDFEnterpriseProcessor.image) with (same_image <$> []).
  apply foldl_fmap_rel. intros acc [n pg]. simpl.
  unfold PDFProcessor.page_images. apply foldl_fmap_rel.
  intros acc' [i xref]. destruct (Fitz.extract_image doc xref) as [[b|]|e]; [|done|done].
  by rewrite fmap_app.
Qed.

(** X1: once PyMuPDF opens the file, the local PDF adapter answers, and
    the [images] of its response are the descriptors (page, index,
    extension; never the data) of the images PyMuPDF extracts, page by
    page in order; the key is absent when there is none.  Every
    descriptor names a page of the document, counted from one, and an
    index into that page's image list, counted from zero; an image whose
    extraction raises is skipped. *)
Theorem pdf_local_image_descriptors env self path w doc :
  fitz_open env w path = Ok doc ->
  exists r w', PDFProcessor.process_pdf env self path w = (Ok r, w') /\
    PDFProcessor.r_images (PDFProcessor.r_content r) =
      (if nonempty (document_images doc) then Some (image_descriptor <$> document_images doc)
       else None) /\
    Forall (fun i => exists pg,
              Fitz.pages doc !! (PDFProcessor.page i - 1) = Some pg /\
              1 <= PDFProcessor.page i <= length (Fitz.pages doc) /\
              PDFProcessor.index i < length (Fitz.get_images pg))
           (document_images doc).
Proof.
  intros Hopen. destruct (pdf_local_extract_ok env path w doc Hopen)
    as (c & Hc & _ & _ & Him & _).
  rewrite extract_pages_images in Him.
  unfold PDFProcessor.process_pdf. rewrite try_reraise. rewrite (bind_ok _ _ _ _ _ Hc).
  unfold bind.
  destruct (PDFProcessor.storage self) as [client|].
  - destruct (try_default_ok
                (PDFProcessor._store_content env self c
                   (PDFProcessor._generate_document_id env path))
                (∅ : gmap string string) (w ++ [EvFitzOpen path])) as (p & w2 & Hp).
    rewrite Hp. unfold ret. eexists _, _. split; [done|]. simpl. rewrite Him.
    split; [done|]. apply document_images_bounds.
  - unfold ret. eexists _, _. split; [done|]. simpl. rewrite Him.
    split; [done|]. apply document_images_bounds.
Qed.

Lemma pdf_local_image_descriptors_witness :
  fitz_open Demo.env_pdf_no_azure [] "a.pdf" = Ok Demo.pdf3 /\
  exists r w',
    PDFProcessor.process_pdf Demo.env_pdf_no_azure (PDFProcessor.__init__ None) "a.pdf" []
      = (Ok r, w') /\
    PDFProcessor.r_images (PDFProcessor.r_content r) =
      Some [{| PDFProcessor.i_page := 3; PDFProcessor.i_index := 0;
               PDFProcessor.i_ext := "png" |}].
Proof.
  split; [reflexivity|].
  destruct (pdf_local_image_descriptors Demo.env_pdf_no_azure (PDFProcessor.__init__ None)
              "a.pdf" [] Demo.pdf3 eq_refl) as (r & w' & Hr & Him & _).
  exists r, w'. split; [exact Hr|]. exact Him.
Defined.

(** X2: the three PyMuPDF image loops of the repository yield the same
    images of the same document, in the same order, with the same data,
    extension and page; [_extract_images_from_pdf] numbers the images of
    a page from one, the other two from zero. *)
Theorem pymupdf_image_routines_agree_up_to_index env bytes path w doc :
  fitz_open_stream env bytes = Ok doc ->
  fitz_open env w path = Ok doc ->
  PDFEnterpriseProcessor._extract_images_from_pdf env bytes
    = shift_index <$> document_images doc /\
  (exists c, PDFEnterpriseProcessor._process_with_pymupdf env path w
               = (Ok c, w ++ [EvFitzOpen path]) /\
     PDFEnterpriseProcessor.images c = Some (same_image <$> document_images doc)) /\
  (exists c, PDFProcessor._extract_content env path w = (Ok c, w ++ [EvFitzOpen path]) /\
     PDFProcessor.images c = document_images doc).
Proof.
  intros Hs Ho. split; [by apply stream_images_shift|]. split.
  - by apply process_with_pymupdf_images.
  - destruct (pdf_local_extract_ok env path w doc Ho) as (c & Hc & _ & _ & Him & _).
    exists c. split; [done|]. by rewrite Him, extract_pages_images.
Qed.

Lemma pymupdf_image_routines_witness :
  (fitz_open_stream Demo.env_pdf_no_azure ["%"%byte] = Ok Demo.pdf3 /\
   fitz_open Demo.env_pdf_no_azure [] "a.pdf" = Ok Demo.pdf3) /\
  PDFEnterpriseProcessor._extract_images_from_pdf Demo.env_pdf_no_azure ["%"%byte]
    = shift_index <$> document_images Demo.pdf3 /\
  PDFProcessor.index <$> document_images Demo.pdf3 = [0].
Proof.
  split; [split; reflexivity|]. split; [|reflexivity].
  exact (proj1 (pymupdf_image_routines_agree_up_to_index Demo.env_pdf_no_azure
                  ["%"%byte] "a.pdf" [] Demo.pdf3 eq_refl eq_refl)).
Defined.

End pdf_images.

(* --------------------------------------------------------------------- *)
(** *** The cloud PDF adapter                                              *)

Section pdf_cloud_more.
Import PDFEnterpriseProcessor.

Lemma async_timeout_fires {A} env t (m : M A) w :
  timed_out env w = true ->
  async_timeout env t m w = (Raise (timeout_error t), (m w).2).
Proof.
  intros Ht. unfold async_timeout, try_except. rewrite Ht.
  by destruct (m w) as [r w'].
Qed.

Lemma process_with_azure_log env self path w :
  (_process_with_azure env self path w).2 = w ++ [EvAzureAnalyze path].
Proof.
  rewrite process_with_azure_spec. by destruct (analyze_document env w path).
Qed.

Lemma process_with_pymupdf_log env path w :
  (_process_with_pymupdf env path w).2 = w ++ [EvFitzOpen path].
Proof.
  unfold _process_with_pymupdf, bind, call.
  destruct (fitz_open env w path) as [doc|e]; [|done].
  by destruct (foldl _ _ _).
Qed.

Lemma collect_key_values_lookup kvs k :
  collect_key_values kvs !! k =
  List.find (complete_pair k) (rev kvs) ≫= Azure.value.
Proof.
  unfold collect_key_values.
  assert (H : forall (m : gmap string string),
             foldl (fun key_value_pairs kv =>
                      match Azure.key kv, Azure.value kv with
                      | Some k, Some v => <[k := v]> key_value_pairs
                      | _, _ => key_value_pairs
                      end) m kvs !! k =
             match List.find (complete_pair k) (rev kvs) with
             | Some kv => Azure.value kv
             | None => m !! k
             end).
  { induction kvs as [|kv l IH]; intros m; simpl; [done|].
    rewrite IH, find_app. destruct (List.find (complete_pair k) (rev l)); [done|].
    simpl. unfold complete_pair.
    destruct (Azure.key kv) as [k'|]; [|done].
    destruct (Azure.value kv) as [v|] eqn:Hv; [|done].
    destruct (String.eqb_spec k' k) as [->|Hne].
    - by rewrite lookup_insert_eq, Hv.
    - by rewrite lookup_insert_ne. }
  rewrite H. destruct (List.find _ _); [done|]. by rewrite lookup_empty.
Qed.

Lemma grid_of_cells_total table :
  Azure.cells table <> [] -> exists g, grid_of_cells table = Ok g.
Proof.
  intros Hne.
  destruct (max_of_nonempty Azure.row_index _ Hne) as [R HR].
  destruct (max_of_nonempty Azure.column_index _ Hne) as [C HC].
  apply max_of_spec in HR, HC.
  destruct (grid_of_cells_spec table R C HR HC) as (g & Hg & _). eauto.
Qed.

Lemma grid_of_cells_empty table :
  Azure.cells table = [] ->
  grid_of_cells table = Raise (Exception "ValueError" "max() arg is an empty sequence").
Proof. unfold grid_of_cells. by intros ->. Qed.

Lemma tables_loop_fails ts : forall acc w,
  Exists (fun t => Azure.cells t = []) ts ->
  for_each ts tables_step acc w =
  (Raise (Exception "ValueError" "max() arg is an empty sequence"), w).
Proof.
  induction ts as [|t ts IH]; intros acc w Hex; [by apply Exists_nil in Hex|].
  simpl. unfold bind at 1, tables_step at 1, bind at 1, lift at 1.
  destruct (Azure.cells t) as [|c cs] eqn:Hc.
  - by rewrite (grid_of_cells_empty _ Hc).
  - destruct (grid_of_cells_total t) as [g Hg]; [by rewrite Hc|]. rewrite Hg.
    unfold ret. apply IH. apply Exists_cons in Hex as [Ht|]; [congruence|done].
Qed.

Lemma tables_loop_ok ts : forall acc w,
  Forall (fun t => Azure.cells t <> []) ts ->
  exists gs, for_each ts tables_step acc w = (Ok (acc ++ gs), w) /\
             Forall2 (fun t g => grid_of_cells t = Ok g) ts gs.
Proof.
  induction ts as [|t ts IH]; intros acc w Hall; simpl.
  - exists []. split; [by rewrite app_nil_r|constructor].
  - apply Forall_cons in Hall as [Ht Hall].
    destruct (grid_of_cells_total t Ht) as [g Hg].
    unfold bind at 1, tables_step at 1, bind at 1, lift at 1. rewrite Hg. unfold ret.
    destruct (IH (acc ++ [g]) w Hall) as (gs & Hgs & Hf2).
    exists (g :: gs). split; [by rewrite Hgs, <- app_assoc|by constructor].
Qed.

Lemma page_text_fold lines : forall acc,
  foldl (fun page_text line => page_text +:+ line +:+ nl) acc lines =
  acc +:+ String.concat "" ((fun line => line +:+ nl) <$> lines).
Proof.
  induction lines as [|l ls IH]; intros acc; simpl.
  - by rewrite string_app_nil_r.
  - rewrite IH. destruct ls as [|l' ls'].
    + simpl. by rewrite !string_app_nil_r.
    + simpl. change (String.append "" ?x) with x. by rewrite <- !string_app_assoc.
Qed.

(** X3: the constructor of the cloud PDF adapter leaves the object in one
    of two states: a Document Intelligence client and [use_fallback]
    false, or no client and [use_fallback] true.  The first holds exactly
    when both AZURE_DOCUMENT_INTELLIGENCE_ENDPOINT and
    AZURE_DOCUMENT_INTELLIGENCE_KEY are set to non-empty strings and the
    client's constructor does not raise. *)
Theorem cloud_pdf_init_client_or_fallback env storage_client timeout max_retries retry_delay :
  use_fallback (__init__ env storage_client timeout max_retries retry_delay) =
    negb (bool_decide (is_Some (document_analysis_client
                                  (__init__ env storage_client timeout max_retries
                                            retry_delay)))) /\
  (use_fallback (__init__ env storage_client timeout max_retries retry_delay) = false <->
     truthy_opt (getenv env "AZURE_DOCUMENT_INTELLIGENCE_ENDPOINT") = true /\
     truthy_opt (getenv env "AZURE_DOCUMENT_INTELLIGENCE_KEY") = true /\
     exists c, DocumentAnalysisClient env
                 (default "" (getenv env "AZURE_DOCUMENT_INTELLIGENCE_ENDPOINT"))
                 (default "" (getenv env "AZURE_DOCUMENT_INTELLIGENCE_KEY")) = Ok c).
Proof.
  unfold __init__.
  destruct (truthy_opt (getenv env "AZURE_DOCUMENT_INTELLIGENCE_ENDPOINT")) eqn:He;
  destruct (truthy_opt (getenv env "AZURE_DOCUMENT_INTELLIGENCE_KEY")) eqn:Hk; simpl;
    try (split; [done|]; split; [done|]; intros (? & ? & _); done).
  destruct (DocumentAnalysisClient env _ _) as [c|e] eqn:Hc; simpl.
  - split; [done|]. split; [eauto|done].
  - split; [done|]. split; [done|]. intros (_ & _ & c & ?). done.
Qed.

Lemma pdf_cloud_process_cases env self path w :
  (exists r w', process_pdf env self path w = (Ok r, w') /\
                r_status r = "success" /\
                document_id r = _generate_document_id env self path) \/
  (exists e w', process_pdf env self path w =
                (Raise (HTTPException 500 ("Error processing PDF: " +:+ str_exn e)), w')).
Proof.
  destruct (process_pdf env self path w) as [[r|e] w'] eqn:E; [left|right].
  - exists r, w'. split; [done|].
    revert E. unfold process_pdf, try_except at 1, bind at 1.
    destruct (use_fallback self).
    + destruct (_extract_content_fallback env self path w) as [[c|e] w1]; [|done].
      unfold bind, ret.
      destruct (storage self);
        [destruct (_store_content env self c _ w1) as [[p|e] w2]|];
        intros ?; by simplify_eq/=.
    + destruct (_extract_content_azure env self path w) as [[c|e] w1]; [|done].
      unfold bind, ret.
      destruct (storage self);
        [destruct (_store_content env self c _ w1) as [[p|e] w2]|];
        intros ?; by simplify_eq/=.
  - revert E. unfold process_pdf, try_except at 1. cbv zeta.
    match goal with |- context [match ?b w with _ => _ end] =>
      destruct (b w) as [[r|e0] w0] end; [done|].
    unfold raise. intros [= <- <-]. by exists e0, w0.
Qed.

(** X4: [process_pdf] of the cloud PDF adapter ends in one of three ways
    and no other: a response with status "success" whose [document_id]
    is the generated one; the extraction raised [e], and [process_pdf]
    raises [HTTPException] 500 with detail "Error processing PDF: "
    followed by the text of that [e]; or the extraction answered, the
    adapter has a storage client, [_store_content] raised [e], and
    [process_pdf] raises [HTTPException] 500 with the text of that [e]. *)
Theorem cloud_pdf_failures_are_http_500 env self path w :
  (exists r w', process_pdf env self path w = (Ok r, w') /\
                r_status r = "success" /\
                document_id r = _generate_document_id env self path) \/
  (exists e w',
     cloud_pdf_extraction env self path w = (Raise e, w') /\
     process_pdf env self path w =
       (Raise (HTTPException 500 ("Error processing PDF: " +:+ str_exn e)), w')) \/
  (exists c w1 e w',
     cloud_pdf_extraction env self path w = (Ok c, w1) /\
     is_Some (storage self) /\
     _store_content env self c (_generate_document_id env self path) w1 = (Raise e, w') /\
     process_pdf env self path w =
       (Raise (HTTPException 500 ("Error processing PDF: " +:+ str_exn e)), w')).
Proof.
  destruct (process_pdf env self path w) as [res w'] eqn:E. revert E.
  unfold process_pdf, try_except at 1, bind at 1, cloud_pdf_extraction. cbv zeta.
  destruct (use_fallback self).
  - destruct (_extract_content_fallback env self path w) as [[c|e] w1];
      [|unfold raise; intros [= <- <-]; right; left; by exists e, w1].
    unfold bind, ret.
    destruct (storage self) as [client|]; [|intros [= <- <-]; left; by eexists _, _].
    destruct (_store_content env self c _ w1) as [[p|e] w2] eqn:Hs;
      [intros [= <- <-]; left; by eexists _, _|].
    unfold raise. intros [= <- <-]. right; right. exists c, w1, e, w2.
    split; [done|]. split; [by eexists|]. by split.
  - destruct (_extract_content_azure env self path w) as [[c|e] w1];
      [|unfold raise; intros [= <- <-]; right; left; by exists e, w1].
    unfold bind, ret.
    destruct (storage self) as [client|]; [|intros [= <- <-]; left; by eexists _, _].
    destruct (_store_content env self c _ w1) as [[p|e] w2] eqn:Hs;
      [intros [= <- <-]; left; by eexists _, _|].
    unfold raise. intros [= <- <-]. right; right. exists c, w1, e, w2.
    split; [done|]. split; [by eexists|]. by split.
Qed.

(** X5: when the time allowed for the extraction is up, both extraction
    routines of the cloud PDF adapter raise [HTTPException] 500 "Operation
    timed out after <timeout> seconds" (the exception [async_timeout]
    makes of the timeout), [process_pdf] wraps it like any other failure,
    and nothing is uploaded: the log holds the one extraction call. *)
Theorem cloud_pdf_timeout_is_http_500 env self path w :
  timed_out env w = true ->
  _extract_content_azure env self path w =
    (Raise (timeout_error (timeout self)), w ++ [EvAzureAnalyze path]) /\
  _extract_content_fallback env self path w =
    (Raise (timeout_error (timeout self)), w ++ [EvFitzOpen path]) /\
  process_pdf env self path w =
    (Raise (HTTPException 500
              ("Error processing PDF: " +:+ str_exn (timeout_error (timeout self)))),
     w ++ [if use_fallback self then EvFitzOpen path else EvAzureAnalyze path]).
Proof.
  intros Ht.
  assert (Ha : _extract_content_azure env self path w =
               (Raise (timeout_error (timeout self)), w ++ [EvAzureAnalyze path])).
  { unfold _extract_content_azure, try_except at 1.
    rewrite (async_timeout_fires _ _ _ _ Ht), process_with_azure_log. done. }
  assert (Hf : _extract_content_fallback env self path w =
               (Raise (timeout_error (timeout self)), w ++ [EvFitzOpen path])).
  { unfold _extract_content_fallback, try_except at 1.
    rewrite (async_timeout_fires _ _ _ _ Ht), process_with_pymupdf_log. done. }
  split; [done|]. split; [done|].
  unfold process_pdf, try_except at 1, bind at 1.
  destruct (use_fallback self); [by rewrite Hf|by rewrite Ha].
Qed.

Lemma cloud_pdf_timeout_witness :
  timed_out Demo.env_pdf_slow [] = true /\
  process_pdf Demo.env_pdf_slow (__init__ Demo.env_pdf_slow None 300 3 5) "a.pdf" [] =
    (Raise (HTTPException 500
              "Error processing PDF: 500: Operation timed out after 300 seconds"),
     [EvAzureAnalyze "a.pdf"]).
Proof.
  split; [reflexivity|].
  exact (proj2 (proj2 (cloud_pdf_timeout_is_http_500 Demo.env_pdf_slow
                         (__init__ Demo.env_pdf_slow None 300 3 5) "a.pdf" [] eq_refl))).
Defined.

(** X6: on the Azure path the text of the response holds one entry for
    every page of the analysis, in order, a page without lines giving the
    empty string: the number of entries equals [page_count]. *)
Theorem cloud_pdf_text_one_entry_per_page env self path w r w' :
  use_fallback self = false ->
  process_pdf env self path w = (Ok r, w') ->
  exists res, analyze_document env w path = Ok res /\
    r_text (r_content r) = (fun pg => String.concat nl (Azure.lines pg)) <$> Azure.pages res /\
    length (r_text (r_content r)) = m_page_count (r_metadata r) /\
    m_page_count (r_metadata r) = length (Azure.pages res).
Proof.
  intros Hfb Hr. apply pdf_cloud_process_inv in Hr. rewrite Hfb in Hr.
  destruct Hr as (res & Hres & Htext & _ & _ & Hcount & _).
  exists res. split; [done|]. rewrite Htext, Hcount.
  rewrite <- list_fmap_compose. split; [done|]. by rewrite length_fmap.
Qed.

Lemma cloud_pdf_text_witness :
  use_fallback (__init__ Demo.env_pdf_full None 300 3 5) = false /\
  exists r w',
    process_pdf Demo.env_pdf_full (__init__ Demo.env_pdf_full None 300 3 5) "a.pdf" []
      = (Ok r, w') /\
    r_text (r_content r) = ["Page one"; ""; "Page" +:+ nl +:+ "three"] /\
    exists res, analyze_document Demo.env_pdf_full [] "a.pdf" = Ok res /\
      length (r_text (r_content r)) = length (Azure.pages res).
Proof.
  split; [reflexivity|]. eexists _, _. split; [vm_compute; reflexivity|].
  split; [reflexivity|].
  destruct (cloud_pdf_text_one_entry_per_page Demo.env_pdf_full
              (__init__ Demo.env_pdf_full None 300 3 5) "a.pdf" [] _ _ eq_refl eq_refl)
    as (res & Hres & _ & Hlen & Hcount).
  exists res. split; [exact Hres|]. exact (eq_trans Hlen Hcount).
Defined.

(** X7: the [key_value_pairs] of a response of the cloud PDF adapter: the
    PyMuPDF path gives none; on the Azure path a key is present exactly
    when the analysis reports a pair with that key whose key and value
    are both set, and it is mapped to the value of the last such pair. *)
Theorem cloud_pdf_key_value_pairs env self path w r w' :
  process_pdf env self path w = (Ok r, w') ->
  if use_fallback self then r_key_value_pairs (r_content r) = ∅
  else exists res, analyze_document env w path = Ok res /\
    forall k, r_key_value_pairs (r_content r) !! k =
              List.find (complete_pair k) (rev (Azure.key_value_pairs res)) ≫= Azure.value.
Proof.
  unfold process_pdf, try_except at 1, bind at 1.
  destruct (use_fallback self) eqn:Hfb.
  - destruct (_extract_content_fallback env self path w) as [[c|e] w1] eqn:Hc;
      [|unfold raise; congruence].
    apply extract_pymupdf_inv in Hc.
    assert (Hkv : key_value_pairs c = None).
    { revert Hc. unfold _process_with_pymupdf, bind, call, ret.
      destruct (fitz_open env w path); [|done]. destruct (foldl _ _ _).
      by intros [= <- _]. }
    unfold bind, ret, raise.
    destruct (storage self);
      [destruct (_store_content env self c _ _) as [[p|e] w2]|];
      intros ?; simplify_eq/=; by rewrite Hkv.
  - destruct (_extract_content_azure env self path w) as [[c|e] w1] eqn:Hc;
      [|unfold raise; congruence].
    apply extract_azure_inv in Hc. rewrite process_with_azure_spec in Hc.
    destruct (analyze_document env w path) as [res|e] eqn:Hres; [|done].
    injection Hc as <- <-.
    unfold bind, ret, raise.
    destruct (storage self);
      [destruct (_store_content env self _ _ _) as [[p|e] w2]|];
      intros ?; simplify_eq/=; exists res; split; try done;
      intros k; apply collect_key_values_lookup.
Qed.

Lemma cloud_pdf_key_value_pairs_witness :
  exists r w',
    process_pdf Demo.env_pdf_full (__init__ Demo.env_pdf_full None 300 3 5) "a.pdf" []
      = (Ok r, w') /\
    exists res, analyze_document Demo.env_pdf_full [] "a.pdf" = Ok res /\
      forall k, r_key_value_pairs (r_content r) !! k =
                List.find (complete_pair k) (rev (Azure.key_value_pairs res)) ≫= Azure.value.
Proof.
  eexists _, _. split; [vm_compute; reflexivity|].
  exact (cloud_pdf_key_value_pairs Demo.env_pdf_full
           (__init__ Demo.env_pdf_full None 300 3 5) "a.pdf" [] _ _ eq_refl).
Defined.

(** X8: [_extract_content], the routine that reads the PDF from a stream,
    raises ValueError without any call when the adapter holds no client;
    with a client and an analysis that holds a table for which no cell is
    reported, it raises ValueError "max() arg is an empty sequence" (the
    sizes are the maxima over the cells), whatever else the analysis
    holds. *)
Theorem stream_extract_table_without_cells_is_fatal env self bytes w :
  (document_analysis_client self = None ->
   _extract_content env self bytes w =
     (Raise (Exception "ValueError" "Azure Document Intelligence client not initialized"),
      w)) /\
  (forall res,
     is_Some (document_analysis_client self) ->
     analyze_stream env w bytes = Ok res ->
     Exists (fun t => Azure.cells t = []) (Azure.tables res) ->
     _extract_content env self bytes w =
       (Raise (Exception "ValueError" "max() arg is an empty sequence"),
        w ++ [EvAzureAnalyzeStream])).
Proof.
  split.
  - intros Hc. unfold _extract_content. by rewrite Hc.
  - intros res [c Hc] Hres Hex.
    assert (Hstep : forall k : Azure.analyze_result -> M content,
              bind (call EvAzureAnalyzeStream (fun w0 => analyze_stream env w0 bytes)) k w
              = k res (w ++ [EvAzureAnalyzeStream])).
    { intros k. unfold bind, call. by rewrite Hres. }
    unfold _extract_content. rewrite Hc, try_reraise. cbv zeta. rewrite Hstep.
    unfold bind at 1. rewrite (for_each_ext _ _ tables_step) by done.
    by rewrite tables_loop_fails.
Qed.

Lemma stream_extract_table_without_cells_witness :
  (is_Some (document_analysis_client (__init__ Demo.env_pdf_empty_table None 300 3 5)) /\
   analyze_stream Demo.env_pdf_empty_table [] ["%"%byte] = Ok (Demo.analysis3 Demo.empty_table) /\
   Exists (fun t => Azure.cells t = []) (Azure.tables (Demo.analysis3 Demo.empty_table))) /\
  _extract_content Demo.env_pdf_empty_table
    (__init__ Demo.env_pdf_empty_table None 300 3 5) ["%"%byte] [] =
    (Raise (Exception "ValueError" "max() arg is an empty sequence"),
     [EvAzureAnalyzeStream]).
Proof.
  assert (H1 : is_Some (document_analysis_client
                          (__init__ Demo.env_pdf_empty_table None 300 3 5)))
    by (exists tt; reflexivity).
  assert (H3 : Exists (fun t => Azure.cells t = [])
                 (Azure.tables (Demo.analysis3 Demo.empty_table)))
    by (apply Exists_cons_hd; reflexivity).
  split; [split; [exact H1|split; [reflexivity|exact H3]]|].
  exact (proj2 (stream_extract_table_without_cells_is_fatal Demo.env_pdf_empty_table
                  (__init__ Demo.env_pdf_empty_table None 300 3 5) ["%"%byte] [])
           _ H1 eq_refl H3).
Defined.

(** X9: with a client and an analysis all of whose tables report a cell,
    [_extract_content] returns: the images of [_extract_images_from_pdf],
    one text per page made of every line followed by a newline, one grid
    per table, sized by the largest reported indices, and the number of
    pages. *)
Theorem stream_extract_content_ok env self bytes w res :
  is_Some (document_analysis_client self) ->
  analyze_stream env w bytes = Ok res ->
  Forall (fun t => Azure.cells t <> []) (Azure.tables res) ->
  exists c,
    _extract_content env self bytes w = (Ok c, w ++ [EvAzureAnalyzeStream]) /\
    images c = Some (_extract_images_from_pdf env bytes) /\
    text_content c = lines_with_newlines <$> Azure.pages res /\
    Forall2 (fun t g => grid_of_cells t = Ok g) (Azure.tables res) (tables c) /\
    (forall k, default ∅ (key_value_pairs c) !! k =
               List.find (complete_pair k) (rev (Azure.key_value_pairs res)) ≫= Azure.value) /\
    pages c = Some (length (Azure.pages res)).
Proof.
  intros [cl Hc] Hres Hall.
  assert (Hstep : forall k : Azure.analyze_result -> M content,
            bind (call EvAzureAnalyzeStream (fun w0 => analyze_stream env w0 bytes)) k w
            = k res (w ++ [EvAzureAnalyzeStream])).
  { intros k. unfold bind, call. by rewrite Hres. }
  unfold _extract_content. rewrite Hc, try_reraise. cbv zeta. rewrite Hstep.
  destruct (tables_loop_ok (Azure.tables res) [] (w ++ [EvAzureAnalyzeStream]) Hall)
    as (gs & Hgs & Hf2).
  eexists. split.
  { unfold bind at 1. rewrite (for_each_ext _ _ tables_step) by done.
    rewrite Hgs. reflexivity. }
  simpl. split; [done|]. split; [|split; [done|split; [|done]]].
  - rewrite (foldl_snoc_fmap lines_with_newlines); [done|].
    intros acc pg. f_equal. f_equal. unfold lines_with_newlines.
    by rewrite page_text_fold.
  - intros k. apply collect_key_values_lookup.
Qed.

Lemma stream_extract_content_witness :
  (is_Some (document_analysis_client (__init__ Demo.env_pdf_full None 300 3 5)) /\
   analyze_stream Demo.env_pdf_full [] ["%"%byte] = Ok (Demo.analysis3 Demo.full_table) /\
   Forall (fun t => Azure.cells t <> []) (Azure.tables (Demo.analysis3 Demo.full_table))) /\
  exists c,
    _extract_content Demo.env_pdf_full (__init__ Demo.env_pdf_full None 300 3 5)
      ["%"%byte] [] = (Ok c, [EvAzureAnalyzeStream]) /\
    text_content c = lines_with_newlines <$> Azure.pages (Demo.analysis3 Demo.full_table).
Proof.
  assert (H1 : is_Some (document_analysis_client (__init__ Demo.env_pdf_full None 300 3 5)))
    by (exists tt; reflexivity).
  assert (H3 : Forall (fun t => Azure.cells t <> [])
                 (Azure.tables (Demo.analysis3 Demo.full_table)))
    by (repeat constructor; discriminate).
  split; [split; [exact H1|split; [reflexivity|exact H3]]|].
  destruct (stream_extract_content_ok Demo.env_pdf_full
              (__init__ Demo.env_pdf_full None 300 3 5) ["%"%byte] [] _ H1 eq_refl H3)
    as (c & Hc & _ & Htext & _).
  exists c. split; [exact Hc|exact Htext].
Defined.

End pdf_cloud_more.

(* --------------------------------------------------------------------- *)
(** *** The cloud web adapter                                              *)

Section web_cloud_more.
Import WebEnterpriseProcessor.

(** X10: the [storage_paths] of a response of the cloud web adapter are
    all or nothing: either the mapping of "text", "html" and "metadata" to
    the keys content.txt, content.html and metadata.json under
    Web/Enterprise/<document_id>, after exactly three uploads, or empty.
    The log of the request is pinned: the requests of the extraction
    (to Diffbot and then at most twice to the page with a token, once to
    the page without), then uploads, in order, to a prefix of those three
    keys, and nothing else; so a failure part-way leaves objects behind
    that no response mentions. *)
Theorem web_cloud_storage_paths_all_or_nothing env self url w r w' :
  process_webpage env self url w = (Ok r, w') ->
  document_id r = _generate_document_id env url /\
  exists c k n,
    k <= 2 /\
    (if truthy_opt (diffbot_token self)
     then _extract_content_diffbot env self url w
     else _extract_content_fallback env url w)
      = (Ok c, w ++ web_cloud_requests self url k) /\
    w' = w ++ web_cloud_requests self url k
           ++ (EvUpload <$> take n (web_cloud_keys self (document_id r))) /\
    ((storage_paths (r_metadata r) = web_cloud_paths self (document_id r) /\ n = 3) \/
     (storage_paths (r_metadata r) = ∅ /\ n <= 3)).
Proof.
  intros (c & w1 & n & Hc & Hid & Hw & Hp)%web_cloud_process_shape.
  split; [done|].
  assert (Hk : exists k, k <= 2 /\ w1 = w ++ web_cloud_requests self url k).
  { unfold web_cloud_requests. destruct (truthy_opt (diffbot_token self)).
    - by apply diffbot_log in Hc.
    - apply fallback_log in Hc. exists 0. split; [lia|done]. }
  destruct Hk as (k & Hk & ->).
  exists c, k, n. split; [done|]. split; [done|]. split; [|done].
  by rewrite Hw, <- app_assoc.
Qed.

Lemma web_cloud_storage_paths_witness :
  exists r w',
    process_webpage Demo.env_no_token
      {| storage := Some Demo.working_store; base_path := "Web/Enterprise/";
         diffbot_token := None |} Demo.url [] = (Ok r, w') /\
    document_id r = "web_enterprise_9b2d5b46_20250207_100000" /\
    storage_paths (r_metadata r) !! "html" =
      Some "Web/Enterprise/web_enterprise_9b2d5b46_20250207_100000/content.html" /\
    exists k n,
      w' = [] ++ web_cloud_requests
                   {| storage := Some Demo.working_store; base_path := "Web/Enterprise/";
                      diffbot_token := None |} Demo.url k
              ++ (EvUpload <$> take n
                    (web_cloud_keys {| storage := Some Demo.working_store;
                                       base_path := "Web/Enterprise/";
                                       diffbot_token := None |} (document_id r))).
Proof.
  eexists _, _. split; [vm_compute; reflexivity|].
  split; [reflexivity|]. split; [vm_compute; reflexivity|].
  destruct (web_cloud_storage_paths_all_or_nothing Demo.env_no_token
              {| storage := Some Demo.working_store; base_path := "Web/Enterprise/";
                 diffbot_token := None |} Demo.url [] _ _ eq_refl)
    as (_ & c & k & n & _ & _ & Hw & _).
  exists k, n. exact Hw.
Defined.

(** X11: of a Diffbot reply with a non-empty list of objects only the
    first object is read.  When it is a JSON object the content is read
    off it, a missing field giving '' (or [] for images and links), and
    the page itself is never requested; when it is anything else the
    request fails with AttributeError, which is not a client error, so
    there is no fallback. *)
Theorem diffbot_first_object_only env self url w items first rest :
  diffbot_reply env w (default "" (diffbot_token self)) url = Ok (VDict items) ->
  dict_lookup "objects" items = Some (VList (first :: rest)) ->
  _extract_content_diffbot env self url w =
    (match first with
     | VDict art => Ok (article_content art)
     | _ => Raise (Exception "AttributeError"
                     ("'" +:+ type_name first +:+ "' object has no attribute 'get'"))
     end,
     w ++ [EvDiffbotGet (default "" (diffbot_token self)) url]).
Proof.
  unfold diffbot_reply, _extract_content_diffbot, try_except at 1.
  unfold bind at 1, call at 1.
  destruct (diffbot_get env w _ url) as [resp|e0]; [|done].
  unfold bind at 1, raise_for_status.
  destruct (Nat.leb 400 (status resp)); [done|].
  unfold ret, bind at 1, lift at 1. intros -> Hobj.
  unfold bind at 1, lift at 1, has_objects. rewrite Hobj.
  rewrite bool_decide_eq_true_2 by eauto.
  unfold bind at 1. simpl. unfold bind at 1, lift at 1, get_objects. rewrite Hobj.
  unfold ret. simpl. unfold bind, lift. simpl.
  destruct first as [| | | | |art]; try done.
Qed.

Lemma diffbot_first_object_witness :
  (diffbot_reply Demo.env_diffbot_odd [] "secret" Demo.url =
     Ok (VDict [("objects", VList [VStr "x"])]) /\
   dict_lookup "objects" [("objects", VList [VStr "x"])] = Some (VList [VStr "x"])) /\
  _extract_content_diffbot Demo.env_diffbot_odd (__init__ Demo.env_diffbot_odd None)
    Demo.url [] =
    (Raise (Exception "AttributeError" "'str' object has no attribute 'get'"),
     [EvDiffbotGet "secret" Demo.url]).
Proof.
  split; [split; reflexivity|].
  exact (diffbot_first_object_only Demo.env_diffbot_odd (__init__ Demo.env_diffbot_odd None)
           Demo.url [] [("objects", VList [VStr "x"])] (VStr "x") [] eq_refl eq_refl).
Defined.

(** X12: the BeautifulSoup routine of the cloud web adapter and the local
    web adapter disagree on which replies are pages: the first parses
    every reply whose status is below 400 and raises a client error from
    400 on, the second raises for every status other than 200.  A reply
    with status 204, say, is content for the one and "HTTP Error 204" for
    the other. *)
Theorem web_cloud_fallback_accepts_below_400 env url w resp html :
  session_get env w url = Ok resp ->
  body resp = Ok html ->
  (status resp < 400 ->
   _extract_content_fallback env url w =
     (Ok (soup_content env url (BeautifulSoup env html)), w ++ [EvPageGet url])) /\
  (400 <= status resp ->
   _extract_content_fallback env url w =
     (Raise (ClientError (error_text resp)),
      w ++ [EvPageGet url])) /\
  (status resp <> 200 ->
   WebProcessor._extract_content env url w =
     (Raise (Exception "Exception"
               ("HTTP Error " +:+ pretty (status resp) +:+ ": " +:+ reason resp)),
      w ++ [EvPageGet url])).
Proof.
  intros Hget Hbody. rewrite web_cloud_fallback_eq, Hget, Hbody. split; [|split].
  - intros H. destruct (Nat.leb_spec 400 (status resp)); [lia|done].
  - intros H. destruct (Nat.leb_spec 400 (status resp)); [done|lia].
  - intros H. unfold WebProcessor._extract_content. rewrite try_reraise.
    unfold bind at 1, call at 1. rewrite Hget.
    destruct (Nat.eqb_spec (status resp) 200); [done|]. reflexivity.
Qed.

Lemma web_cloud_fallback_status_witness :
  (session_get Demo.env_204 [] Demo.url = Ok Demo.no_content /\
   body Demo.no_content = Ok "" /\
   status Demo.no_content < 400 /\ status Demo.no_content <> 200) /\
  _extract_content_fallback Demo.env_204 Demo.url [] =
    (Ok (soup_content Demo.env_204 Demo.url (BeautifulSoup Demo.env_204 "")),
     [EvPageGet Demo.url]) /\
  WebProcessor._extract_content Demo.env_204 Demo.url [] =
    (Raise (Exception "Exception" "HTTP Error 204: No Content"), [EvPageGet Demo.url]) /\
  (session_get Demo.env_404 [] "https://example.org/missing" = Ok Demo.not_found /\
   body Demo.not_found = Ok "" /\
   400 <= status Demo.not_found) /\
  _extract_content_fallback Demo.env_404 "https://example.org/missing" [] =
    (Raise (ClientError "404, message='Not Found', url='https://example.org/missing'"),
     [EvPageGet "https://example.org/missing"]).
Proof.
  assert (Hlt : status Demo.no_content < 400) by (simpl; lia).
  assert (Hne : status Demo.no_content <> 200) by (simpl; lia).
  assert (Hge : 400 <= status Demo.not_found) by (simpl; lia).
  split; [split; [reflexivity|split; [reflexivity|split; [exact Hlt|exact Hne]]]|].
  destruct (web_cloud_fallback_accepts_below_400 Demo.env_204 Demo.url []
              Demo.no_content "" eq_refl eq_refl) as (Hlow & _ & Hlocal).
  split; [exact (Hlow Hlt)|]. split; [exact (Hlocal Hne)|].
  split; [split; [reflexivity|split; [reflexivity|exact Hge]]|].
  exact (proj1 (proj2 (web_cloud_fallback_accepts_below_400 Demo.env_404
                         "https://example.org/missing" [] Demo.not_found ""
                         eq_refl eq_refl)) Hge).
Defined.

(** X13: without a Diffbot token the cloud web adapter never calls
    Diffbot: the first call is the request of the page itself; when that
    extraction raises, [process_webpage] raises the same exception after
    that one call; when it answers, the response is labelled
    "BeautifulSoup (fallback)" and the only further calls are uploads to
    the adapter's keys. *)
Theorem web_cloud_without_token env self url w :
  truthy_opt (diffbot_token self) = false ->
  (forall e w1,
     _extract_content_fallback env url w = (Raise e, w1) ->
     process_webpage env self url w = (Raise e, w ++ [EvPageGet url])) /\
  (forall r w',
     process_webpage env self url w = (Ok r, w') ->
     processor (r_metadata r) = "BeautifulSoup (fallback)" /\
     exists n, w' = w ++ EvPageGet url ::
                 (EvUpload <$> take n (web_cloud_keys self (document_id r)))).
Proof.
  intros Htok. split.
  - intros e w1 Hf. pose proof (fallback_log _ _ _ _ _ Hf) as ->.
    unfold process_webpage. rewrite try_reraise.
    unfold bind at 1. by rewrite Htok, Hf.
  - intros r w' Hr.
    pose proof (web_cloud_process_shape _ _ _ _ _ _ Hr)
      as (c & w1 & n & Hc & Hid & Hw & _).
    apply web_cloud_process_inv in Hr as (_ & _ & _ & _ & Hp).
    rewrite Htok in Hc, Hp. split; [done|].
    pose proof (fallback_log _ _ _ _ _ Hc) as ->.
    exists n. by rewrite Hw, <- app_assoc.
Qed.

Lemma web_cloud_without_token_witness :
  truthy_opt (diffbot_token (__init__ Demo.env_no_token None)) = false /\
  exists r w',
    process_webpage Demo.env_no_token (__init__ Demo.env_no_token None) Demo.url []
      = (Ok r, w') /\
    processor (r_metadata r) = "BeautifulSoup (fallback)".
Proof.
  split; [reflexivity|]. eexists _, _. split; [vm_compute; reflexivity|].
  exact (proj1 (proj2 (web_cloud_without_token Demo.env_no_token
                         (__init__ Demo.env_no_token None) Demo.url [] eq_refl)
                  _ _ eq_refl)).
Defined.

End web_cloud_more.

(* --------------------------------------------------------------------- *)
(** *** The storage handler                                                *)

Section storage_more.
Import StorageHandler.

(** X14: after a successful [upload] of a file object the bucket holds,
    under [file_path], the whole buffer (the handler rewinds the object
    first, wherever its position was) with the content type passed; every
    other object is as before; and a [download] of [file_path] that the
    service does not refuse returns that buffer. *)
Theorem storage_upload_then_download env self buf pos file_path content_type st key st' :
  upload env self (BytesIO buf pos) file_path content_type st = (Ok key, st') ->
  st' !! (bucket_name self, file_path) =
    Some {| obj_body := buf; obj_content_type := content_type |} /\
  (forall k, k <> (bucket_name self, file_path) -> st' !! k = st !! k) /\
  (faults (client self) st' (bucket_name self) file_path = None ->
   download self file_path st' = Ok buf).
Proof.
  unfold upload. simpl.
  destruct (faults (client self) st (bucket_name self) file_path) eqn:Hf; [done|].
  intros [= <- <-]. unfold s3_state in *. rewrite drop_0.
  split; [by rewrite lookup_insert_eq|]. split.
  - intros k Hk. by rewrite lookup_insert_ne.
  - intros Hf'. unfold download, s3_state. by rewrite Hf', lookup_insert_eq.
Qed.

Lemma storage_upload_then_download_witness :
  exists st',
    upload Demo.env_no_token Demo.bucket_handler (BytesIO ["a"%byte; "b"%byte] 1)
           "k.txt" "text/plain" ∅ = (Ok "k.txt", st') /\
    download Demo.bucket_handler "k.txt" st' = Ok ["a"%byte; "b"%byte].
Proof.
  eexists. split; [vm_compute; reflexivity|].
  refine (proj2 (proj2 (storage_upload_then_download Demo.env_no_token Demo.bucket_handler
                          ["a"%byte; "b"%byte] 1 "k.txt" "text/plain" ∅ "k.txt" _ _)) _);
    reflexivity.
Defined.

(** X15: [delete] never raises.  It answers [True] exactly when the
    service accepts the request, also for a key that held nothing; the
    bucket then holds no object under [file_path], every other object is
    as before, and a [download] of [file_path] fails.  It answers [False]
    when the service refuses, and the bucket is as before. *)
Theorem storage_delete_outcome self file_path st b st' :
  delete self file_path st = (b, st') ->
  (b = true /\
   faults (client self) st (bucket_name self) file_path = None /\
   st' !! (bucket_name self, file_path) = None /\
   (forall k, k <> (bucket_name self, file_path) -> st' !! k = st !! k) /\
   exists e, download self file_path st' = Raise e) \/
  (b = false /\ st' = st /\
   is_Some (faults (client self) st (bucket_name self) file_path)).
Proof.
  unfold delete, delete_object.
  destruct (faults (client self) st (bucket_name self) file_path) as [e|] eqn:Hf;
    intros [= <- <-]; [right; split; [done|split; [done|by eexists]]|left].
  unfold s3_state in *.
  split; [done|]. split; [done|]. split; [by rewrite lookup_delete_eq|]. split.
  - intros k Hk. by rewrite lookup_delete_ne.
  - unfold download, s3_state.
    destruct (faults (client self) (base.delete _ st) _ _); [by eexists|].
    rewrite lookup_delete_eq. by eexists.
Qed.

Lemma storage_delete_outcome_witness :
  delete Demo.bucket_handler "k.txt"
    {[ ("bucket", "k.txt") := {| obj_body := ["a"%byte]; obj_content_type := "text/plain" |} ]}
    = (true, ∅) /\
  (∅ : s3_state) !! ("bucket", "k.txt") = None.
Proof.
  assert (H : delete Demo.bucket_handler "k.txt"
                {[ ("bucket", "k.txt") :=
                     {| obj_body := ["a"%byte]; obj_content_type := "text/plain" |} ]}
              = (true, ∅)) by (vm_compute; reflexivity).
  split; [exact H|].
  destruct (storage_delete_outcome _ _ _ _ _ H) as [(_ & _ & Hnone & _)|(Hb & _)];
    [exact Hnone|discriminate Hb].
Defined.

End storage_more.

(* --------------------------------------------------------------------- *)
(** *** The local web adapter                                              *)

Section web_local_more.
Import WebProcessor.

Lemma web_local_store_shape env self c doc_id w :
  exists p n,
    _store_content env self c doc_id w =
      (Ok p, w ++ (EvUpload <$> take n (web_local_keys self doc_id))) /\
    ((p = web_local_paths self doc_id /\ n = 2) \/ (p = ∅ /\ n <= 2)) /\
    (storage self = None -> n = 0).
Proof.
  unfold _store_content, try_except. cbv zeta.
  destruct (storage self) as [client|] eqn:Hst.
  2:{ exists ∅, 0. unfold ret. simpl. rewrite app_nil_r. split; [reflexivity|].
      split; [|done]. right. split; [done|lia]. }
  unfold bind at 1, call at 1.
  destruct (client w _ _ _) as [k1|e].
  2:{ exists ∅, 1. unfold ret. split; [reflexivity|]. split; [|done].
      right. split; [done|lia]. }
  unfold bind at 1, lift at 1.
  destruct (json_dumps env _) as [js|e].
  2:{ exists ∅, 1. unfold ret. split; [reflexivity|]. split; [|done].
      right. split; [done|lia]. }
  unfold bind at 1, call at 1.
  destruct (client _ (RawBytes (encode_utf8 js)) _ _) as [k2|e].
  - exists (web_local_paths self doc_id), 2. unfold ret. simpl.
    rewrite <- !app_assoc. split; [reflexivity|]. split; [|done]. by left.
  - exists ∅, 2. unfold ret. simpl. rewrite <- !app_assoc. split; [reflexivity|].
    split; [|done]. right. split; [done|lia].
Qed.

Lemma web_local_extract_log env url w r w' :
  _extract_content env url w = (r, w') -> w' = w ++ [EvPageGet url].
Proof.
  unfold _extract_content. rewrite try_reraise. unfold bind at 1, call at 1.
  destruct (session_get env w url) as [resp|e]; [|by intros [= _ <-]].
  unfold bind at 1.
  destruct (negb (Nat.eqb (status resp) 200)); [by intros [= _ <-]|].
  unfold ret at 1. unfold bind at 1, lift at 1.
  destruct (body resp) as [html|e]; [|by intros [= _ <-]].
  cbv zeta. unfold bind at 1.
  destruct (meta_content "description" _ _) as [[d|e] w1] eqn:Hd.
  - apply meta_content_log in Hd as ->. unfold bind at 1.
    destruct (meta_content "keywords" _ _) as [[k|e] w2] eqn:Hk.
    + apply meta_content_log in Hk as ->. by intros [= _ <-].
    + revert Hk. unfold meta_content, ret, raise.
      destruct (Soup.find_meta _ _); [destruct (Soup.get _ _)|]; intros ?; simplify_eq.
      by intros [= _ <-].
  - revert Hd. unfold meta_content, ret, raise.
    destruct (Soup.find_meta _ _); [destruct (Soup.get _ _)|]; intros ?; simplify_eq.
    by intros [= _ <-].
Qed.

(** X16: a page whose [meta] element named description or keywords has
    no [content] attribute makes the local web adapter fail with
    KeyError 'content', after the one request of the page, although
    status and body were fine: the attribute is read by subscript. *)
Theorem web_local_meta_without_content_is_fatal env self url w resp html nm tag :
  session_get env w url = Ok resp ->
  status resp = 200 ->
  body resp = Ok html ->
  nm = "description" \/ nm = "keywords" ->
  Soup.find_meta nm (BeautifulSoup env html) = Some tag ->
  Soup.get "content" tag = None ->
  process_webpage env self url w =
    (Raise (Exception "KeyError" "'content'"), w ++ [EvPageGet url]).
Proof.
  intros Hget H200 Hbody Hnm Hmeta Hcontent.
  assert (Hc : _extract_content env url w =
               (Raise (Exception "KeyError" "'content'"), w ++ [EvPageGet url])).
  { unfold _extract_content. rewrite try_reraise. unfold bind at 1, call at 1.
    rewrite Hget. unfold bind at 1. rewrite H200. simpl. unfold ret at 1.
    unfold bind at 1, lift at 1. rewrite Hbody. cbv zeta.
    destruct Hnm as [->| ->].
    - unfold bind at 1, meta_content at 1. by rewrite Hmeta, Hcontent.
    - unfold bind at 1.
      destruct (meta_content "description" _ _) as [[d|e] w1] eqn:Hd.
      + apply meta_content_log in Hd as ->.
        unfold bind at 1, meta_content at 1. by rewrite Hmeta, Hcontent.
      + revert Hd. unfold meta_content, ret, raise.
        destruct (Soup.find_meta "description" _) as [t0|];
          [destruct (Soup.get "content" t0)|]; intros ?; by simplify_eq. }
  unfold process_webpage. rewrite try_reraise. unfold bind at 1. by rewrite Hc.
Qed.

Lemma web_local_meta_witness :
  (session_get Demo.env_meta [] Demo.url = Ok Demo.ok_page /\
   status Demo.ok_page = 200 /\
   body Demo.ok_page = Ok Demo.page_html /\
   Soup.find_meta "description" (BeautifulSoup Demo.env_meta Demo.page_html)
     = Some (Soup.Tag "meta" [("name", "description")] []) /\
   Soup.get "content" (Soup.Tag "meta" [("name", "description")] []) = None) /\
  process_webpage Demo.env_meta (__init__ None) Demo.url [] =
    (Raise (Exception "KeyError" "'content'"), [EvPageGet Demo.url]).
Proof.
  split; [repeat split; reflexivity|].
  exact (web_local_meta_without_content_is_fatal Demo.env_meta (__init__ None) Demo.url []
           Demo.ok_page Demo.page_html "description"
           (Soup.Tag "meta" [("name", "description")] [])
           eq_refl eq_refl eq_refl (or_introl eq_refl) eq_refl eq_refl).
Defined.

Lemma web_local_process_shape env self url w :
  (exists e, process_webpage env self url w = (Raise e, w ++ [EvPageGet url])) \/
  (exists r n,
     process_webpage env self url w =
       (Ok r, w ++ EvPageGet url ::
                (EvUpload <$> take n (web_local_keys self (document_id r)))) /\
     document_id r = _generate_document_id env url /\
     ((storage_paths (r_metadata r) = web_local_paths self (document_id r) /\ n = 2) \/
      (storage_paths (r_metadata r) = ∅ /\ n <= 2)) /\
     (storage self = None -> n = 0)).
Proof.
  destruct (process_webpage env self url w) as [r0 w0] eqn:E. revert E.
  unfold process_webpage. rewrite try_reraise. unfold bind at 1. cbv zeta.
  destruct (_extract_content env url w) as [[c|e] w1] eqn:Hc;
    apply web_local_extract_log in Hc as ->.
  2:{ intros [= <- <-]. left. by eexists. }
  unfold bind at 1.
  destruct (web_local_store_shape env self c (_generate_document_id env url)
              (w ++ [EvPageGet url])) as (p & n & Hstore & Hp & Hnone).
  destruct (storage self) as [client|] eqn:Hst.
  - rewrite Hstore. unfold ret. intros [= <- <-]. right. eexists _, n.
    split; [apply (f_equal2 pair); [reflexivity|by rewrite <- app_assoc]|]. simpl.
    split; [done|]. split; [|done].
    destruct Hp as [[-> ->]|[-> Hn]]; [by left|by right].
  - unfold ret. intros [= <- <-]. right. eexists _, 0.
    split; [apply (f_equal2 pair); reflexivity|]. simpl.
    split; [done|]. split; [|done]. right. split; [done|lia].
Qed.

(** X17: whatever [process_webpage] of the local web adapter does, its
    first call is the one request of the page; on failure that is the
    whole log.  On success the only further calls are uploads, in order,
    to a prefix of the two keys text_content.txt and metadata.json under
    Web/Opensource/<document_id>, and [storage_paths] is all or nothing:
    both keys after two uploads, or empty.  Without a storage client
    there is no upload. *)
Theorem web_local_calls_and_storage_paths env self url w :
  (forall e w', process_webpage env self url w = (Raise e, w') ->
                w' = w ++ [EvPageGet url]) /\
  (forall r w',
     process_webpage env self url w = (Ok r, w') ->
     document_id r = _generate_document_id env url /\
     exists n,
       w' = w ++ EvPageGet url :: (EvUpload <$> take n (web_local_keys self (document_id r))) /\
       ((storage_paths (r_metadata r) = web_local_paths self (document_id r) /\ n = 2) \/
        (storage_paths (r_metadata r) = ∅ /\ n <= 2)) /\
       (storage self = None -> n = 0)).
Proof.
  pose proof (web_local_process_shape env self url w) as H.
  split.
  - intros e w' He. destruct H as [[e0 H]|(r & n & H & _)]; rewrite H in He;
      by simplify_eq.
  - intros r w' Hr. destruct H as [[e0 H]|(r0 & n & H & Hid & Hp & Hn)];
      rewrite H in Hr; simplify_eq. split; [done|]. by exists n.
Qed.

Lemma web_local_calls_witness :
  exists r w',
    process_webpage Demo.env_no_token (__init__ (Some Demo.working_store)) Demo.url []
      = (Ok r, w') /\
    storage_paths (r_metadata r) !! "text" =
      Some "Web/Opensource/web_os_9b2d5b46_20250207_100000/text_content.txt" /\
    exists n,
      w' = [] ++ EvPageGet Demo.url ::
             (EvUpload <$> take n (web_local_keys (__init__ (Some Demo.working_store))
                                                  (document_id r))).
Proof.
  eexists _, _. split; [vm_compute; reflexivity|]. split; [vm_compute; reflexivity|].
  destruct (proj2 (web_local_calls_and_storage_paths Demo.env_no_token
                     (__init__ (Some Demo.working_store)) Demo.url []) _ _ eq_refl)
    as (_ & n & Hw & _).
  exists n. exact Hw.
Defined.

End web_local_more.

(* --------------------------------------------------------------------- *)
(** *** A file PyMuPDF cannot open                                         *)

Section pdf_unreadable.

(** X18: when PyMuPDF cannot open the file, the local PDF adapter raises
    that very exception, and the cloud PDF adapter on its PyMuPDF path
    (when the time is not up) raises [HTTPException] 500 with "Error
    processing PDF: " and the text of the exception; both after the one
    call, with no upload. *)
Theorem pdf_unreadable_file env path w e :
  fitz_open env w path = Raise e ->
  (forall self,
     PDFProcessor.process_pdf env self path w = (Raise e, w ++ [EvFitzOpen path])) /\
  (forall self,
     PDFEnterpriseProcessor.use_fallback self = true ->
     timed_out env w = false ->
     PDFEnterpriseProcessor.process_pdf env self path w =
       (Raise (HTTPException 500
                 ("Error processing PDF: " +:+
                  str_exn (through_timeout (PDFEnterpriseProcessor.timeout self) e))),
        w ++ [EvFitzOpen path])).
Proof.
  intros Hopen. split.
  - intros self. unfold PDFProcessor.process_pdf. rewrite try_reraise.
    unfold bind at 1, PDFProcessor._extract_content. rewrite try_reraise.
    unfold bind at 1, call at 1. by rewrite Hopen.
  - intros self Hfb Ht.
    assert (Hp : PDFEnterpriseProcessor._process_with_pymupdf env path w =
                 (Raise e, w ++ [EvFitzOpen path])).
    { unfold PDFEnterpriseProcessor._process_with_pymupdf, bind, call. by rewrite Hopen. }
    assert (Hc : PDFEnterpriseProcessor._extract_content_fallback env self path w =
                 (Raise (through_timeout (PDFEnterpriseProcessor.timeout self) e),
                  w ++ [EvFitzOpen path])).
    { unfold PDFEnterpriseProcessor._extract_content_fallback, try_except at 1.
      unfold PDFEnterpriseProcessor.async_timeout, try_except at 1.
      rewrite Hp, Ht. unfold raise. by destruct e. }
    unfold PDFEnterpriseProcessor.process_pdf, try_except at 1, bind at 1.
    by rewrite Hfb, Hc.
Qed.

Lemma pdf_unreadable_file_witness :
  fitz_open Demo.env_no_pdf [] "a.pdf" =
    Raise (Exception "FileNotFoundError" "no such file") /\
  PDFProcessor.process_pdf Demo.env_no_pdf (PDFProcessor.__init__ None) "a.pdf" [] =
    (Raise (Exception "FileNotFoundError" "no such file"), [EvFitzOpen "a.pdf"]).
Proof.
  split; [reflexivity|].
  exact (proj1 (pdf_unreadable_file Demo.env_no_pdf "a.pdf" []
                  (Exception "FileNotFoundError" "no such file") eq_refl)
           (PDFProcessor.__init__ None)).
Defined.

End pdf_unreadable.

(* --------------------------------------------------------------------- *)
(** *** The adapters on the storage handler                                *)

Section handler_as_client.

Lemma pdf_local_extract_log env path w r w' :
  PDFProcessor._extract_content env path w = (r, w') -> w' = w ++ [EvFitzOpen path].
Proof.
  unfold PDFProcessor._extract_content. rewrite try_reraise. unfold bind, call.
  destruct (fitz_open env w path) as [doc|e]; [|by intros [= _ <-]].
  destruct (PDFProcessor.extract_pages doc). by intros [= _ <-].
Qed.

(** X19: the open-source adapters call [upload] with two arguments and
    pass bytes, and [StorageHandler.upload] takes three and wants a file
    object.  So with the repository's storage handler as their storage
    client, as fast_api.py builds [PDFProcessor], neither adapter ever
    stores anything: every response has empty [storage_paths], after one
    refused upload of the text; and the handler refuses bytes whatever
    the content type, leaving the bucket as it was. *)
Theorem opensource_adapters_store_nothing_through_handler env storage service :
  (forall path w r w',
     PDFProcessor.process_pdf env
       (PDFProcessor.__init__ (Some (FastApi.storage_client_of env storage service)))
       path w = (Ok r, w') ->
     PDFProcessor.storage_paths (PDFProcessor.r_metadata r) = ∅ /\
     w' = w ++ [EvFitzOpen path;
                EvUpload (("PDF/Opensource/" +:+ PDFProcessor.document_id r)
                          +:+ "/text_content.txt")]) /\
  (forall url w r w',
     WebProcessor.process_webpage env
       (WebProcessor.__init__ (Some (FastApi.storage_client_of env storage service)))
       url w = (Ok r, w') ->
     WebProcessor.storage_paths (WebProcessor.r_metadata r) = ∅ /\
     w' = w ++ [EvPageGet url;
                EvUpload (("Web/Opensource/" +:+ WebProcessor.document_id r)
                          +:+ "/text_content.txt")]) /\
  (forall bytes file_path content_type st,
     StorageHandler.upload env storage (RawBytes bytes) file_path content_type st =
       (Raise (Exception "ValueError" "Fileobj must implement read"), st)).
Proof.
  split; [|split].
  - intros path w r w'. unfold PDFProcessor.process_pdf. rewrite try_reraise.
    unfold bind at 1. cbv zeta.
    destruct (PDFProcessor._extract_content env path w) as [[c|e] w1] eqn:Hc; [|done].
    apply pdf_local_extract_log in Hc as ->. unfold bind at 1. simpl.
    unfold ret. intros [= <- <-]. simpl. split; [done|]. by rewrite <- app_assoc.
  - intros url w r w'. unfold WebProcessor.process_webpage. rewrite try_reraise.
    unfold bind at 1. cbv zeta.
    destruct (WebProcessor._extract_content env url w) as [[c|e] w1] eqn:Hc; [|done].
    apply web_local_extract_log in Hc as ->. unfold bind at 1. simpl.
    unfold ret. intros [= <- <-]. simpl. split; [done|]. by rewrite <- app_assoc.
  - done.
Qed.

Lemma opensource_adapters_handler_witness :
  exists r w',
    PDFProcessor.process_pdf Demo.env_pdf_no_azure
      (PDFProcessor.__init__
         (Some (FastApi.storage_client_of Demo.env_pdf_no_azure Demo.bucket_handler
                  Demo.empty_bucket)))
      "a.pdf" [] = (Ok r, w') /\
    PDFProcessor.storage_paths (PDFProcessor.r_metadata r) = ∅.
Proof.
  eexists _, _. split; [vm_compute; reflexivity|].
  exact (proj1 (proj1 (opensource_adapters_store_nothing_through_handler
                         Demo.env_pdf_no_azure Demo.bucket_handler Demo.empty_bucket)
                  "a.pdf" [] _ _ eq_refl)).
Defined.

End handler_as_client.

(* --------------------------------------------------------------------- *)
(** *** The endpoints of fast_api.py                                       *)

Section endpoints.
Import FastApi.

(** X20: both PDF endpoints refuse an upload whose declared content type
    is not application/pdf with [HTTPException] 400 "Only PDF files are
    accepted": the one failure that is not reported as 500.  No
    temporary file is created and no processor runs. *)
Theorem pdf_endpoints_reject_other_content_types env h storage file fs w :
  is_pdf file = false ->
  process_pdf_opensource env h storage file fs w =
    ((Raise (HTTPException 400 "Only PDF files are accepted"), w), fs) /\
  process_pdf_enterprise env h storage file fs w =
    ((Raise (HTTPException 400 "Only PDF files are accepted"), w), fs).
Proof.
  intros Hpdf. unfold process_pdf_opensource, process_pdf_enterprise. by rewrite Hpdf.
Qed.

Lemma pdf_endpoints_reject_witness :
  is_pdf Demo.text_upload = false /\
  process_pdf_enterprise Demo.env_pdf_full Demo.quiet_host None Demo.text_upload ∅ [] =
    ((Raise (HTTPException 400 "Only PDF files are accepted"), []), ∅).
Proof.
  split; [reflexivity|].
  exact (proj2 (pdf_endpoints_reject_other_content_types Demo.env_pdf_full Demo.quiet_host
                  None Demo.text_upload ∅ [] eq_refl)).
Defined.

(** X21: a response of the open-source PDF endpoint has status "success"
    and an empty top-level [timestamp] (the processor's dict has no such
    key, and the endpoint reads it with a default), while
    [metadata.timestamp] holds the time of processing and
    [metadata.processor] is "PyMuPDF". *)
Theorem pdf_endpoint_opensource_timestamp_is_empty env h storage file fs w resp w' fs' :
  process_pdf_opensource env h storage file fs w = ((Ok resp, w'), fs') ->
  a_status resp = "success" /\
  a_timestamp resp = "" /\
  PDFProcessor.m_timestamp (a_metadata resp) = now_isoformat env /\
  PDFProcessor.processor (a_metadata resp) = "PyMuPDF" /\
  is_pdf file = true.
Proof.
  unfold process_pdf_opensource.
  destruct (is_pdf file); [|done]. simpl.
  destruct (save_upload h file fs) as [[temp_file_path|e] fs1]; [|done].
  destruct (PDFProcessor.process_pdf env _ temp_file_path w) as [[r|e] w1] eqn:Hr; [|done].
  intros [= <- <- <-]. simpl. do 2 (split; [done|]).
  revert Hr. unfold PDFProcessor.process_pdf. rewrite try_reraise. unfold bind at 1.
  destruct (PDFProcessor._extract_content env temp_file_path w) as [[c|e] w0]; [|done].
  unfold bind, ret.
  match goal with |- context [match ?m w0 with _ => _ end] =>
    destruct (m w0) as [[p|e] w2] end; [|done].
  by intros [= <- <-].
Qed.

Lemma pdf_endpoint_opensource_timestamp_witness :
  exists resp w' fs',
    process_pdf_opensource Demo.env_pdf_no_azure Demo.quiet_host None Demo.pdf_upload ∅ []
      = ((Ok resp, w'), fs') /\
    a_timestamp resp = "" /\
    PDFProcessor.m_timestamp (a_metadata resp) = "2025-02-07T10:00:00".
Proof.
  eexists _, _, _. split; [vm_compute; reflexivity|].
  destruct (pdf_endpoint_opensource_timestamp_is_empty Demo.env_pdf_no_azure Demo.quiet_host
              None Demo.pdf_upload ∅ [] _ _ _ eq_refl) as (_ & Hts & Hmt & _).
  split; [exact Hts|exact Hmt].
Defined.

Lemma temp_file_gone (p : string) (fs : files) : p ∉ ({[p]} ∪ fs) ∖ {[p]}.
Proof. rewrite elem_of_difference, elem_of_singleton. by intros [_ ?]. Qed.

Lemma other_files_kept (p q : string) (fs : files) :
  p <> q -> (p ∈ ({[q]} ∪ fs) ∖ {[q]} <-> p ∈ fs).
Proof.
  intros Hne. rewrite elem_of_difference, elem_of_union, !elem_of_singleton. tauto.
Qed.

(** X22: once the upload is saved in a temporary file and [os.unlink]
    does not raise, that file is gone when either PDF endpoint is done,
    whether the processor answered or raised, and every other file is as
    before.  When copying the upload raises, the file that was created
    stays behind: the cleanup is not reached. *)
Theorem pdf_endpoints_remove_temp_file env h storage file fs w temp_file_path :
  is_pdf file = true ->
  NamedTemporaryFile h fs = Ok temp_file_path ->
  (write_fails h (uf_file file) = None ->
   unlink_fails h temp_file_path = None ->
   ((temp_file_path ∉ (process_pdf_opensource env h storage file fs w).2) /\
    forall p, p <> temp_file_path ->
      (p ∈ (process_pdf_opensource env h storage file fs w).2 <-> p ∈ fs)) /\
   ((temp_file_path ∉ (process_pdf_enterprise env h storage file fs w).2) /\
    forall p, p <> temp_file_path ->
      (p ∈ (process_pdf_enterprise env h storage file fs w).2 <-> p ∈ fs))) /\
  (is_Some (write_fails h (uf_file file)) ->
   (temp_file_path ∈ (process_pdf_opensource env h storage file fs w).2) /\
   (temp_file_path ∈ (process_pdf_enterprise env h storage file fs w).2)).
Proof.
  intros Hpdf Htemp. unfold process_pdf_opensource, process_pdf_enterprise, save_upload.
  rewrite Hpdf, Htemp. simpl. split.
  - intros Hw Hu. rewrite Hw.
    destruct (PDFProcessor.process_pdf env _ temp_file_path w) as [[r|e] w1];
    destruct (PDFEnterpriseProcessor.process_pdf env _ temp_file_path w) as [[r'|e'] w1'];
      unfold cleanup; rewrite Hu; simpl;
      (split; split; [apply temp_file_gone|intros p Hp; by apply other_files_kept|
                      apply temp_file_gone|intros p Hp; by apply other_files_kept]).
  - intros [e He]. rewrite He. simpl.
    split; apply elem_of_union_l; by apply elem_of_singleton.
Qed.

Lemma pdf_endpoints_remove_temp_file_witness :
  (is_pdf Demo.pdf_upload = true /\
   NamedTemporaryFile Demo.quiet_host ∅ = Ok "/tmp/tmpq1.pdf" /\
   write_fails Demo.quiet_host (uf_file Demo.pdf_upload) = None /\
   unlink_fails Demo.quiet_host "/tmp/tmpq1.pdf" = None) /\
  ("/tmp/tmpq1.pdf" ∉
     (process_pdf_enterprise Demo.env_pdf_full Demo.quiet_host None Demo.pdf_upload ∅ []).2).
Proof.
  split; [repeat split; reflexivity|].
  exact (proj1 (proj2 (proj1 (pdf_endpoints_remove_temp_file Demo.env_pdf_full
                                Demo.quiet_host None Demo.pdf_upload ∅ []
                                "/tmp/tmpq1.pdf" eq_refl eq_refl)
                         eq_refl eq_refl))).
Defined.

(** X23: every failure of a PDF endpoint on an upload declared as PDF is
    [HTTPException] 500 with a detail that starts "Error processing PDF: ".
    A failure of the cloud processor reaches the client wrapped twice:
    the processor has already made it an [HTTPException] 500 with that
    prefix, and the endpoint prefixes the text of that exception again. *)
Theorem pdf_endpoints_failures_are_500 env h storage file fs w :
  is_pdf file = true ->
  (forall e w' fs',
     process_pdf_opensource env h storage file fs w = ((Raise e, w'), fs') ->
     exists e0, e = pdf_error e0) /\
  (forall e w' fs',
     process_pdf_enterprise env h storage file fs w = ((Raise e, w'), fs') ->
     (exists e0, save_upload h file fs = (Raise e0, fs') /\ e = pdf_error e0) \/
     (exists e1, e = pdf_error (pdf_error e1))).
Proof.
  intros Hpdf. unfold process_pdf_opensource, process_pdf_enterprise. rewrite Hpdf. simpl.
  split.
  - intros e w' fs'.
    destruct (save_upload h file fs) as [[temp_file_path|e0] fs1];
      [|intros [= <- <- <-]; by eexists].
    destruct (PDFProcessor.process_pdf env _ temp_file_path w) as [[r|e1] w1]; [done|].
    intros [= <- <- <-]. by eexists.
  - intros e w' fs'.
    destruct (save_upload h file fs) as [[temp_file_path|e0] fs1];
      [|intros [= <- <- <-]; left; by eexists].
    destruct (pdf_cloud_process_cases env
                (PDFEnterpriseProcessor.__init__ env storage 300 3 5) temp_file_path w)
      as [(r & w1 & Hr & _)|(e1 & w1 & Hr)]; rewrite Hr; [done|].
    intros [= <- <- <-]. right. by exists e1.
Qed.

Lemma pdf_endpoints_failures_witness :
  is_pdf Demo.pdf_upload = true /\
  exists e w' fs',
    process_pdf_enterprise Demo.env_no_pdf Demo.quiet_host None Demo.pdf_upload ∅ []
      = ((Raise e, w'), fs') /\
    ((exists e0, save_upload Demo.quiet_host Demo.pdf_upload ∅ = (Raise e0, fs') /\
                 e = pdf_error e0) \/
     (exists e1, e = pdf_error (pdf_error e1))).
Proof.
  split; [reflexivity|]. eexists _, _, _. split; [vm_compute; reflexivity|].
  exact (proj2 (pdf_endpoints_failures_are_500 Demo.env_no_pdf Demo.quiet_host None
                  Demo.pdf_upload ∅ [] eq_refl) _ _ _ eq_refl).
Defined.

(** X24: the open-source web endpoint builds its processor without a
    storage client, so it never uploads: whatever it does, the log grows
    by the one request of the page, a response has empty [storage_paths],
    and a failure is [HTTPException] 500 with "Error processing webpage: "
    and the text of the exception of the processor. *)
Theorem web_endpoint_opensource_never_stores env url w :
  (forall resp w',
     process_webpage_opensource env url w = (Ok resp, w') ->
     w' = w ++ [EvPageGet url] /\
     WebProcessor.storage_paths (a_metadata resp) = ∅ /\
     WebProcessor.processor (a_metadata resp) = "BeautifulSoup") /\
  (forall e w',
     process_webpage_opensource env url w = (Raise e, w') ->
     w' = w ++ [EvPageGet url] /\
     exists e0, WebProcessor.process_webpage env (WebProcessor.__init__ None) url w
                  = (Raise e0, w') /\
                e = webpage_error e0).
Proof.
  unfold process_webpage_opensource, try_except, bind. cbv zeta.
  destruct (web_local_process_shape env (WebProcessor.__init__ None) url w)
    as [[e0 H]|(r & n & H & Hid & Hp & Hn)]; rewrite H.
  - split; [done|]. unfold raise. intros e w' [= <- <-]. split; [done|]. by exists e0.
  - specialize (Hn eq_refl). subst n. unfold ret. split; [|done].
    intros resp w' [= <- <-]. simpl. split; [done|]. split.
    + destruct Hp as [[_ ?]|[? _]]; [done|done].
    + revert H. unfold WebProcessor.process_webpage. rewrite try_reraise.
      unfold bind at 1.
      destruct (WebProcessor._extract_content env url w) as [[c|e] w0]; [|done].
      simpl. unfold bind, ret. by intros [= <- _].
Qed.

Lemma web_endpoint_opensource_witness :
  exists resp w',
    process_webpage_opensource Demo.env_no_token Demo.url [] = (Ok resp, w') /\
    w' = [] ++ [EvPageGet Demo.url] /\
    WebProcessor.storage_paths (a_metadata resp) = ∅.
Proof.
  eexists _, _. split; [vm_compute; reflexivity|].
  destruct (proj1 (web_endpoint_opensource_never_stores Demo.env_no_token Demo.url [])
              _ _ eq_refl) as (Hw & Hp & _).
  split; [exact Hw|exact Hp].
Defined.

(** X25: the health check always answers "healthy" and contacts no
    service.  It reports the Azure engine available exactly when the
    cloud PDF processor built at start-up is not in fallback mode, and
    Diffbot available exactly when DIFFBOT_TOKEN is set to a non-empty
    string, which is when responses of the cloud web adapter are labelled
    "Diffbot". *)
Theorem health_check_reports_engines env storage :
  h_status (health_check env storage) = "healthy" /\
  (h_azure_di (health_check env storage) = "available" <->
   PDFEnterpriseProcessor.use_fallback
     (PDFEnterpriseProcessor.__init__ env storage 300 3 5) = false) /\
  (h_diffbot (health_check env storage) = "available" <->
   truthy_opt (getenv env "DIFFBOT_TOKEN") = true) /\
  (forall url w r w',
     WebEnterpriseProcessor.process_webpage env
       (WebEnterpriseProcessor.__init__ env storage) url w = (Ok r, w') ->
     (h_diffbot (health_check env storage) = "available" <->
      WebEnterpriseProcessor.processor (WebEnterpriseProcessor.r_metadata r) = "Diffbot")).
Proof.
  split; [done|]. split; [|split].
  - unfold health_check. simpl. unfold PDFEnterpriseProcessor.__init__.
    destruct (negb _ || negb _); simpl; [done|].
    destruct (DocumentAnalysisClient env _ _); simpl; done.
  - unfold health_check. simpl. by destruct (truthy_opt (getenv env "DIFFBOT_TOKEN")).
  - intros url w r w' Hr. apply web_cloud_process_inv in Hr as (_ & _ & _ & _ & ->).
    unfold health_check. simpl.
    by destruct (truthy_opt (getenv env "DIFFBOT_TOKEN")).
Qed.

End endpoints.

(* --------------------------------------------------------------------- *)
(** *** The forwarding helper of fast_api.py                               *)

Section forwarding_helper.
Import FastApi.

Ltac run_attempts post :=
  repeat match goal with
         | |- context [post ?t ?c] => destruct (post t c) as [?resp|?e]
         | |- context [Nat.eqb (status_code ?r) 200] =>
             destruct (Nat.eqb (status_code r) 200)
         | |- context [reply_json ?r] => destruct (reply_json r)
         | |- context [retried ?e] => destruct (retried e)
         end.

(** X26: the result of the helper that forwards an upload to a
    processing service is decided by its last request, the one the trace
    ends with: the JSON body of that reply when its status is 200 (never
    [None]: the loop cannot run out), and otherwise [HTTPException] 500
    with "Error processing PDF: " and the text of what stopped it: the
    error of decoding the body, the [HTTPException] made of a reply with
    another status (whose status code is so not passed on: the caller
    sees 500), the exception of the request when it is not one of the
    three retried, or the timeout message when the third attempt failed
    with one of them.  Every request before the last failed with one of
    the three retried exceptions. *)
Theorem forwarding_helper_outcome post file :
  (forall out tr,
     process_pdf post file = (out, tr) ->
     exists pre content,
       tr = pre ++ [Post content] /\
       out = forwarded (post tr content) /\
       (forall e, post tr content = Raise e -> retried e = true -> length pre = 4) /\
       (forall before c after,
          pre = before ++ Post c :: after ->
          exists e, post (before ++ [Post c]) c = Raise e /\ retried e = true)) /\
  (forall reply,
     post [Post (uf_file file)] (uf_file file) = Ok reply ->
     status_code reply <> 200 ->
     process_pdf post file =
       (Raise (pdf_error (HTTPException (status_code reply)
                            ("PDF processing service returned error: "
                             +:+ reply_text reply))),
        [Post (uf_file file)])).
Proof.
  split.
  - intros out tr. unfold process_pdf. simpl.
    rewrite ?Nat.max_id, ?drop_0, ?drop_all.
    destruct (post [Post (uf_file file)] (uf_file file)) as [r1|e1] eqn:H1.
    { intros Hout. exists [], (uf_file file).
      assert (Htr : tr = [Post (uf_file file)]).
      { revert Hout. destruct (Nat.eqb (status_code r1) 200);
          [destruct (reply_json r1)|]; by intros [= _ <-]. }
      subst tr. split; [done|]. split.
      - simpl. rewrite H1. unfold forwarded. revert Hout.
        destruct (Nat.eqb (status_code r1) 200); [destruct (reply_json r1)|];
          by intros [= <-].
      - split; [intros e He; simpl in He; congruence|].
        intros before c after Hpre. by destruct before. }
    destruct (retried e1) eqn:Hr1.
    2:{ intros [= <- <-]. exists [], (uf_file file). split; [done|]. split.
        - simpl. rewrite H1. unfold forwarded. by rewrite Hr1.
        - split; [intros e He; simpl in He; congruence|].
          intros before c after Hpre. by destruct before. }
    destruct (post [Post (uf_file file); Sleep 1; Post []] []) as [r2|e2] eqn:H2.
    { intros Hout. exists [Post (uf_file file); Sleep 1], [].
      assert (Htr : tr = [Post (uf_file file); Sleep 1; Post []]).
      { revert Hout. destruct (Nat.eqb (status_code r2) 200);
          [destruct (reply_json r2)|]; by intros [= _ <-]. }
      subst tr. split; [done|]. split.
      - simpl. rewrite H2. unfold forwarded. revert Hout.
        destruct (Nat.eqb (status_code r2) 200); [destruct (reply_json r2)|];
          by intros [= <-].
      - split; [intros e He; simpl in He; congruence|].
        intros before c after Hpre.
        destruct before as [|x [|y [|z before]]]; simplify_eq/=. by exists e1. }
    destruct (retried e2) eqn:Hr2.
    2:{ intros [= <- <-]. exists [Post (uf_file file); Sleep 1], []. split; [done|]. split.
        - simpl. rewrite H2. unfold forwarded. by rewrite Hr2.
        - split; [intros e He; simpl in He; congruence|].
          intros before c after Hpre.
          destruct before as [|x [|y [|z before]]]; simplify_eq/=. by exists e1. }
    intros Hout.
    exists [Post (uf_file file); Sleep 1; Post []; Sleep 2], [].
    assert (Htr : tr = [Post (uf_file file); Sleep 1; Post []; Sleep 2; Post []]).
    { revert Hout.
      destruct (post [Post (uf_file file); Sleep 1; Post []; Sleep 2; Post []] [])
        as [r3|e3]; [destruct (Nat.eqb (status_code r3) 200); [destruct (reply_json r3)|]
                    |destruct (retried e3)]; by intros [= _ <-]. }
    subst tr. split; [done|]. split.
    + simpl. unfold forwarded. unfold pdf_error. revert Hout.
      destruct (post [Post (uf_file file); Sleep 1; Post []; Sleep 2; Post []] [])
        as [r3|e3]; [destruct (Nat.eqb (status_code r3) 200); [destruct (reply_json r3)|]
                    |destruct (retried e3)]; by intros [= <-].
    + split; [done|].
      intros before c after Hpre.
      destruct before as [|x [|y [|z [|u [|v before]]]]]; simplify_eq/=;
        [by exists e1|by exists e2].
  - intros reply Hpost Hne. unfold process_pdf. simpl.
    rewrite ?Nat.max_id, ?drop_0, ?drop_all, Hpost.
    destruct (Nat.eqb_spec (status_code reply) 200); [done|]. done.
Qed.

Lemma forwarding_helper_outcome_witness :
  (Demo.post_unavailable [Post (uf_file Demo.pdf_upload)] (uf_file Demo.pdf_upload)
     = Ok Demo.busy /\
   status_code Demo.busy <> 200) /\
  process_pdf Demo.post_unavailable Demo.pdf_upload =
    (Raise (HTTPException 500
              "Error processing PDF: 503: PDF processing service returned error: busy"),
     [Post (uf_file Demo.pdf_upload)]).
Proof.
  assert (Hne : status_code Demo.busy <> 200) by (simpl; lia).
  split; [split; [reflexivity|exact Hne]|].
  exact (proj2 (forwarding_helper_outcome Demo.post_unavailable Demo.pdf_upload)
           Demo.busy eq_refl Hne).
Defined.

(** X27: the helper posts at most three times and sleeps 1 second, then
    2 seconds, between the attempts.  Only the first request carries the
    upload: it reads the file to its end, so every retry reads, and
    posts, nothing. *)
Theorem forwarding_helper_trace post file out tr :
  process_pdf post file = (out, tr) ->
  tr = [Post (uf_file file)] \/
  tr = [Post (uf_file file); Sleep 1; Post []] \/
  tr = [Post (uf_file file); Sleep 1; Post []; Sleep 2; Post []].
Proof.
  unfold process_pdf. simpl. rewrite ?Nat.max_id, ?drop_0, ?drop_all.
  run_attempts post; intros [= <- <-]; auto.
Qed.

Lemma forwarding_helper_trace_witness :
  process_pdf Demo.post_timeout Demo.pdf_upload =
    (Raise (HTTPException 500
              ("Error processing PDF: 500: PDF processing service timeout after 3 " +:+
               "attempts: timed out")),
     [Post (uf_file Demo.pdf_upload); Sleep 1; Post []; Sleep 2; Post []]) /\
  ([Post (uf_file Demo.pdf_upload); Sleep 1; Post []; Sleep 2; Post []]
     = [Post (uf_file Demo.pdf_upload)] \/
   [Post (uf_file Demo.pdf_upload); Sleep 1; Post []; Sleep 2; Post []]
     = [Post (uf_file Demo.pdf_upload); Sleep 1; Post []] \/
   [Post (uf_file Demo.pdf_upload); Sleep 1; Post []; Sleep 2; Post []]
     = [Post (uf_file Demo.pdf_upload); Sleep 1; Post []; Sleep 2; Post []]).
Proof.
  assert (H : process_pdf Demo.post_timeout Demo.pdf_upload =
              (Raise (HTTPException 500
                        ("Error processing PDF: 500: PDF processing service timeout after 3 "
                         +:+ "attempts: timed out")),
               [Post (uf_file Demo.pdf_upload); Sleep 1; Post []; Sleep 2; Post []]))
    by (vm_compute; reflexivity).
  split; [exact H|].
  exact (forwarding_helper_trace Demo.post_timeout Demo.pdf_upload _ _ H).
Defined.

End forwarding_helper.

(* --------------------------------------------------------------------- *)
(** *** The secrets of cloud_config.py                                     *)

Section secrets.
Import CloudConfig.

Lemma find_key_notin (l : list (string * string)) k :
  k ∉ l.*1 -> List.find (fun entry => String.eqb entry.1 k) l = None.
Proof.
  induction l as [|[var sid] l IH]; simpl; [done|].
  intros Hnotin. apply not_elem_of_cons in Hnotin as [Hne Hnotin].
  destruct (String.eqb_spec var k) as [->|_]; [done|]. by apply IH.
Qed.

Lemma load_secret_other client pid e var sid k :
  var <> k -> load_secret client pid e (var, sid) !! k = e !! k.
Proof.
  intros Hne. unfold load_secret, setitem, environ in *. simpl.
  destruct (access_secret_version client pid sid "latest") as [v|err]; [|done].
  destruct (has_nul v); [done|]. by rewrite lookup_insert_ne.
Qed.

Lemma load_secret_fold client pid l : forall e k,
  NoDup l.*1 ->
  foldl (load_secret client pid) e l !! k =
  match List.find (fun entry => String.eqb entry.1 k) l with
  | Some entry =>
      match access_secret_version client pid entry.2 "latest" with
      | Ok v => if has_nul v then e !! k else Some v
      | Raise _ => e !! k
      end
  | None => e !! k
  end.
Proof.
  induction l as [|[var sid] l IH]; intros e k Hnd; simpl; [done|].
  apply NoDup_cons in Hnd as [Hnotin Hnd]. rewrite IH by done.
  destruct (String.eqb_spec var k) as [->|Hne].
  - rewrite find_key_notin by done. unfold load_secret, setitem, environ in *. simpl.
    destruct (access_secret_version client pid sid "latest") as [v|err]; [|done].
    destruct (has_nul v); [done|]. by rewrite lookup_insert_eq.
  - rewrite (load_secret_other _ _ _ _ _ _ Hne).
    by destruct (List.find _ l).
Qed.

Lemma secrets_NoDup : NoDup secrets.*1.
Proof. apply (bool_decide_unpack _). vm_compute. exact I. Qed.

Lemma on_import_other client e k :
  List.find (fun entry => String.eqb entry.1 k) secrets = None ->
  on_import client e !! k = e !! k.
Proof.
  intros Hk. unfold on_import, load_secrets.
  destruct (truthy_opt _); [|done].
  by rewrite (load_secret_fold _ _ _ _ _ secrets_NoDup), Hk.
Qed.

Lemma load_secrets_lookup_diffbot client e :
  load_secrets client e !! "DIFFBOT_TOKEN" =
  match access_secret_version client (e !! "GOOGLE_CLOUD_PROJECT") "diffbot-token" "latest" with
  | Ok v => if has_nul v then e !! "DIFFBOT_TOKEN" else Some v
  | Raise _ => e !! "DIFFBOT_TOKEN"
  end.
Proof. unfold load_secrets. by rewrite (load_secret_fold _ _ _ _ _ secrets_NoDup). Qed.

(** X28: [load_secrets] never raises and touches only the seven
    variables of its table: after it, such a variable holds the payload
    of its secret when Secret Manager answered (and the payload has no
    null character), and is as before when the request failed; every
    other variable is as before.  The project is read once, before the
    first request. *)
Theorem load_secrets_sets_only_its_variables client e k :
  load_secrets client e !! k =
  match List.find (fun entry => String.eqb entry.1 k) secrets with
  | Some entry =>
      match access_secret_version client (e !! "GOOGLE_CLOUD_PROJECT") entry.2 "latest" with
      | Ok v => if has_nul v then e !! k else Some v
      | Raise _ => e !! k
      end
  | None => e !! k
  end.
Proof. unfold load_secrets. apply load_secret_fold, secrets_NoDup. Qed.

(** X29: the secrets azure-di-endpoint and azure-di-key are loaded into
    DI_ENDPOINT and DI_KEY, and the cloud PDF adapter reads
    AZURE_DOCUMENT_INTELLIGENCE_ENDPOINT and AZURE_DOCUMENT_INTELLIGENCE_KEY:
    importing cloud_config never changes whether the adapter is in
    fallback mode, and an adapter built in an environment that lacked the
    endpoint variable is in fallback mode however the import went.  The
    Diffbot token, in contrast, reaches the cloud web adapter when its
    secret loads. *)
Theorem azure_mode_unaffected_by_load_secrets env env' client e storage t m d :
  (forall k, getenv env k = e !! k) ->
  (forall k, getenv env' k = on_import client e !! k) ->
  DocumentAnalysisClient env' = DocumentAnalysisClient env ->
  PDFEnterpriseProcessor.use_fallback (PDFEnterpriseProcessor.__init__ env' storage t m d) =
    PDFEnterpriseProcessor.use_fallback (PDFEnterpriseProcessor.__init__ env storage t m d) /\
  (e !! "AZURE_DOCUMENT_INTELLIGENCE_ENDPOINT" = None ->
   PDFEnterpriseProcessor.use_fallback
     (PDFEnterpriseProcessor.__init__ env' storage t m d) = true) /\
  (forall v,
     truthy_opt (e !! "GOOGLE_CLOUD_PROJECT") = true ->
     access_secret_version client (e !! "GOOGLE_CLOUD_PROJECT") "diffbot-token" "latest"
       = Ok v ->
     has_nul v = false ->
     WebEnterpriseProcessor.diffbot_token (WebEnterpriseProcessor.__init__ env' storage)
       = Some v).
Proof.
  intros Henv Henv' Hclient.
  assert (He : getenv env' "AZURE_DOCUMENT_INTELLIGENCE_ENDPOINT" =
               getenv env "AZURE_DOCUMENT_INTELLIGENCE_ENDPOINT").
  { rewrite Henv, Henv'. by apply on_import_other. }
  assert (Hk : getenv env' "AZURE_DOCUMENT_INTELLIGENCE_KEY" =
               getenv env "AZURE_DOCUMENT_INTELLIGENCE_KEY").
  { rewrite Henv, Henv'. by apply on_import_other. }
  split; [|split].
  - unfold PDFEnterpriseProcessor.__init__. by rewrite He, Hk, Hclient.
  - intros Hnone. unfold PDFEnterpriseProcessor.__init__.
    by rewrite He, Henv, Hnone.
  - intros v Hproj Hv Hnul. unfold WebEnterpriseProcessor.__init__. simpl.
    rewrite Henv'. unfold on_import. rewrite Hproj.
    rewrite load_secrets_lookup_diffbot. by rewrite Hv, Hnul.
Qed.

Lemma azure_mode_witness :
  Demo.environ0 !! "AZURE_DOCUMENT_INTELLIGENCE_ENDPOINT" = None /\
  on_import Demo.secret_client Demo.environ0 !! "DI_ENDPOINT" = Some "secret" /\
  PDFEnterpriseProcessor.use_fallback
    (PDFEnterpriseProcessor.__init__
       (Demo.env_of_environ (on_import Demo.secret_client Demo.environ0)) None 300 3 5)
    = true.
Proof.
  assert (H1 : Demo.environ0 !! "AZURE_DOCUMENT_INTELLIGENCE_ENDPOINT" = None)
    by (vm_compute; reflexivity).
  split; [exact H1|]. split; [vm_compute; reflexivity|].
  exact (proj1 (proj2 (azure_mode_unaffected_by_load_secrets
                         (Demo.env_of_environ Demo.environ0)
                         (Demo.env_of_environ (on_import Demo.secret_client Demo.environ0))
                         Demo.secret_client Demo.environ0 None 300 3 5
                         (fun k => eq_refl) (fun k => eq_refl) eq_refl)) H1).
Defined.

End secrets.

(* --------------------------------------------------------------------- *)
(** *** What the cloud PDF adapter stores                                  *)

Section pdf_cloud_storage.
Import PDFEnterpriseProcessor.

Lemma foldl_insert_other {A} (f : nat -> string) (g : nat -> A) l :
  forall (m : gmap string A) k,
    (forall i, i ∈ l -> f i <> k) ->
    foldl (fun m i => <[f i := g i]> m) m l !! k = m !! k.
Proof.
  induction l as [|x l IH]; intros m k Hk; simpl; [done|].
  rewrite IH by (intros i Hi; apply Hk; by right).
  apply lookup_insert_ne, Hk. by left.
Qed.

Lemma foldl_insert_lookup {A} (f : nat -> string) (g : nat -> A) l :
  Inj (=) (=) f ->
  forall (m : gmap string A) i,
    i ∈ l -> foldl (fun m i => <[f i := g i]> m) m l !! f i = Some (g i).
Proof.
  intros Hinj. induction l as [|x l IH]; intros m i Hi; simpl; [by apply elem_of_nil in Hi|].
  destruct (decide (i ∈ l)) as [Hl|Hl]; [by apply IH|].
  apply elem_of_cons in Hi as [->|Hi]; [|done].
  rewrite foldl_insert_other; [by rewrite lookup_insert_eq|].
  intros j Hj Heq. apply Hinj in Heq. by subst.
Qed.

Lemma table_name_inj : Inj (=) (=) (fun i : nat => "table_" +:+ pretty i).
Proof. intros i j H. by apply (inj (String.app "table_")), (inj pretty) in H. Qed.

Lemma tables_upload_loop env (client : storage_client) base tables :
  forall start sp w sp' w',
    for_each (zip (seq start (length tables)) tables)
      (fun (storage_paths : gmap string string) '(idx, table) =>
         csv <~ lift (to_csv env table) ;;
         let table_key := base +:+ "/table_" +:+ pretty (idx + 1) +:+ ".csv" in
         call (EvUpload table_key)
              (fun w => client w (BytesIO (encode_utf8 csv) 0) table_key (Some "text/csv")) ;;;
         ret (<["table_" +:+ pretty (idx + 1) := table_key]> storage_paths)) sp w
      = (Ok sp', w') ->
    w' = w ++ (EvUpload <$> ((fun i => base +:+ "/table_" +:+ pretty i +:+ ".csv")
                               <$> seq (start + 1) (length tables))) /\
    sp' = foldl (fun m i => <["table_" +:+ pretty i :=
                                base +:+ "/table_" +:+ pretty i +:+ ".csv"]> m)
                sp (seq (start + 1) (length tables)).
Proof.
  induction tables as [|t ts IH]; intros start sp w sp' w'; simpl.
  - unfold ret. intros [= <- <-]. by rewrite app_nil_r.
  - unfold bind at 1. unfold bind at 1, lift at 1.
    destruct (to_csv env t) as [csv|e]; [|done].
    unfold bind at 1, call at 1.
    destruct (client w _ _ _) as [k|e]; [|done].
    unfold ret at 1. intros H. apply IH in H as [-> ->].
    replace (S start + 1) with (S (start + 1)) by lia.
    split; [by rewrite <- app_assoc|done].
Qed.

Lemma cloud_pdf_extraction_log env self path w c w1 :
  cloud_pdf_extraction env self path w = (Ok c, w1) ->
  w1 = w ++ [cloud_pdf_extraction_call self path].
Proof.
  unfold cloud_pdf_extraction, cloud_pdf_extraction_call.
  destruct (use_fallback self); intros Hc.
  - apply extract_pymupdf_inv in Hc.
    pose proof (process_with_pymupdf_log env path w) as Hlog. by rewrite Hc in Hlog.
  - apply extract_azure_inv in Hc.
    pose proof (process_with_azure_log env self path w) as Hlog. by rewrite Hc in Hlog.
Qed.

(** X30: a response of the cloud PDF adapter built with a storage client
    means every upload succeeded (a failed one fails the request).  The
    log of the request is then exactly: the one extraction call, then the
    uploads, in order, of text_content.txt, of table_1.csv to table_n.csv
    for the n tables of the response, and of metadata.json, all under
    PDF/Enterprise/<document_id>; and [storage_paths] maps "text",
    "metadata" and every "table_i" with 1 <= i <= n to those keys. *)
Theorem cloud_pdf_storage_paths env self client path w r w' :
  storage self = Some client ->
  process_pdf env self path w = (Ok r, w') ->
  w' = w ++ [cloud_pdf_extraction_call self path]
         ++ (EvUpload <$> cloud_pdf_keys self (document_id r)
                            (length (r_tables (r_content r)))) /\
  storage_paths (r_metadata r) !! "text" =
    Some ((base_path self +:+ document_id r) +:+ "/text_content.txt") /\
  storage_paths (r_metadata r) !! "metadata" =
    Some ((base_path self +:+ document_id r) +:+ "/metadata.json") /\
  (forall i, 1 <= i <= length (r_tables (r_content r)) ->
     storage_paths (r_metadata r) !! ("table_" +:+ pretty i) =
       Some (cloud_pdf_table_key self (document_id r) i)).
Proof.
  intros Hst. unfold process_pdf, try_except at 1, bind at 1. cbv zeta.
  change (if use_fallback self
          then _extract_content_fallback env self path
          else _extract_content_azure env self path)
    with (cloud_pdf_extraction env self path).
  destruct (cloud_pdf_extraction env self path w) as [[c|e] w1] eqn:Hc;
    [|unfold raise; congruence].
  apply cloud_pdf_extraction_log in Hc as ->.
  rewrite Hst. unfold bind at 1.
  destruct (_store_content env self c (_generate_document_id env self path) _)
    as [[p|e] w2] eqn:Hs; [|unfold raise; congruence].
  unfold ret. intros [= <- <-]. simpl.
  revert Hs. unfold _store_content. rewrite try_reraise, Hst. cbv zeta.
  unfold bind at 1, call at 1.
  destruct (client _ _ _ _) as [k1|e]; [|done].
  unfold bind at 1.
  match goal with |- context [for_each ?l ?body ?s ?w0] =>
    destruct (for_each l body s w0) as [[sp|e] w3] eqn:Hloop end; [|done].
  unfold enumerate in Hloop. apply tables_upload_loop in Hloop as [-> ->].
  unfold bind at 1.
  destruct (metadata c) as [md|]; [|done]. unfold ret at 1.
  unfold bind at 1, lift at 1.
  destruct (json_dumps env _) as [js|e]; [|done].
  unfold bind at 1, call at 1.
  destruct (client _ (BytesIO (encode_utf8 js) 0) _ _) as [k3|e]; [|done].
  unfold ret. intros [= <- <-].
  split; [|split; [|split]].
  - unfold cloud_pdf_keys. rewrite <- !app_assoc. simpl.
    by rewrite fmap_app.
  - rewrite lookup_insert_ne by done.
    rewrite (foldl_insert_other (fun i => "table_" +:+ pretty i)); [by rewrite lookup_insert_eq|].
    intros i _ H. discriminate H.
  - by rewrite lookup_insert_eq.
  - intros i Hi. rewrite lookup_insert_ne by (intros H; discriminate H).
    rewrite (foldl_insert_lookup (fun i => "table_" +:+ pretty i)
               (fun i => (base_path self +:+ _generate_document_id env self path)
                         +:+ "/table_" +:+ pretty i +:+ ".csv") _ table_name_inj);
      [done|].
    apply elem_of_seq. lia.
Qed.

Lemma cloud_pdf_storage_paths_witness :
  storage Demo.cloud_pdf_storing = Some Demo.working_store /\
  exists r,
    process_pdf Demo.env_pdf_full Demo.cloud_pdf_storing "a.pdf" [] =
      (Ok r, [EvAzureAnalyze "a.pdf";
              EvUpload "PDF/Enterprise/pdf_azure_a.pdf_20250207_100000/text_content.txt";
              EvUpload "PDF/Enterprise/pdf_azure_a.pdf_20250207_100000/table_1.csv";
              EvUpload "PDF/Enterprise/pdf_azure_a.pdf_20250207_100000/metadata.json"]) /\
    [EvAzureAnalyze "a.pdf";
     EvUpload "PDF/Enterprise/pdf_azure_a.pdf_20250207_100000/text_content.txt";
     EvUpload "PDF/Enterprise/pdf_azure_a.pdf_20250207_100000/table_1.csv";
     EvUpload "PDF/Enterprise/pdf_azure_a.pdf_20250207_100000/metadata.json"] =
    [] ++ [cloud_pdf_extraction_call Demo.cloud_pdf_storing "a.pdf"]
       ++ (EvUpload <$> cloud_pdf_keys Demo.cloud_pdf_storing (document_id r)
                          (length (r_tables (r_content r)))).
Proof.
  split; [reflexivity|]. eexists. split; [vm_compute; reflexivity|].
  exact (proj1 (cloud_pdf_storage_paths Demo.env_pdf_full Demo.cloud_pdf_storing
                  Demo.working_store "a.pdf" [] _ _ eq_refl eq_refl)).
Defined.

End pdf_cloud_storage.
